(** * stock-planner: the planning engine, embedded and verified

    A shallow embedding of the Python sources of the stock planner
    ([metrics.py], [alerts.py], [planning.py], [machine_plan.py],
    [report_export.py], [production_plan_export.py]).

    Conventions of the embedding.
    - A pandas [DataFrame] is a list of column names and a list of rows, each
      row a finite map from column name to cell.  Rows are addressed by
      position: every [Series] the sources assign to a column is computed from
      the frame it is assigned to, so pandas' label alignment is the identity
      whenever the assignment succeeds.
    - Python floats are exact rationals ([Q]); [NaN] is a cell of its own and
      a numeric [Series] is a list of [option Q] with [None] for NaN.
      Infinities and binary64 rounding error are outside the model.
    - Text is ASCII ([string]).
    - [DataFrame] objects are mutable and live in a store; a Python variable
      holds a location.  [copy] allocates, item assignment updates in place. *)

From Stdlib Require Import ZArith QArith Qround Lqa Lia Ascii.
From stdpp Require Import base tactics option list gmap strings.

Local Open Scope string_scope.
Local Open Scope list_scope.

(** ** Exceptions and results *)

Inductive exn :=
| KeyError (k : string)
| ValueError (msg : string)
| TypeError
| AttributeError.

Inductive result (A : Type) :=
| Ok (a : A)
| Raise (e : exn).
Arguments Ok {A} a.
Arguments Raise {A} e.

(** ** Cells *)

Inductive value :=
| VNone
| VNaN
| VNum (q : Q)
| VStr (s : string)
| VList (l : list string)
| VDate (d : Z).

(** What the Python and pandas libraries compute on text, taken as given:
    [float_of_str] is [pd.to_numeric] on a [str] cell ([None] when the text
    is not a number), [py_repr] is [str(x)] of a number, a list or a date,
    [to_datetime] is [pd.to_datetime] as a day number. *)
Class PyLib := {
  float_of_str : string → option Q;
  py_repr : value → string;
  to_datetime : value → option Z
}.

(** A library instance for closed examples: plain decimal integers. *)
Fixpoint digits_value (acc : Z) (s : string) : option Z :=
  match s with
  | EmptyString => Some acc
  | String c s' =>
      let n := Z.of_nat (Ascii.nat_of_ascii c) in
      if ((48 <=? n) && (n <=? 57))%Z then digits_value (10 * acc + (n - 48)) s'
      else None
  end.

Definition plain_float_of_str (s : string) : option Q :=
  match s with
  | EmptyString => None
  | String c s' =>
      if Ascii.eqb c "-"%char then
        match s' with
        | EmptyString => None
        | _ => (λ z, inject_Z (- z)) <$> digits_value 0 s'
        end
      else inject_Z <$> digits_value 0 s
  end.

Definition plain_lib : PyLib := {|
  float_of_str := plain_float_of_str;
  py_repr := λ _, "0";
  to_datetime := λ _, None
|}.

(** ** Numbers *)

Definition isna (v : value) : bool :=
  match v with
  | VNone | VNaN => true
  | _ => false
  end.

(** [pd.to_numeric(x, errors="coerce")] on one cell. *)
Definition to_numeric `{PyLib} (v : value) : option Q :=
  match v with
  | VNum q => Some q
  | VStr s => float_of_str s
  | _ => None
  end.

Definition fillna (d : Q) (x : option Q) : Q := default d x.

(** Round half to even, numpy's [rint]. *)
Definition rint (x : Q) : Z :=
  let f := Qfloor x in
  match (x - inject_Z f ?= 1 # 2)%Q with
  | Lt => f
  | Gt => (f + 1)%Z
  | Eq => if Z.even f then f else (f + 1)%Z
  end.

(** [Series.round(decimals)] on one finite number. *)
Definition round_ (decimals : nat) (x : Q) : Q :=
  let s := inject_Z (10 ^ Z.of_nat decimals) in
  (inject_Z (rint (x * s)) / s)%Q.

Definition Qmax (a b : Q) : Q := if Qle_bool a b then b else a.

(** [math.ceil] *)
Definition ceil (x : Q) : Z := Qceiling x.

Definition Qltb (a b : Q) : bool := negb (Qle_bool b a).

Definition num (q : Q) : value := VNum q.
Definition of_float (x : option Q) : value :=
  match x with
  | Some q => VNum q
  | None => VNaN
  end.

(** ** Text *)

Definition isdigit (c : ascii) : bool :=
  let n := Ascii.nat_of_ascii c in (48 <=? n)%nat && (n <=? 57)%nat.

Definition isspace (c : ascii) : bool :=
  let n := Ascii.nat_of_ascii c in
  ((9 <=? n)%nat && (n <=? 13)%nat) || ((28 <=? n)%nat && (n <=? 32)%nat).

Fixpoint filter_chars (p : ascii → bool) (s : string) : string :=
  match s with
  | EmptyString => EmptyString
  | String c s' => if p c then String c (filter_chars p s') else filter_chars p s'
  end.

Fixpoint lstrip (p : ascii → bool) (s : string) : string :=
  match s with
  | EmptyString => EmptyString
  | String c s' => if p c then lstrip p s' else s
  end.

Fixpoint rstrip (p : ascii → bool) (s : string) : string :=
  match s with
  | EmptyString => EmptyString
  | String c s' =>
      match rstrip p s' with
      | EmptyString => if p c then EmptyString else String c EmptyString
      | t => String c t
      end
  end.

Definition strip (s : string) : string := rstrip isspace (lstrip isspace s).

Definition lower_char (c : ascii) : ascii :=
  let n := Ascii.nat_of_ascii c in
  if (65 <=? n)%nat && (n <=? 90)%nat then Ascii.ascii_of_nat (n + 32) else c.

Fixpoint lower (s : string) : string :=
  match s with
  | EmptyString => EmptyString
  | String c s' => String (lower_char c) (lower s')
  end.

Definition is_zero (c : ascii) : bool := Ascii.eqb c "0"%char.

(** [s.split(sep)] for a one-character separator. *)
Fixpoint split (sep : ascii) (s : string) : list string :=
  match s with
  | EmptyString => [EmptyString]
  | String c s' =>
      if Ascii.eqb c sep then EmptyString :: split sep s'
      else match split sep s' with
           | [] => [String c EmptyString]
           | t :: ts => String c t :: ts
           end
  end.

(** [str(x)] *)
Definition py_str `{PyLib} (x : value) : string :=
  match x with
  | VNone => "None"
  | VNaN => "nan"
  | VStr s => s
  | _ => py_repr x
  end.

(** ** Frames *)

Definition Series := list value.
Definition Row := gmap string value.

Record DataFrame := {
  columns : list string;
  rows : list (gmap string value)
}.

Definition cell (c : string) (r : gmap string value) : value :=
  default VNaN (r !! c).

Definition has_col (c : string) (f : DataFrame) : bool :=
  bool_decide (c ∈ columns f).

Definition col (c : string) (f : DataFrame) : list value :=
  cell c <$> rows f.

Definition add_col (c : string) (cs : list string) : list string :=
  if bool_decide (c ∈ cs) then cs else cs ++ [c].

Definition assign (c : string) (s : list value) (f : DataFrame) : DataFrame :=
  {| columns := add_col c (columns f);
     rows := zip_with (λ r v, <[c := v]> r) (rows f) s |}.

Definition assign_where (mask : list bool) (c : string) (s : list value)
    (f : DataFrame) : DataFrame :=
  {| columns := add_col c (columns f);
     rows := zip_with (λ r (mv : bool * value), if mv.1 then <[c := mv.2]> r else r)
               (rows f) (zip mask s) |}.

Definition drop_cols (cs : list string) (f : DataFrame) : DataFrame :=
  {| columns := filter (λ c, c ∉ cs) (columns f);
     rows := (λ r, foldr delete r cs) <$> rows f |}.

(** ** The state and error monad *)

Definition ST (S A : Type) : Type := S → result A * S.

Definition st_ret {S A} (a : A) : ST S A := λ s, (Ok a, s).
Definition st_bind {S A B} (m : ST S A) (k : A → ST S B) : ST S B :=
  λ s, match m s with
       | (Ok a, s') => k a s'
       | (Raise e, s') => (Raise e, s')
       end.
Definition raise {S A} (e : exn) : ST S A := λ s, (Raise e, s).
Definition get {S} : ST S S := λ s, (Ok s, s).
Definition modify {S} (g : S → S) : ST S unit := λ s, (Ok tt, g s).
Definition lift {S A} (r : result A) : ST S A := λ s, (r, s).

Declare Scope st_scope.
Delimit Scope st_scope with st.
Notation "x ← m ; k" := (st_bind m (λ x, k))
  (at level 20, m at level 100, k at level 200, only parsing) : st_scope.
Notation "m ;; k" := (st_bind m (λ _, k))
  (at level 100, k at level 200, right associativity, only parsing) : st_scope.
Local Open Scope st_scope.

Fixpoint mapM {A B} (g : A → result B) (l : list A) : result (list B) :=
  match l with
  | [] => Ok []
  | x :: l' =>
      match g x with
      | Raise e => Raise e
      | Ok y => match mapM g l' with
                | Raise e => Raise e
                | Ok ys => Ok (y :: ys)
                end
      end
  end.

(** Statements on one frame object: [df[c]], [df[c] = s],
    [df.loc[mask, c] = s], [c in df.columns]. *)
Definition FrameM (A : Type) : Type := ST DataFrame A.

Definition getitem (c : string) : FrameM (list value) :=
  λ f, if has_col c f then (Ok (col c f), f) else (Raise (KeyError c), f).
Definition setitem (c : string) (s : list value) : FrameM unit :=
  modify (assign c s).
Definition loc_setitem (mask : list bool) (c : string) (s : list value) : FrameM unit :=
  modify (assign_where mask c s).
Definition in_columns (c : string) : FrameM bool :=
  λ f, (Ok (has_col c f), f).
Definition len : FrameM nat := λ f, (Ok (length (rows f)), f).
(** A scalar on the right of an assignment is broadcast to every row. *)
Definition broadcast (v : value) : FrameM (list value) :=
  λ f, (Ok (replicate (length (rows f)) v), f).

(** The store of frame objects. *)
Definition loc := nat.
Definition store := list DataFrame.
Definition M (A : Type) : Type := ST store A.

(** [df.copy()] and every pandas method that returns a new frame. *)
Definition new (f : DataFrame) : M loc := λ σ, (Ok (length σ), σ ++ [f]).
Definition read (l : loc) : M DataFrame :=
  λ σ, match σ !! l with
       | Some f => (Ok f, σ)
       | None => (Raise (ValueError "dangling reference"), σ)
       end.
Definition copy (l : loc) : M loc := f ← read l; new f.
(** Run statements on the object at [l]. *)
Definition on {A} (l : loc) (m : FrameM A) : M A :=
  λ σ, match σ !! l with
       | Some f => let '(r, f') := m f in (r, <[l := f']> σ)
       | None => (Raise (ValueError "dangling reference"), σ)
       end.

(** ** Series helpers *)

(** A cell of a numeric column as a float; arithmetic on anything else
    raises. *)
Definition as_float (v : value) : result (option Q) :=
  match v with
  | VNum q => Ok (Some q)
  | VNaN => Ok None
  | _ => Raise TypeError
  end.

Definition map2 (g : Q → Q → Q) (a b : option Q) : option Q :=
  match a, b with
  | Some x, Some y => Some (g x y)
  | _, _ => None
  end.

(** [a / b] followed by [replace([inf, -inf], nan)]: division by zero gives
    an infinity or NaN, both of which end as NaN. *)
Definition truediv (a b : option Q) : option Q :=
  match a, b with
  | Some x, Some y => if Qeq_bool y 0 then None else Some (x / y)%Q
  | _, _ => None
  end.

(** [.astype(int)] of a finite float truncates toward zero. *)
Definition astype_int (q : Q) : Z := Z.quot (Qnum q) (Zpos (Qden q)).

Definition int_cell (q : Q) : value := VNum (inject_Z (astype_int q)).

(** [pd.to_numeric(s, errors="coerce").fillna(0).round(0).astype(int)] *)
Definition to_int_col `{PyLib} (s : list value) : list value :=
  (λ v, int_cell (round_ 0 (fillna 0 (to_numeric v)))) <$> s.

(** [pd.to_numeric(s, errors="coerce").fillna(0).round(1)] *)
Definition to_days_col `{PyLib} (s : list value) : list value :=
  (λ v, VNum (round_ 1 (fillna 0 (to_numeric v)))) <$> s.

(** * metrics.py *)

(** [(x / float(working_days)).round(0).astype(int)]: with [working_days = 0]
    the quotient is an infinity or NaN and the cast raises. *)
Definition daily_demand (working_days : Z) (v : value) : result value :=
  match as_float v with
  | Raise e => Raise e
  | Ok x =>
      match truediv x (Some (inject_Z working_days)) with
      | None => Raise (ValueError "Cannot convert non-finite values (NA or inf) to integer")
      | Some q => Ok (int_cell (round_ 0 q))
      end
  end.

Definition compute_metrics_qty_based `{PyLib} (df : loc) (working_days : Z)
    (monthly_demand_col mpi_qty_col cust_qty_col total_qty_col
     mpi_days_col cust_days_col : string) : M loc :=
  out ← copy df;
  on out (
    s ← getitem monthly_demand_col;
    setitem "Monthly Demand" (to_int_col s);;
    md ← getitem "Monthly Demand";
    daily ← lift (mapM (daily_demand working_days) md);
    setitem "Daily Demand" daily;;
    s ← getitem mpi_qty_col;
    setitem "MPI Stock Qty" (to_int_col s);;
    s ← getitem cust_qty_col;
    setitem "CUST Stock Qty" (to_int_col s);;
    s ← getitem total_qty_col;
    setitem "Stock" (to_int_col s);;
    s ← getitem mpi_days_col;
    setitem "MPI Stock days" (to_days_col s);;
    s ← getitem cust_days_col;
    setitem "CUST Stock Days" (to_days_col s);;
    a ← getitem "MPI Stock days";
    b ← getitem "CUST Stock Days";
    a ← lift (mapM as_float a);
    b ← lift (mapM as_float b);
    setitem "Total Coverage Days"
      (zip_with (λ x y, of_float (round_ 1 <$> map2 Qplus x y)) a b);;
    c ← getitem "Total Coverage Days";
    c ← lift (mapM as_float c);
    setitem "Total Coverage Month"
      ((λ x, of_float (round_ 1 <$> truediv x (Some (inject_Z working_days)))) <$> c)
  );;
  st_ret out.

(** * alerts.py *)

Definition CUST_ALERT_EXCLUDE_ITEMNOS : gset string :=
  list_to_set [
    "1002010105"; "1002010107"; "1002010301"; "1002010302"; "1002010303";
    "1002010304"; "1002010305"; "1002010308"; "1002010401"; "1002010405";
    "1002010410"; "1002010411"; "1002010412"; "1002010413"; "1002010414";
    "1002020101"; "1002080101"; "1002080102"; "1002080103"; "1002080104";
    "1002080201"; "1002080202"; "1002080203"; "1002080204"; "1002080302";
    "1002080303"; "1002080304"; "1002080401"; "1002080402"; "1002080501";
    "1002080502"; "1002080601"; "1002080701"; "1002080801"; "1002080901";
    "1002090101"; "1002080301"; "1002100102"; "1001060606"; "1001060607";
    "1001090305" ].

(** Keep digits only, and remove leading zeros. *)
Definition _digits_only `{PyLib} (x : value) : string :=
  match x with
  | VNone => ""
  | VNaN => ""
  | _ => lstrip is_zero (filter_chars isdigit (py_str x))
  end.

(** [days < t] on a cell that is not a number raises. *)
Definition _product_alert (days : value) : result string :=
  if isna days then Ok ""
  else match days with
       | VNum d =>
           if Qltb d 7 then Ok "RED"
           else if Qltb d 21 then Ok "ORANGE"
           else if Qltb d 60 then Ok "YELLOW"
           else Ok "GREEN"
       | _ => Raise TypeError
       end.

Definition _cust_alert (days : value) : result string :=
  if isna days then Ok ""
  else match days with
       | VNum d =>
           if Qltb d 5 then Ok "RED"
           else if Qltb d 10 then Ok "ORANGE"
           else if Qltb d 20 then Ok "YELLOW"
           else Ok "GREEN"
       | _ => Raise TypeError
       end.

Definition add_alerts `{PyLib} (df : loc) : M loc :=
  out ← copy df;
  on out (
    days ← getitem "Total Coverage Days";
    pa ← lift (mapM _product_alert days);
    setitem "Product Alert" (VStr <$> pa);;
    days ← getitem "CUST Stock Days";
    ca ← lift (mapM _cust_alert days);
    setitem "CUST Alert" (VStr <$> ca);;
    has ← in_columns "Item No.";
    if has : bool then
      items ← getitem "Item No.";
      let item_norm := _digits_only <$> items in
      let mask_excluded :=
        (λ k, bool_decide (k ∈ CUST_ALERT_EXCLUDE_ITEMNOS)) <$> item_norm in
      blank ← broadcast (VStr "");
      loc_setitem mask_excluded "CUST Alert" blank
    else st_ret tt
  );;
  st_ret out.

(** * planning.py *)

Definition date_cell (d : option Z) : value :=
  match d with
  | Some z => VDate z
  | None => VNaN
  end.

Definition add_planning_columns `{PyLib} (df : loc) (start_date : value)
    (working_days : Z) : M loc :=
  out ← copy df;
  on out (
    has ← in_columns "Plan Qty Input";
    (if has : bool then st_ret tt
     else nan ← broadcast VNaN; setitem "Plan Qty Input" nan);;
    has ← in_columns "Plan Months Input";
    (if has : bool then st_ret tt
     else nan ← broadcast VNaN; setitem "Plan Months Input" nan);;
    pq ← getitem "Plan Qty Input";
    md ← getitem "Monthly Demand";
    md ← lift (mapM as_float md);
    setitem "Months Covered by Plan Qty"
      (zip_with (λ x y, of_float (round_ 1 <$> truediv (to_numeric x) y)) pq md);;
    c ← getitem "Months Covered by Plan Qty";
    c ← lift (mapM as_float c);
    setitem "Months Covered by Plan Qty" ((λ x, VNum (fillna 0 x)) <$> c);;
    pm ← getitem "Plan Months Input";
    md ← getitem "Monthly Demand";
    md ← lift (mapM as_float md);
    setitem "Qty Needed for Plan Months"
      (zip_with (λ x y, of_float (round_ 0 <$> map2 Qmult (to_numeric x) y)) pm md);;
    c ← getitem "Qty Needed for Plan Months";
    setitem "Qty Needed for Plan Months"
      ((λ v, int_cell (fillna 0 (to_numeric v))) <$> c);;
    start ← match to_datetime start_date with
            | Some d => st_ret d
            | None => raise (ValueError "Unknown datetime string format")
            end;
    sd ← broadcast (VDate start);
    setitem "Start Date" sd;;
    c ← getitem "Total Coverage Days";
    c ← lift (mapM as_float c);
    let days_int := (λ x, astype_int (fillna 0 (round_ 0 <$> x))) <$> c in
    setitem "End Date" ((λ d, VDate (start + d)) <$> days_int)
  );;
  st_ret out.

(** * machine_plan.py *)

(** ** Sorting

    [sort_values] is a stable sort; NaN goes last whatever the direction. *)

Fixpoint insert_sorted {A} (le : A → A → bool) (x : A) (l : list A) : list A :=
  match l with
  | [] => [x]
  | y :: l' => if le x y then x :: l else y :: insert_sorted le x l'
  end.

Fixpoint stable_sort {A} (le : A → A → bool) (l : list A) : list A :=
  match l with
  | [] => []
  | x :: l' => insert_sorted le x (stable_sort le l')
  end.

(** The order of cells of one column: numbers by value, text by code point,
    dates by day.  The key columns the sources sort on hold one kind of cell;
    across kinds the order below is numbers, text, dates, lists. *)
Definition kind (v : value) : Z :=
  match v with
  | VNum _ => 0
  | VStr _ => 1
  | VDate _ => 2
  | VList _ => 3
  | VNone | VNaN => 4
  end.

Definition cell_compare (a b : value) : comparison :=
  match a, b with
  | VNum x, VNum y => (x ?= y)%Q
  | VStr s, VStr t => String.compare s t
  | VDate d, VDate e => (d ?= e)%Z
  | _, _ => (kind a ?= kind b)%Z
  end.

Definition key_compare (ascending : bool) (a b : value) : comparison :=
  match isna a, isna b with
  | true, true => Eq
  | true, false => Gt
  | false, true => Lt
  | false, false => if ascending then cell_compare a b else cell_compare b a
  end.

Fixpoint row_compare (by_ : list (string * bool)) (r1 r2 : gmap string value)
    : comparison :=
  match by_ with
  | [] => Eq
  | (c, ascending) :: by' =>
      match key_compare ascending (cell c r1) (cell c r2) with
      | Eq => row_compare by' r1 r2
      | o => o
      end
  end.

Definition row_le (by_ : list (string * bool)) (r1 r2 : gmap string value) : bool :=
  match row_compare by_ r1 r2 with
  | Gt => false
  | _ => true
  end.

Definition sort_values (by_ : list (string * bool)) (f : DataFrame) : DataFrame :=
  {| columns := columns f; rows := stable_sort (row_le by_) (rows f) |}.

(** ** Percentile classes *)

Definition sort_floats (l : list Q) : list Q := stable_sort Qle_bool l.

(** [Series.quantile(q)], linear interpolation between the two order
    statistics around position [q * (n - 1)]. *)
Definition quantile (q : Q) (l : list Q) : Q :=
  let a := sort_floats l in
  let h := (q * inject_Z (Z.of_nat (length a) - 1))%Q in
  let lo := Z.to_nat (Qfloor h) in
  let x0 := nth lo a 0%Q in
  let x1 := nth (S lo) a x0 in
  (x0 + (x1 - x0) * (h - inject_Z (Qfloor h)))%Q.

Definition cls (p90 p70 p40 p15 : Q) (v : Q) : string :=
  if Qle_bool p90 v then "VERY_HIGH"
  else if Qle_bool p70 v then "HIGH"
  else if Qle_bool p40 v then "MEDIUM"
  else if Qle_bool p15 v then "LOW"
  else "VERY_LOW".

Definition _classify_by_percentiles `{PyLib} (monthly_demand : list value)
    : list string :=
  let s := (λ v, fillna 0 (to_numeric v)) <$> monthly_demand in
  let nz := List.filter (Qltb 0) s in
  if bool_decide (length nz = 0%nat) then replicate (length s) "VERY_LOW"
  else
    let p90 := quantile (90 # 100) nz in
    let p70 := quantile (70 # 100) nz in
    let p40 := quantile (40 # 100) nz in
    let p15 := quantile (15 # 100) nz in
    cls p90 p70 p40 p15 <$> s.

(** ** The plan builder *)

Record PlanConfig := {
  machine_col : string;
  working_days : Z;
  demand_col : string;
  daily_col : string;
  coverage_days_col : string;
  alert_col : string;
  itemno_col : string;
  target_months_map : option (gmap string Q);
  safety_days_map : option (gmap string Q);
  min_batch_months_map : option (gmap string Q);
  batch_round_to : Z;
  target_months_input_col : string;
  safety_days_input_col : string
}.

(** The keyword defaults of [build_production_plan]. *)
Definition default_config (machine_col : string) : PlanConfig := {|
  machine_col := machine_col;
  working_days := 26;
  demand_col := "Monthly Demand";
  daily_col := "Daily Demand";
  coverage_days_col := "Total Coverage Days";
  alert_col := "Product Alert";
  itemno_col := "Item No.";
  target_months_map := None;
  safety_days_map := None;
  min_batch_months_map := None;
  batch_round_to := 0;
  target_months_input_col := "Target Months Input";
  safety_days_input_col := "Safety Days Input"
|}.

Definition default_target_months : gmap string Q :=
  list_to_map [("VERY_HIGH", 3%Q); ("HIGH", 4%Q); ("MEDIUM", 6%Q);
               ("LOW", 9%Q); ("VERY_LOW", 12%Q)].
Definition default_safety_days : gmap string Q :=
  list_to_map [("VERY_HIGH", 14%Q); ("HIGH", 10%Q); ("MEDIUM", 7%Q);
               ("LOW", 5%Q); ("VERY_LOW", 3%Q)].
Definition default_min_batch_months : gmap string Q :=
  list_to_map [("LOW", 4%Q); ("VERY_LOW", 6%Q)].

Definition priority_map : gmap string Z :=
  list_to_map [("RED", 0%Z); ("ORANGE", 1%Z); ("YELLOW", 2%Z); ("GREEN", 3%Z)].

(** [Series.map(d)]: a cell that is not a key of [d] maps to NaN. *)
Definition map_dict {V} (d : gmap string V) (v : value) : option V :=
  match v with
  | VStr s => d !! s
  | _ => None
  end.

(** [Series.isin(l)] for a list of [str]. *)
Definition isin (l : list string) (v : value) : bool :=
  match v with
  | VStr s => bool_decide (s ∈ l)
  | _ => false
  end.

(** [df.explode(c)]: one row per element of a list cell. *)
Definition explode (c : string) (f : DataFrame) : DataFrame :=
  {| columns := columns f;
     rows := flat_map (λ r,
               match cell c r with
               | VList [] => [<[c := VNaN]> r]
               | VList l => (λ e, <[c := VStr e]> r) <$> l
               | _ => [r]
               end) (rows f) |}.

(** [df.groupby(c).cumcount()]: for each row, how many earlier rows carry the
    same cell in [c]. *)
Definition same_group (a b : value) : bool :=
  match cell_compare a b with
  | Eq => true
  | _ => false
  end.

Fixpoint cumcount_from (seen : list value) (s : list value) : list nat :=
  match s with
  | [] => []
  | v :: s' =>
      length (List.filter (λ w, same_group w v) seen)
        :: cumcount_from (seen ++ [v]) s'
  end.

Definition cumcount (s : list value) : list nat := cumcount_from [] s.

(** [max(0.0, x)] of Python: the second argument only when it is greater. *)
Definition py_max (a b : Q) : Q := if Qltb a b then b else a.

(** [lambda x: int(math.ceil(max(0.0, x)))]; [max(0.0, nan)] is [0.0]. *)
Definition proposed_qty (x : option Q) : Z :=
  match x with
  | Some q => ceil (py_max 0 q)
  | None => 0
  end.

(** [lambda q: int(math.ceil(q / b) * b) if q > 0 else 0] *)
Definition round_to_batch (b : Z) (q : Z) : Z :=
  if (0 <? q)%Z then (ceil (inject_Z q / inject_Z b) * b)%Z else 0%Z.

Definition require_column (c : string) : FrameM unit :=
  has ← in_columns c;
  if has : bool then st_ret tt
  else raise (ValueError ("Missing required column: " +:+ c)).

Definition int_of_cell (v : value) : Z :=
  match v with
  | VNum q => astype_int q
  | _ => 0%Z
  end.

(** The builder works on four frame objects in turn: the copy of the master
    table, its [explode], the [sort_values] of that, and the result of
    [drop].  The statements run on each are the four blocks below, in the
    order of the source. *)

(** On the copy: the required columns, then the machine list of each row. *)
Definition prepare_machines `{PyLib} (cfg : PlanConfig) : FrameM unit :=
  require_column (machine_col cfg);;
  require_column (demand_col cfg);;
  require_column (daily_col cfg);;
  require_column (coverage_days_col cfg);;
  (* 1) explode machines *)
  m ← getitem (machine_col cfg);
  setitem (machine_col cfg) ((λ v, VStr (py_str v)) <$> m);;
  m ← getitem (machine_col cfg);
  setitem "Machine"
    ((λ v, match v with VStr s => VList (split "-" s) | _ => VNaN end) <$> m).

(** On the exploded frame: machine names, demand class, targets, plan math,
    batch rounding and the two sort helper columns. *)
Definition plan_columns `{PyLib} (cfg : PlanConfig) : FrameM unit :=
  let target_months_map := default default_target_months (target_months_map cfg) in
  let safety_days_map := default default_safety_days (safety_days_map cfg) in
  let min_batch_months_map :=
    default default_min_batch_months (min_batch_months_map cfg) in
  let wd := inject_Z (working_days cfg) in
  m ← getitem "Machine";
  setitem "Machine" ((λ v, VStr (strip (py_str v))) <$> m);;
  m ← getitem "Machine";
  unspecified ← broadcast (VStr "UNSPECIFIED");
  loc_setitem (isin ["nan"; "None"; ""] <$> m) "Machine" unspecified;;
  (* 2) demand class *)
  d ← getitem (demand_col cfg);
  setitem "Demand Class" (VStr <$> _classify_by_percentiles d);;
  (* 3) auto target months + safety days *)
  dc ← getitem "Demand Class";
  setitem "Target Months (Auto)"
    ((λ v, VNum (fillna 6 (map_dict target_months_map v))) <$> dc);;
  dc ← getitem "Demand Class";
  setitem "Safety Days (Auto)"
    ((λ v, VNum (fillna 5 (map_dict safety_days_map v))) <$> dc);;
  has ← in_columns (target_months_input_col cfg);
  (if has : bool then
     c ← getitem (target_months_input_col cfg);
     let tm_in := to_numeric <$> c in
     auto ← getitem "Target Months (Auto)";
     setitem "Target Months (Final)" auto;;
     loc_setitem
       ((λ x, match x with Some q => Qltb 0 q | None => false end) <$> tm_in)
       "Target Months (Final)" (of_float <$> tm_in)
   else
     auto ← getitem "Target Months (Auto)";
     setitem "Target Months (Final)" auto);;
  has ← in_columns (safety_days_input_col cfg);
  (if has : bool then
     c ← getitem (safety_days_input_col cfg);
     let sd_in := to_numeric <$> c in
     auto ← getitem "Safety Days (Auto)";
     setitem "Safety Days (Final)" auto;;
     loc_setitem
       ((λ x, match x with Some q => Qle_bool 0 q | None => false end) <$> sd_in)
       "Safety Days (Final)" (of_float <$> sd_in)
   else
     auto ← getitem "Safety Days (Auto)";
     setitem "Safety Days (Final)" auto);;
  (* 4) plan math *)
  c ← getitem (coverage_days_col cfg);
  let current_cov := (λ v, fillna 0 (to_numeric v)) <$> c in
  c ← getitem (daily_col cfg);
  let daily := (λ v, fillna 0 (to_numeric v)) <$> c in
  c ← getitem (demand_col cfg);
  let monthly := (λ v, fillna 0 (to_numeric v)) <$> c in
  tm ← getitem "Target Months (Final)";
  tm ← lift (mapM as_float tm);
  setitem "Target Coverage Days"
    ((λ x, of_float (round_ 1 <$> map2 Qmult x (Some wd))) <$> tm);;
  tc ← getitem "Target Coverage Days";
  tc ← lift (mapM as_float tc);
  sd ← getitem "Safety Days (Final)";
  sd ← lift (mapM as_float sd);
  setitem "Plan Coverage Days"
    (zip_with (λ x y, of_float (round_ 1 <$> map2 Qplus x y)) tc sd);;
  (* minimum batch months for slow movers *)
  dc ← getitem "Demand Class";
  let min_months := (λ v, fillna 0 (map_dict min_batch_months_map v)) <$> dc in
  let min_plan_days := (λ x, round_ 1 (x * wd)) <$> min_months in
  pc ← getitem "Plan Coverage Days";
  pc ← lift (mapM as_float pc);
  setitem "Plan Coverage Days"
    (zip_with (λ x y, VNum (round_ 1 (from_option (Qmax y) y x))) pc min_plan_days);;
  (* gap days *)
  pc ← getitem "Plan Coverage Days";
  pc ← lift (mapM as_float pc);
  setitem "Gap Days"
    (zip_with (λ x y, of_float ((λ p, round_ 1 (Qmax 0 (p - y))) <$> x))
       pc current_cov);;
  (* proposed qty (ceil) *)
  g ← getitem "Gap Days";
  g ← lift (mapM as_float g);
  setitem "Proposed Production Qty"
    (zip_with (λ x y, VNum (inject_Z (proposed_qty (map2 Qmult x (Some y)))))
       g daily);;
  (* round to batch size *)
  (if bool_decide (batch_round_to cfg ≠ 0%Z ∧ (0 < batch_round_to cfg)%Z) then
     let b := batch_round_to cfg in
     q ← getitem "Proposed Production Qty";
     setitem "Proposed Production Qty"
       ((λ v, VNum (inject_Z (round_to_batch b (int_of_cell v)))) <$> q)
   else st_ret tt);;
  (* 5) priority + rank *)
  has ← in_columns (alert_col cfg);
  (if has : bool then
     a ← getitem (alert_col cfg);
     setitem "_AlertPriority"
       ((λ v, VNum (inject_Z (default 9%Z (map_dict priority_map v)))) <$> a)
   else raise AttributeError);;
  setitem "_MonthlyDemandNum" (VNum <$> monthly).

Definition plan_sort_keys : list (string * bool) :=
  [("Machine", true); ("_AlertPriority", true); ("Gap Days", false);
   ("Proposed Production Qty", false); ("_MonthlyDemandNum", false)].

(** On the sorted frame: [groupby("Machine").cumcount() + 1]. *)
Definition rank_rows : FrameM unit :=
  m ← getitem "Machine";
  setitem "Production Rank"
    ((λ n, VNum (inject_Z (Z.of_nat n + 1))) <$> cumcount m).

(** On the frame without the helper columns: item numbers as text. *)
Definition itemno_as_str `{PyLib} (cfg : PlanConfig) : FrameM unit :=
  has ← in_columns (itemno_col cfg);
  if has : bool then
    c ← getitem (itemno_col cfg);
    setitem (itemno_col cfg) ((λ v, VStr (py_str v)) <$> c)
  else st_ret tt.

Definition build_production_plan `{PyLib} (master : loc) (cfg : PlanConfig)
    : M loc :=
  df ← copy master;
  on df (prepare_machines cfg);;
  with_lists ← read df;
  df ← new (explode "Machine" with_lists);
  on df (plan_columns cfg);;
  unsorted ← read df;
  df ← new (sort_values plan_sort_keys unsorted);
  on df rank_rows;;
  ranked ← read df;
  df ← new (drop_cols ["_AlertPriority"; "_MonthlyDemandNum"] ranked);
  on df (itemno_as_str cfg);;
  st_ret df.

(** * report_export.py *)













(** [if c in df.columns: df[c] = g(df[c])] *)
Definition update_if_present (c : string) (g : value → value) : FrameM unit :=
  has ← in_columns c;
  if has : bool then s ← getitem c; setitem c (g <$> s) else st_ret tt.








(** * production_plan_export.py *)

(** Digits only + strip leading zeros. *)
Definition _digits_key `{PyLib} (x : value) : string :=
  match x with
  | VNone => ""
  | _ => lstrip is_zero (filter_chars isdigit (py_str x))
  end.

Record Worksheet := {
  max_row : nat;
  max_column : nat;
  cells : gmap (nat * nat) value
}.

(** [ws.cell(r, c).value]; rows and columns count from 1. *)
Definition ws_cell (ws : Worksheet) (r c : nat) : result value :=
  if (r =? 0)%nat || (c =? 0)%nat
  then Raise (ValueError "Row or column values must be at least 1")
  else Ok (default VNone (cells ws !! (r, c))).

(** [ws.cell(r, c).value = v] *)
Definition ws_set (r c : nat) (v : value) (ws : Worksheet) : Worksheet :=
  {| max_row := max_row ws `max` r;
     max_column := max_column ws `max` c;
     cells := <[(r, c) := v]> (cells ws) |}.

Definition Workbook := list (string * Worksheet).

Definition sheet (name : string) (wb : Workbook) : option Worksheet :=
  snd <$> List.find (λ p, String.eqb (fst p) name) wb.

Fixpoint set_sheet (name : string) (ws : Worksheet) (wb : Workbook) : Workbook :=
  match wb with
  | [] => []
  | (n, w) :: wb' =>
      if String.eqb n name then (n, ws) :: wb' else (n, w) :: set_sheet name ws wb'
  end.

(** [l.index(x) + 1] *)
Fixpoint index_from (i : nat) (x : string) (l : list string) : option nat :=
  match l with
  | [] => None
  | y :: l' => if String.eqb y x then Some i else index_from (S i) x l'
  end.

Definition find_header (what : string) (header_row : nat) (headers_norm : list string)
    : result nat :=
  match index_from 1 (lower (strip what)) headers_norm with
  | Some c => Ok c
  | None => Raise (ValueError "Header not found")
  end.

(** [dict(zip(keys, values))]: a later pair replaces an earlier one. *)
Definition dict_of_zip {V} (ks : list string) (vs : list V) : gmap string V :=
  foldl (λ m kv, <[kv.1 := kv.2]> m) ∅ (zip ks vs).

Record FillState := {
  fs_ws : Worksheet;
  filled : nat;
  not_matched : nat;
  unmatched : list string
}.

Fixpoint for_each {S A} (l : list A) (body : A → ST S unit) : ST S unit :=
  match l with
  | [] => st_ret tt
  | x :: l' => body x;; for_each l' body
  end.

(** The body of the fill loop for template row [r]. *)
Definition fill_row `{PyLib} (qty_map : gmap string Q) (col_item col_qty : nat)
    (r : nat) : ST FillState unit :=
  st ← get;
  item_val ← lift (ws_cell (fs_ws st) r col_item);
  let key := _digits_key item_val in
  if String.eqb key "" then st_ret tt
  else
    match qty_map !! key with
    | Some q =>
        modify (λ st, {| fs_ws := ws_set r col_qty (VNum q) (fs_ws st);
                         filled := filled st + 1;
                         not_matched := not_matched st;
                         unmatched := unmatched st |})
    | None =>
        modify (λ st, {| fs_ws := fs_ws st;
                         filled := filled st;
                         not_matched := not_matched st + 1;
                         unmatched := unmatched st ++ [key] |})
    end.

(** The template is taken as the loaded workbook and the result as the
    workbook that is saved. *)
Definition fill_qty_in_client_orders `{PyLib} (template : Workbook)
    (plan_df : DataFrame) (plan_itemno_col plan_qty_col sheet_name : string)
    (header_row start_row : nat) (sheet_itemno_header sheet_qty_header : string)
    : result (Workbook * nat * nat * list string) :=
  if negb (has_col plan_itemno_col plan_df)
  then Raise (ValueError ("plan_df missing column: " +:+ plan_itemno_col))
  else if negb (has_col plan_qty_col plan_df)
  then Raise (ValueError ("plan_df missing column: " +:+ plan_qty_col))
  else if String.eqb plan_itemno_col plan_qty_col then Raise TypeError
  else
    let keys := _digits_key <$> col plan_itemno_col plan_df in
    let qtys := (λ v, fillna 0 (to_numeric v)) <$> col plan_qty_col plan_df in
    let qty_map := dict_of_zip keys qtys in
    match sheet sheet_name template with
    | None => Raise (ValueError ("Sheet not found: " +:+ sheet_name))
    | Some ws =>
        match mapM (ws_cell ws header_row) (seq 1 (max_column ws)) with
        | Raise e => Raise e
        | Ok headers =>
            let headers_norm :=
              (λ h, match h with
                    | VNone => ""
                    | _ => lower (strip (py_str h))
                    end) <$> headers in
            match find_header sheet_itemno_header header_row headers_norm with
            | Raise e => Raise e
            | Ok col_item =>
                match find_header sheet_qty_header header_row headers_norm with
                | Raise e => Raise e
                | Ok col_qty =>
                    let loop :=
                      for_each (seq start_row (max_row ws + 1 - start_row))
                        (fill_row qty_map col_item col_qty) in
                    match loop {| fs_ws := ws; filled := 0; not_matched := 0;
                                  unmatched := [] |} with
                    | (Raise e, _) => Raise e
                    | (Ok _, st) =>
                        Ok (set_sheet sheet_name (fs_ws st) template,
                            filled st, not_matched st, unmatched st)
                    end
                end
            end
        end
    end.

(** * Statements

    Predicates the theorems below are stated with. *)

(** The item number of row [r] is on the customer-alert exclusion list. *)
Definition excluded `{PyLib} (r : gmap string value) : bool :=
  bool_decide (_digits_only (cell "Item No." r) ∈ CUST_ALERT_EXCLUDE_ITEMNOS).

(** Row [o] is row [r] with its two alerts filled in, the customer alert
    blanked when the frame has item numbers and [r] is excluded. *)
Definition alerts_row `{PyLib} (has_itemno : bool) (r o : gmap string value)
    : Prop :=
  ∃ pa ca,
    _product_alert (cell "Total Coverage Days" r) = Ok pa ∧
    _cust_alert (cell "CUST Stock Days" r) = Ok ca ∧
    o = <["CUST Alert" := VStr (if has_itemno && excluded r then "" else ca)]>
          (<["Product Alert" := VStr pa]> r).

(** A master table with one row: an excluded item that holds no customer
    stock. *)
Definition excluded_item_row : gmap string value :=
  {[ "Item No." := VStr "01002010105";
     "Total Coverage Days" := VNum 3;
     "CUST Stock Days" := VNum 0 ]}.

Definition excluded_item_table : DataFrame :=
  {| columns := ["Item No."; "Total Coverage Days"; "CUST Stock Days"];
     rows := [excluded_item_row] |}.

(** The columns the metrics deriver writes before it reads the two day
    columns. *)
Definition metric_columns : list string :=
  ["Monthly Demand"; "Daily Demand"; "MPI Stock Qty"; "CUST Stock Qty"; "Stock"].

(** The day columns are not among them, so the deriver reads what the
    caller passed. *)
Definition days_cols_fresh (mpi_days_col cust_days_col : string) : Prop :=
  (mpi_days_col ∉ metric_columns) ∧ (cust_days_col ∉ metric_columns) ∧
  cust_days_col ≠ "MPI Stock days".

(** A day figure of the input, coerced: 0 when it does not parse. *)
Definition day_input `{PyLib} (c : string) (r : gmap string value) : Q :=
  fillna 0 (to_numeric (cell c r)).

(** Column [c] of the frame a run returned. *)
Definition result_cells (c : string) (res : result loc * store) : list value :=
  match res with
  | (Ok l, σ) => match σ !! l with
                 | Some f => col c f
                 | None => []
                 end
  | (Raise _, _) => []
  end.

(** One item whose MPI day figure is negative. *)
Definition negative_days_table : DataFrame :=
  {| columns := ["Item No."; "Min Stock / M.D."; "MPI Stock"; "CUST Stock";
                 "Total Stock"; "MPI Stock days"; "CUST Stock Days"];
     rows := [ {[ "Item No." := VStr "1001";
                  "Min Stock / M.D." := VNum 2600;
                  "MPI Stock" := VNum 0;
                  "CUST Stock" := VNum 0;
                  "Total Stock" := VNum 0;
                  "MPI Stock days" := VNum (-5);
                  "CUST Stock Days" := VNum 0 ]} ] |}.

(** One item with 4 and 6 days of stock. *)
Definition plain_days_row : gmap string value :=
  {[ "Item No." := VStr "1001";
     "Min Stock / M.D." := VNum 2600;
     "MPI Stock" := VNum 400;
     "CUST Stock" := VNum 600;
     "Total Stock" := VNum 1000;
     "MPI Stock days" := VNum 4;
     "CUST Stock Days" := VNum 6 ]}.

Definition plain_days_table : DataFrame :=
  {| columns := ["Item No."; "Min Stock / M.D."; "MPI Stock"; "CUST Stock";
                 "Total Stock"; "MPI Stock days"; "CUST Stock Days"];
     rows := [plain_days_row] |}.

(** A run that started in store [σ] on the table at [df] left the table at
    [df], and every other table of [σ], as it was, and when it returned it
    returned a table that is not [df]. *)
Definition leaves_input_unchanged (σ : store) (df : loc)
    (res : result loc * store) : Prop :=
  res.2 !! df = σ !! df ∧
  (∃ created, res.2 = σ ++ created) ∧
  ∀ out, res.1 = Ok out → out ≠ df ∧ is_Some (res.2 !! out).

(** A cell of the demand column, coerced: 0 when it does not parse. *)
Definition demand_value `{PyLib} (v : value) : Q := fillna 0 (to_numeric v).

(** The demands that are strictly positive, in the order of the column. *)
Definition positive_demands `{PyLib} (monthly_demand : list value) : list Q :=
  List.filter (Qltb 0) (demand_value <$> monthly_demand).

(** The class of one cell [v] of the column [monthly_demand]. *)
Definition demand_class `{PyLib} (monthly_demand : list value) (v : value)
    : string :=
  let nz := positive_demands monthly_demand in
  match nz with
  | [] => "VERY_LOW"
  | _ => cls (quantile (90 # 100) nz) (quantile (70 # 100) nz)
             (quantile (40 # 100) nz) (quantile (15 # 100) nz) (demand_value v)
  end.

(** A demand column with a zero, an unparseable cell and three positive
    demands. *)
Definition sample_demands : list value :=
  [VNum 100; VNum 0; VStr "n/a"; VNum 300; VNum 200].

(** ** The plan builder *)

(** The priority of an alert cell: RED 0, ORANGE 1, YELLOW 2, GREEN 3, any
    other cell 9. *)
Definition alert_priority (v : value) : Z := default 9%Z (map_dict priority_map v).

(** Batch rounding of a quantity, when a batch size is configured. *)
Definition batched (b raw : Z) : Z :=
  if (0 <? b)%Z then round_to_batch b raw else raw.

(** The columns the builder writes. *)
Definition plan_written_columns : list string :=
  ["Machine"; "Demand Class"; "Target Months (Auto)"; "Safety Days (Auto)";
   "Target Months (Final)"; "Safety Days (Final)"; "Target Coverage Days";
   "Plan Coverage Days"; "Gap Days"; "Proposed Production Qty";
   "_AlertPriority"; "_MonthlyDemandNum"; "Production Rank"].

(** The columns the configuration names as inputs: demand, daily demand,
    coverage, alert and the two optional overrides. *)
Definition input_columns (cfg : PlanConfig) : list string :=
  [demand_col cfg; daily_col cfg; coverage_days_col cfg; alert_col cfg;
   target_months_input_col cfg; safety_days_input_col cfg].

(** No input column is a column the builder writes, and none is the
    item-number column, which the builder turns into text at the end; the
    item-number column is not a column the builder writes either. *)
Definition input_names_fresh (cfg : PlanConfig) : Prop :=
  Forall (λ c, c ∉ itemno_col cfg :: plan_written_columns) (input_columns cfg) ∧
  (itemno_col cfg ∉ plan_written_columns).

(** The minimum-batch months of a demand class. *)
Definition min_batch_months (cfg : PlanConfig) (cls : string) : Q :=
  fillna 0 (default default_min_batch_months (min_batch_months_map cfg) !! cls).

(** The figures of a plan row as the builder computes them from the row's
    class, final target months and safety days, current coverage and daily
    demand. *)
Definition plan_coverage_days (cfg : PlanConfig) (cls : string) (tm sd : Q) : Q :=
  let wd := inject_Z (working_days cfg) in
  round_ 1 (Qmax (round_ 1 (min_batch_months cfg cls * wd))
                 (round_ 1 (round_ 1 (tm * wd) + sd))).

Definition gap_days (pc cov : Q) : Q := round_ 1 (Qmax 0 (pc - cov)).

Definition unrounded_qty (gap daily : Q) : Z := ceil (py_max 0 (gap * daily)).

(** The text and the number a cell holds. *)
Definition str_of (v : value) : string :=
  match v with
  | VStr s => s
  | _ => ""
  end.

Definition num_of (v : value) : Q :=
  match v with
  | VNum q => q
  | _ => 0
  end.

(** The plan figures of a row, from its class, final targets, coverage and
    daily demand cells. *)
Definition row_plan_coverage `{PyLib} (cfg : PlanConfig) (r : gmap string value) : Q :=
  plan_coverage_days cfg (str_of (cell "Demand Class" r))
    (num_of (cell "Target Months (Final)" r))
    (num_of (cell "Safety Days (Final)" r)).

Definition row_gap `{PyLib} (cfg : PlanConfig) (r : gmap string value) : Q :=
  gap_days (row_plan_coverage cfg r)
    (demand_value (cell (coverage_days_col cfg) r)).

Definition row_qty `{PyLib} (cfg : PlanConfig) (r : gmap string value) : Z :=
  batched (batch_round_to cfg)
    (unrounded_qty (row_gap cfg r) (demand_value (cell (daily_col cfg) r))).

(** A row of the frame the builder sorts: text and numbers where they
    belong, the plan figures as computed from the row's own cells, and the
    two helper columns. *)
Definition plan_row_computed `{PyLib} (cfg : PlanConfig) (r : gmap string value)
    : Prop :=
  cell "Machine" r = VStr (str_of (cell "Machine" r)) ∧
  cell "Demand Class" r = VStr (str_of (cell "Demand Class" r)) ∧
  cell "Target Months (Final)" r = VNum (num_of (cell "Target Months (Final)" r)) ∧
  cell "Safety Days (Final)" r = VNum (num_of (cell "Safety Days (Final)" r)) ∧
  cell "Plan Coverage Days" r = VNum (row_plan_coverage cfg r) ∧
  cell "Gap Days" r = VNum (row_gap cfg r) ∧
  cell "Proposed Production Qty" r = VNum (inject_Z (row_qty cfg r)) ∧
  cell "_AlertPriority" r
    = VNum (inject_Z (alert_priority (cell (alert_col cfg) r))) ∧
  cell "_MonthlyDemandNum" r = VNum (demand_value (cell (demand_col cfg) r)).

(** A valid override replaces the class default, an invalid or missing one
    leaves it. *)
Definition overridden (P : Q → bool) (o : option Q) (a : Q) : Q :=
  match o with
  | Some q => if P q then q else a
  | None => a
  end.

(** ** Orders *)

(** A three-way comparison that is an order: swapping the arguments flips
    the result, [Lt] is transitive, and [Eq] items compare alike. *)
Record comparison_order {A} (cmp : A → A → comparison) : Prop := {
  cmp_flip : ∀ a b, cmp b a = CompOpp (cmp a b);
  cmp_lt_trans : ∀ a b c, cmp a b = Lt → cmp b c = Lt → cmp a c = Lt;
  cmp_eq_l : ∀ a b c, cmp a b = Eq → cmp a c = cmp b c
}.

(** In the sorted list every row stands before the rows it is [le] to. *)
Definition ordered {A} (le : A → A → bool) (l : list A) : Prop :=
  ∀ i j x y, (i < j)%nat → l !! i = Some x → l !! j = Some y → le x y = true.

(** ** The plan builder, continued *)

(** What the builder does to a row of the sorted frame that stands [n]-th in
    its machine group: rank it, drop the helper columns, write the item
    number as text when the column is there. *)
Definition finished `{PyLib} (cfg : PlanConfig) (has_itemno : bool)
    (r : gmap string value) (n : nat) : gmap string value :=
  let ranked := <["Production Rank" := VNum (inject_Z (Z.of_nat n + 1))]> r in
  let dropped := foldr delete ranked ["_AlertPriority"; "_MonthlyDemandNum"] in
  if has_itemno
  then <[itemno_col cfg := VStr (py_str (cell (itemno_col cfg) dropped))]> dropped
  else dropped.

(** A value that is a whole number of tenths. *)
Definition on_grid (x : Q) : Prop := ∃ n : Z, (x * 10 == inject_Z n)%Q.


(** The machine, gap and quantity a plan row shows. *)
Definition machine (r : gmap string value) : string := str_of (cell "Machine" r).
Definition gap_of (r : gmap string value) : Q := num_of (cell "Gap Days" r).
Definition qty_of (r : gmap string value) : Q :=
  num_of (cell "Proposed Production Qty" r).

(** Row [r1] is ranked no later than row [r2]: lower alert priority first,
    then the larger gap, then the larger quantity, then the larger monthly
    demand. *)
Definition plan_order `{PyLib} (cfg : PlanConfig) (r1 r2 : gmap string value)
    : Prop :=
  let p r := alert_priority (cell (alert_col cfg) r) in
  let m r := demand_value (cell (demand_col cfg) r) in
  (p r1 < p r2)%Z ∨
  p r1 = p r2 ∧
  ((gap_of r2 < gap_of r1)%Q ∨
   (gap_of r1 == gap_of r2)%Q ∧
   ((qty_of r2 < qty_of r1)%Q ∨
    (qty_of r1 == qty_of r2)%Q ∧ (m r2 <= m r1)%Q)).

(** The rows of the table a run returned. *)
Definition result_rows (res : result loc * store) : list (gmap string value) :=
  match res with
  | (Ok l, σ) => match σ !! l with
                 | Some f => rows f
                 | None => []
                 end
  | (Raise _, _) => []
  end.

(** Two items, the second on two machines. *)
Definition plan_input_table : DataFrame :=
  {| columns := ["Item No."; "Machine No."; "Monthly Demand"; "Daily Demand";
                 "Total Coverage Days"; "Product Alert"];
     rows := [ {[ "Item No." := VStr "1001"; "Machine No." := VStr "M1";
                  "Monthly Demand" := VNum 260; "Daily Demand" := VNum 10;
                  "Total Coverage Days" := VNum (1026 # 100);
                  "Product Alert" := VStr "ORANGE" ]};
               {[ "Item No." := VStr "1002"; "Machine No." := VStr "M1-M2";
                  "Monthly Demand" := VNum 520; "Daily Demand" := VNum 20;
                  "Total Coverage Days" := VNum 3;
                  "Product Alert" := VStr "RED" ]} ] |}.

(** The builder run on it with the defaults. *)
Definition sample_plan_run : result loc * store :=
  build_production_plan (H:=plain_lib) 0 (default_config "Machine No.")
    [plan_input_table].

(** ** The report extracts *)

(** A row with the alert rank the report sorts on. *)
Definition with_rank (ranks : gmap string Z) (r : gmap string value)
    : gmap string value :=
  <["__alert_rank" :=
      VNum (inject_Z (default 9%Z (map_dict ranks (cell "Product Alert" r))))]> r.



(** A frame with the alert rank column the report sorts on. *)
Definition ranked (ranks : gmap string Z) (f : DataFrame) : DataFrame :=
  {| columns := add_col "__alert_rank" (columns f);
     rows := with_rank ranks <$> rows f |}.








(** ** The template fill *)

(** The item key of template row [r]: its item cell reduced to digits,
    leading zeros stripped. *)
Definition row_key `{PyLib} (ws : Worksheet) (col_item r : nat) : string :=
  _digits_key (default VNone (cells ws !! (r, col_item))).

(** The quantity of every key of the plan, as the fill builds it. *)
Definition plan_qty_map `{PyLib} (plan_df : DataFrame)
    (plan_itemno_col plan_qty_col : string) : gmap string Q :=
  dict_of_zip (_digits_key <$> col plan_itemno_col plan_df)
    ((λ v, fillna 0 (to_numeric v)) <$> col plan_qty_col plan_df).

(** The rows the fill walks over. *)
Definition template_rows (ws : Worksheet) (start_row : nat) : list nat :=
  seq start_row (max_row ws + 1 - start_row).

(** The column whose header in [header_row] is [what], compared stripped
    and in lower case. *)
Definition header_column `{PyLib} (ws : Worksheet) (header_row : nat)
    (what : string) : result nat :=
  match mapM (ws_cell ws header_row) (seq 1 (max_column ws)) with
  | Raise e => Raise e
  | Ok headers =>
      find_header what header_row
        ((λ h, match h with
               | VNone => ""
               | _ => lower (strip (py_str h))
               end) <$> headers)
  end.

(** Template row [r] has a key and the plan has it; has a key and the plan
    does not. *)
Definition matched `{PyLib} (qty_map : gmap string Q) (ws : Worksheet)
    (col_item r : nat) : bool :=
  negb (String.eqb (row_key ws col_item r) "")
  && bool_decide (is_Some (qty_map !! row_key ws col_item r)).

Definition not_in_plan `{PyLib} (qty_map : gmap string Q) (ws : Worksheet)
    (col_item r : nat) : bool :=
  negb (String.eqb (row_key ws col_item r) "")
  && bool_decide (qty_map !! row_key ws col_item r = None).

(** One turn of the fill loop as a function of the state. *)
Definition fill_step `{PyLib} (qty_map : gmap string Q) (col_item col_qty : nat)
    (st : FillState) (r : nat) : FillState :=
  let key := row_key (fs_ws st) col_item r in
  if String.eqb key "" then st
  else
    match qty_map !! key with
    | Some q => {| fs_ws := ws_set r col_qty (VNum q) (fs_ws st);
                   filled := filled st + 1;
                   not_matched := not_matched st;
                   unmatched := unmatched st |}
    | None => {| fs_ws := fs_ws st;
                 filled := filled st;
                 not_matched := not_matched st + 1;
                 unmatched := unmatched st ++ [key] |}
    end.

(** A template with a header in row 2 and four item rows, the last one
    without an item number; and a plan in which item 123 stands twice, written
    with and without leading zeros. *)
Definition sample_template : Workbook :=
  [("Clinet Orders",
    {| max_row := 6; max_column := 2;
       cells := {[ (2, 1)%nat := VStr "Item No."; (2, 2)%nat := VStr " QTY ";
                   (3, 1)%nat := VStr "123"; (3, 2)%nat := VNum 99;
                   (4, 1)%nat := VStr "0456";
                   (5, 1)%nat := VStr "789" ]} |})].

Definition sample_plan : DataFrame :=
  {| columns := ["Item No."; "Final Qty"];
     rows := [ {[ "Item No." := VStr "00123"; "Final Qty" := VNum 40 ]};
               {[ "Item No." := VStr "456"; "Final Qty" := VNum 0 ]};
               {[ "Item No." := VStr "123"; "Final Qty" := VNum 25 ]} ] |}.

(** The fill of the sample template from the sample plan, and the workbook
    it returns. *)
Definition sample_fill : result (Workbook * nat * nat * list string) :=
  fill_qty_in_client_orders (H:=plain_lib) sample_template sample_plan
    "Item No." "Final Qty" "Clinet Orders" 2 3 "Item No." "Qty".

Definition sample_filled : Workbook :=
  match sample_fill with
  | Ok (wb, _, _, _) => wb
  | Raise _ => []
  end.

(** ** Further statements *)

(** The five demand classes from the slowest to the fastest mover. *)
Definition class_rank (c : string) : nat :=
  if String.eqb c "VERY_HIGH" then 4
  else if String.eqb c "HIGH" then 3
  else if String.eqb c "MEDIUM" then 2
  else if String.eqb c "LOW" then 1
  else 0.

(** Every character of [s] satisfies [p]. *)
Fixpoint all_chars (p : ascii → bool) (s : string) : bool :=
  match s with
  | EmptyString => true
  | String c s' => p c && all_chars p s'
  end.

(** [s] does not start with the digit 0. *)
Definition no_leading_zero (s : string) : Prop :=
  match s with
  | EmptyString => True
  | String c _ => is_zero c = false
  end.

(** The machine of a plan row is a text that is stripped and is none of the
    three blanks the builder replaces. *)
Definition machine_named (r : gmap string value) : Prop :=
  cell "Machine" r = VStr (machine r) ∧
  (machine r ∉ ["nan"; "None"; ""]) ∧
  strip (machine r) = machine r.

(** The machines an item of the master table is assigned to: the parts of
    its machine cell between dashes. *)
Definition machines_of `{PyLib} (cfg : PlanConfig) (r : gmap string value)
    : list string :=
  split "-" (py_str (cell (machine_col cfg) r)).

(** The columns the builder asks for, in the order it asks. *)
Definition required_columns (cfg : PlanConfig) : list string :=
  [machine_col cfg; demand_col cfg; daily_col cfg; coverage_days_col cfg].

(** A cell the alert classifier can compare: a number or a missing value. *)
Definition numeric_or_missing (v : value) : Prop :=
  isna v = true ∨ ∃ q, v = VNum q.

(** A master table with one row: an item that is not on the exclusion list,
    with 30 days of coverage and 8 days of customer stock. *)
Definition other_item_row : gmap string value :=
  {[ "Item No." := VStr "1001";
     "Total Coverage Days" := VNum 30;
     "CUST Stock Days" := VNum 8 ]}.

Definition other_item_table : DataFrame :=
  {| columns := ["Item No."; "Total Coverage Days"; "CUST Stock Days"];
     rows := [other_item_row] |}.






(** * Verification *)

(** ** Running statements on a frame whose rows are the image of a list *)

Definition frame_of {A} (cs : list string) (F : A → gmap string value)
    (l : list A) : DataFrame :=
  {| columns := cs; rows := F <$> l |}.

(** The row functions an assignment and a masked assignment lead to. *)
Definition with_col {A} (c : string) (G : A → value)
    (F : A → gmap string value) : A → gmap string value :=
  λ x, <[c := G x]> (F x).

Definition with_col_where {A} (P : A → bool) (c : string) (G : A → value)
    (F : A → gmap string value) : A → gmap string value :=
  λ x, if P x then <[c := G x]> (F x) else F x.

(** The value of a result, [d] when it is an exception. *)
Definition unwrap {A} (d : A) (r : result A) : A :=
  match r with
  | Ok a => a
  | Raise _ => d
  end.

Lemma frame_of_id (f : DataFrame) : f = frame_of (columns f) id (rows f).
Proof. destruct f; unfold frame_of; simpl. by rewrite list_fmap_id. Qed.

Lemma bind_eq {S A B} (m : ST S A) (k : A → ST S B) (s : S) :
  st_bind m k s =
  match m s with
  | (Ok a, s') => k a s'
  | (Raise e, s') => (Raise e, s')
  end.
Proof. reflexivity. Qed.

Lemma zip_with_fmap_same {A B C D} (g : B → C → D) (F : A → B) (G : A → C)
    (l : list A) :
  zip_with g (F <$> l) (G <$> l) = (λ x, g (F x) (G x)) <$> l.
Proof. induction l as [|x l IH]; csimpl; [done|]. by f_equal. Qed.

Lemma zip_fmap_same {A B C} (F : A → B) (G : A → C) (l : list A) :
  zip (F <$> l) (G <$> l) = (λ x, (F x, G x)) <$> l.
Proof. apply zip_with_fmap_same. Qed.

Lemma replicate_fmap_const {A B} (v : B) (F : A → gmap string value) (l : list A) :
  replicate (length (F <$> l)) v = (λ _, v) <$> l.
Proof. induction l as [|x l IH]; csimpl; [done|]. by f_equal. Qed.

Lemma getitem_frame {A} c cs (F : A → gmap string value) l :
  getitem c (frame_of cs F l) =
  if bool_decide (c ∈ cs)
  then (Ok ((λ x, cell c (F x)) <$> l), frame_of cs F l)
  else (Raise (KeyError c), frame_of cs F l).
Proof.
  unfold getitem, has_col, col, frame_of; simpl.
  by rewrite <- list_fmap_compose.
Qed.

Lemma setitem_frame {A} c (G : A → value) cs (F : A → gmap string value) l :
  setitem c (G <$> l) (frame_of cs F l) =
  (Ok tt, frame_of (add_col c cs) (with_col c G F) l).
Proof.
  unfold setitem, modify, assign, frame_of; simpl.
  by rewrite zip_with_fmap_same.
Qed.

Lemma loc_setitem_frame {A} (P : A → bool) c (G : A → value) cs
    (F : A → gmap string value) l :
  loc_setitem (P <$> l) c (G <$> l) (frame_of cs F l) =
  (Ok tt, frame_of (add_col c cs) (with_col_where P c G F) l).
Proof.
  unfold loc_setitem, modify, assign_where, frame_of; simpl.
  by rewrite zip_fmap_same, zip_with_fmap_same.
Qed.

Lemma broadcast_frame {A} v cs (F : A → gmap string value) l :
  broadcast v (frame_of cs F l) = (Ok ((λ _, v) <$> l), frame_of cs F l).
Proof.
  unfold broadcast, frame_of; simpl. by rewrite replicate_fmap_const.
Qed.

Lemma in_columns_frame {A} c cs (F : A → gmap string value) l :
  in_columns c (frame_of cs F l) = (Ok (bool_decide (c ∈ cs)), frame_of cs F l).
Proof. reflexivity. Qed.

Lemma mapM_fmap_Ok {A B C} (g : B → result C) (G : A → B) (d : C) l ys :
  mapM g (G <$> l) = Ok ys →
  ys = (λ x, unwrap d (g (G x))) <$> l ∧
  Forall (λ x, ∃ y, g (G x) = Ok y) l.
Proof.
  revert ys. induction l as [|x l IH]; csimpl; intros ys E.
  - by inversion E.
  - destruct (g (G x)) as [y|e] eqn:Ex; [|done].
    destruct (mapM g (G <$> l)) as [zs|e] eqn:El; [|done].
    inversion E; subst ys. destruct (IH zs eq_refl) as [-> Hall].
    split; [done|]. constructor; eauto.
Qed.

Lemma cell_insert_eq c v (r : gmap string value) : cell c (<[c := v]> r) = v.
Proof. unfold cell. by rewrite lookup_insert_eq. Qed.

Lemma cell_insert_ne c c' v (r : gmap string value) :
  c' ≠ c → cell c (<[c' := v]> r) = cell c r.
Proof. intros. unfold cell. by rewrite lookup_insert_ne. Qed.

Lemma cell_with_col_eq {A} c (G : A → value) F x :
  cell c (with_col c G F x) = G x.
Proof. apply cell_insert_eq. Qed.

Lemma cell_with_col_ne {A} c c' (G : A → value) F x :
  c' ≠ c → cell c (with_col c' G F x) = cell c (F x).
Proof. apply cell_insert_ne. Qed.

Lemma cell_with_col_where_eq {A} (P : A → bool) c (G : A → value) F x :
  cell c (with_col_where P c G F x) = if P x then G x else cell c (F x).
Proof. unfold with_col_where. destruct (P x); [apply cell_insert_eq|done]. Qed.

Lemma cell_with_col_where_ne {A} (P : A → bool) c c' (G : A → value) F x :
  c' ≠ c → cell c (with_col_where P c' G F x) = cell c (F x).
Proof.
  intros. unfold with_col_where. destruct (P x); [by apply cell_insert_ne|done].
Qed.

Lemma cell_delete_ne c c' (r : gmap string value) :
  c' ≠ c → cell c (delete c' r) = cell c r.
Proof. intros. unfold cell. by rewrite lookup_delete_ne. Qed.

(** ** The store *)

Lemma lookup_fresh (σ : store) f : (σ ++ [f]) !! length σ = Some f.
Proof. rewrite lookup_app_r by lia. by rewrite Nat.sub_diag. Qed.

Lemma insert_fresh (σ : store) f g : <[length σ := g]> (σ ++ [f]) = σ ++ [g].
Proof.
  rewrite insert_app_r_alt by lia. by rewrite Nat.sub_diag.
Qed.

Lemma on_fresh {A} (m : FrameM A) (σ : store) f :
  on (length σ) m (σ ++ [f]) = ((m f).1, σ ++ [(m f).2]).
Proof.
  unfold on. rewrite lookup_fresh. destruct (m f) as [r f'].
  by rewrite insert_fresh.
Qed.

Lemma copy_eq (σ : store) l f :
  σ !! l = Some f → copy l σ = (Ok (length σ), σ ++ [f]).
Proof. intros E. unfold copy, read, new, st_bind. by rewrite E. Qed.

Lemma read_fresh (σ : store) f : read (length σ) (σ ++ [f]) = (Ok f, σ ++ [f]).
Proof. unfold read. by rewrite lookup_fresh. Qed.

(** The shape shared by the metrics deriver, the alert classifier and the
    planning augmenter: copy, run the body on the copy, return it. *)
Lemma copy_on_ret {A} (body : FrameM A) (σ : store) l f :
  σ !! l = Some f →
  (out ← copy l; on out body;; st_ret out) σ =
  (match (body f).1 with Ok _ => Ok (length σ) | Raise e => Raise e end,
   σ ++ [(body f).2]).
Proof.
  intros E. rewrite bind_eq, (copy_eq _ _ _ E), bind_eq, on_fresh.
  by destruct (body f).1.
Qed.

(** ** Stepping through statements *)

Lemma bind_assoc {S A B C} (m : ST S A) (k1 : A → ST S B) (k2 : B → ST S C) s :
  st_bind (st_bind m k1) k2 s = st_bind m (λ a, st_bind (k1 a) k2) s.
Proof. unfold st_bind. by destruct (m s) as [[a|e] s']. Qed.

Lemma bind_ret {S A B} (a : A) (k : A → ST S B) s : st_bind (st_ret a) k s = k a s.
Proof. reflexivity. Qed.

Lemma bind_lift {S A B} (r : result A) (k : A → ST S B) s :
  st_bind (lift r) k s =
  match r with
  | Ok a => k a s
  | Raise e => (Raise e, s)
  end.
Proof. by destruct r. Qed.

Lemma bind_raise {S A B} e (k : A → ST S B) s :
  st_bind (raise e) k s = (Raise e, s).
Proof. reflexivity. Qed.

Lemma bind_getitem {A B} c (k : list value → FrameM B) cs
    (F : A → gmap string value) l :
  st_bind (getitem c) k (frame_of cs F l) =
  if bool_decide (c ∈ cs)
  then k ((λ x, cell c (F x)) <$> l) (frame_of cs F l)
  else (Raise (KeyError c), frame_of cs F l).
Proof. rewrite bind_eq, getitem_frame. by case_bool_decide. Qed.

Lemma bind_setitem {A B} c (G : A → value) (k : unit → FrameM B) cs
    (F : A → gmap string value) l :
  st_bind (setitem c (G <$> l)) k (frame_of cs F l) =
  k tt (frame_of (add_col c cs) (with_col c G F) l).
Proof. by rewrite bind_eq, setitem_frame. Qed.

Lemma bind_loc_setitem {A B} (P : A → bool) c (G : A → value)
    (k : unit → FrameM B) cs (F : A → gmap string value) l :
  st_bind (loc_setitem (P <$> l) c (G <$> l)) k (frame_of cs F l) =
  k tt (frame_of (add_col c cs) (with_col_where P c G F) l).
Proof. by rewrite bind_eq, loc_setitem_frame. Qed.

Lemma bind_broadcast {A B} v (k : list value → FrameM B) cs
    (F : A → gmap string value) l :
  st_bind (broadcast v) k (frame_of cs F l) =
  k ((λ _, v) <$> l) (frame_of cs F l).
Proof. by rewrite bind_eq, broadcast_frame. Qed.

Lemma bind_in_columns {A B} c (k : bool → FrameM B) cs
    (F : A → gmap string value) l :
  st_bind (in_columns c) k (frame_of cs F l) =
  k (bool_decide (c ∈ cs)) (frame_of cs F l).
Proof. reflexivity. Qed.

Lemma ret_eq {S A} (a : A) (s : S) : st_ret a s = (Ok a, s).
Proof. reflexivity. Qed.

Lemma elem_of_add_col c c' cs : c ∈ add_col c' cs ↔ c = c' ∨ c ∈ cs.
Proof.
  unfold add_col. case_bool_decide.
  - split; [by right|]. intros [->|]; done.
  - rewrite elem_of_app, list_elem_of_singleton. tauto.
Qed.

Lemma Forall2_fmap_same {A B} (R : A → B → Prop) (F : A → B) l :
  Forall (λ x, R x (F x)) l → Forall2 R l (F <$> l).
Proof. induction 1; csimpl; constructor; auto. Qed.

Lemma bind_lift_Ok {S A B} (a : A) (k : A → ST S B) s :
  st_bind (lift (Ok a)) k s = k a s.
Proof. reflexivity. Qed.

Lemma bind_lift_Raise {S A B} e (k : A → ST S B) s :
  st_bind (lift (Raise e)) k s = (Raise e, s).
Proof. reflexivity. Qed.

Lemma bind_if {S A B} (b : bool) (m1 m2 : ST S A) (k : A → ST S B) s :
  st_bind (if b then m1 else m2) k s =
  if b then st_bind m1 k s else st_bind m2 k s.
Proof. by destruct b. Qed.

Lemma if_apply {S A} (b : bool) (m1 m2 : ST S A) s :
  (if b then m1 else m2) s = if b then m1 s else m2 s.
Proof. by destruct b. Qed.

(** Membership in the columns after some assignments. *)
Ltac in_cols :=
  solve [ repeat first
            [ assumption
            | apply elem_of_add_col; left; reflexivity
            | apply elem_of_add_col; right ] ].

(** Bring a series to the form [G <$> l]. *)
Ltac fuse H := progress (rewrite <- ?list_fmap_compose, ?zip_with_fmap_same in H);
  unfold compose in H.

(** Name the row function an assignment produced, so that later reads of
    the frame mention it by name. *)
Ltac name_row H :=
  try match type of H with
      | context [frame_of _ (with_col ?c ?G ?F) _] =>
          let F' := fresh "F" in set (F' := with_col c G F) in H
      | context [frame_of _ (with_col_where ?P ?c ?G ?F) _] =>
          let F' := fresh "F" in set (F' := with_col_where P c G F) in H
      end.

Ltac split_cond H P :=
  first
    [ rewrite (bool_decide_eq_true_2 P) in H by in_cols
    | rewrite (bool_decide_eq_false_2 P) in H by assumption
    | let E := fresh "Hcol" in
      destruct (bool_decide P) eqn:E;
      [ apply bool_decide_eq_true in E | apply bool_decide_eq_false in E ] ];
  cbv beta iota in H; try discriminate H.

(** [mapM] over a column either raises, which ends the run, or returns the
    column of unwrapped results. *)
Ltac split_mapM H g G l d :=
  let E := fresh "E" in
  let ys := fresh "ys" in
  let Hall := fresh "Hall" in
  destruct (mapM g (G <$> l)) as [ys|?] eqn:E;
  [ destruct (mapM_fmap_Ok g G d l ys E) as [-> Hall]; clear E;
    rewrite bind_lift_Ok in H
  | rewrite bind_lift_Raise in H; discriminate H ].

(** One statement of a body running on [frame_of cs F l]. *)
Ltac step_in H :=
  lazymatch type of H with
  | st_bind (st_bind _ _) _ _ = _ => rewrite bind_assoc in H
  | st_bind (st_ret _) _ _ = _ => rewrite bind_ret in H
  | st_bind (raise _) _ _ = _ => rewrite bind_raise in H; discriminate H
  | st_bind (require_column _) _ _ = _ => unfold require_column in H
  | st_bind (update_if_present _ _) _ _ = _ => unfold update_if_present in H
  | st_bind (getitem ?c) ?k (frame_of ?cs ?F ?l) = _ =>
      rewrite (bind_getitem c k cs F l) in H
  | st_bind (in_columns ?c) ?k (frame_of ?cs ?F ?l) = _ =>
      rewrite (bind_in_columns c k cs F l) in H
  | st_bind (broadcast ?v) ?k (frame_of ?cs ?F ?l) = _ =>
      rewrite (bind_broadcast v k cs F l) in H
  | st_bind (setitem ?c (?G <$> ?l)) ?k (frame_of ?cs ?F ?l) = _ =>
      rewrite (bind_setitem c G k cs F l) in H; name_row H
  | st_bind (loc_setitem (?P <$> ?l) ?c (?G <$> ?l)) ?k (frame_of ?cs ?F ?l) = _ =>
      rewrite (bind_loc_setitem P c G k cs F l) in H; name_row H
  | st_bind (lift (mapM ?g (?G <$> ?l))) _ _ = _ =>
      first [ split_mapM H g G l "" | split_mapM H g G l (@None Q)
            | split_mapM H g G l VNaN ]
  | st_bind (if _ then _ else _) _ _ = _ => rewrite bind_if in H
  | (if bool_decide ?P then _ else _) = _ => split_cond H P
  | (if _ then _ else _) _ = _ => rewrite if_apply in H
  | getitem ?c (frame_of ?cs ?F ?l) = _ => rewrite (getitem_frame c cs F l) in H
  | setitem ?c (?G <$> ?l) (frame_of ?cs ?F ?l) = _ =>
      rewrite (setitem_frame c G cs F l) in H; name_row H
  | loc_setitem (?P <$> ?l) ?c (?G <$> ?l) (frame_of ?cs ?F ?l) = _ =>
      rewrite (loc_setitem_frame P c G cs F l) in H; name_row H
  | st_ret _ _ = _ => rewrite ret_eq in H
  | raise _ _ = _ => discriminate H
  | _ => fuse H
  end;
  cbv beta in H.

Ltac run_in H := repeat step_in H.

(** Enter the body of a function of the shape [copy; on out body; ret out]
    that returned normally. *)
Ltac enter_body Hrun Hdf Hb :=
  rewrite (copy_on_ret _ _ _ _ Hdf) in Hrun;
  match type of Hrun with
  | context [ (?b ?f).1 ] =>
      let r := fresh "r" in
      let f' := fresh "fo" in
      destruct (b f) as [r f'] eqn:Hb;
      rewrite (frame_of_id f) in Hb;
      cbn [fst snd] in Hrun;
      destruct r as [?|?]; [|discriminate Hrun];
      injection Hrun as <- <-
  end.

(** Instantiate the per-column success facts at one row. *)
Ltac at_row r Hr :=
  repeat match goal with
  | Hx : ∀ x, x ∈ _ → ∃ y, _ = Ok y |- _ =>
      let y := fresh "y" in
      let E := fresh "Ey" in
      destruct (Hx r Hr) as [y E]; clear Hx
  end.

Ltac ne_names :=
  solve [ discriminate | assumption | apply not_eq_sym; assumption ].

(** Read a cell through the chain of assignments that built a row. *)
Ltac read_cell_step :=
  match goal with
  | |- context [cell ?c (id ?x)] => change (cell c (id x)) with (cell c x)
  | |- context [cell ?c (with_col ?c ?G ?F ?x)] =>
      rewrite (cell_with_col_eq c G F x)
  | |- context [cell ?c (with_col ?c' ?G ?F ?x)] =>
      rewrite (cell_with_col_ne c c' G F x) by ne_names
  | |- context [cell ?c (with_col_where ?P ?c ?G ?F ?x)] =>
      rewrite (cell_with_col_where_eq P c G F x)
  | |- context [cell ?c (with_col_where ?P ?c' ?G ?F ?x)] =>
      rewrite (cell_with_col_where_ne P c c' G F x) by ne_names
  | |- context [cell _ (?F _)] => is_var F; unfold F
  end; cbv beta.

Ltac read_cells := repeat read_cell_step.

(** ** Numbers *)

Lemma Qltb_lt a b : Qltb a b = true ↔ (a < b)%Q.
Proof.
  unfold Qltb. rewrite negb_true_iff, <- not_true_iff_false, Qle_bool_iff.
  split; [apply Qnot_le_lt|apply Qlt_not_le].
Qed.

Lemma Qltb_ge a b : Qltb a b = false ↔ (b <= a)%Q.
Proof. unfold Qltb. by rewrite negb_false_iff, Qle_bool_iff. Qed.

Lemma rint_comp x y : (x == y)%Q → rint x = rint y.
Proof.
  intros E. unfold rint. rewrite (Qfloor_comp _ _ E).
  assert (E' : (x - inject_Z (Qfloor y) == y - inject_Z (Qfloor y))%Q)
    by (by rewrite E).
  by rewrite (Qcompare_comp _ _ E' _ _ (Qeq_refl _)).
Qed.

Lemma rint_inject_Z n : rint (inject_Z n) = n.
Proof.
  unfold rint. rewrite Qfloor_Z.
  assert (E : (inject_Z n - inject_Z n ?= 1 # 2)%Q = Lt).
  { rewrite <- Qlt_alt. lra. }
  by rewrite E.
Qed.

Lemma rint_ge_floor x : (Qfloor x <= rint x)%Z.
Proof.
  unfold rint. destruct (_ ?= _)%Q; [destruct (Z.even _)|..]; lia.
Qed.

Lemma rint_nonneg x : (0 <= x)%Q → (0 <= rint x)%Z.
Proof.
  intros Hx. pose proof (rint_ge_floor x).
  assert (0 <= Qfloor x)%Z; [|lia].
  change 0%Z with (Qfloor 0). by apply Qfloor_resp_le.
Qed.

Lemma scale_pos k : (0 < inject_Z (10 ^ Z.of_nat k))%Q.
Proof.
  change 0%Q with (inject_Z 0). rewrite <- Zlt_Qlt.
  apply Z.pow_pos_nonneg; lia.
Qed.

Lemma round_nonneg k x : (0 <= x)%Q → (0 <= round_ k x)%Q.
Proof.
  intros Hx. unfold round_. pose proof (scale_pos k) as Hs.
  apply Qle_shift_div_l; [done|]. rewrite Qmult_0_l.
  change 0%Q with (inject_Z 0). rewrite <- Zle_Qle.
  apply rint_nonneg. by apply Qmult_le_0_compat; [|apply Qlt_le_weak].
Qed.

(** A rounded value is a multiple of the unit of its last place, and
    rounding leaves such a multiple alone. *)
Lemma round_on_grid k x n :
  (x * inject_Z (10 ^ Z.of_nat k) == inject_Z n)%Q → (round_ k x == x)%Q.
Proof.
  intros E. unfold round_. rewrite (rint_comp _ _ E), rint_inject_Z, <- E.
  pose proof (scale_pos k). field. lra.
Qed.

Lemma round_scaled k x :
  (round_ k x * inject_Z (10 ^ Z.of_nat k) == inject_Z (rint (x * inject_Z (10 ^ Z.of_nat k))))%Q.
Proof. unfold round_. pose proof (scale_pos k). field. lra. Qed.

Lemma round_plus_round k a b :
  (round_ k (round_ k a + round_ k b) == round_ k a + round_ k b)%Q.
Proof.
  apply (round_on_grid k _
           (rint (a * inject_Z (10 ^ Z.of_nat k)) + rint (b * inject_Z (10 ^ Z.of_nat k)))).
  rewrite inject_Z_plus, Qmult_plus_distr_l, !round_scaled. reflexivity.
Qed.

(** ** alerts.py *)

Section alerts_proofs.
Context `{PyLib}.

(** C4: the product alert is empty for NaN, RED below 7, ORANGE from 7 and
    below 21, YELLOW from 21 and below 60, GREEN from 60; the customer alert
    is empty for NaN, RED below 5, ORANGE from 5 and below 10, YELLOW from 10
    and below 20, GREEN from 20.  A value on a boundary is in the better
    tier. *)
Theorem alert_tiers (d : Q) :
  _product_alert VNaN = Ok "" ∧
  ((d < 7)%Q → _product_alert (VNum d) = Ok "RED") ∧
  ((7 <= d)%Q → (d < 21)%Q → _product_alert (VNum d) = Ok "ORANGE") ∧
  ((21 <= d)%Q → (d < 60)%Q → _product_alert (VNum d) = Ok "YELLOW") ∧
  ((60 <= d)%Q → _product_alert (VNum d) = Ok "GREEN") ∧
  _cust_alert VNaN = Ok "" ∧
  ((d < 5)%Q → _cust_alert (VNum d) = Ok "RED") ∧
  ((5 <= d)%Q → (d < 10)%Q → _cust_alert (VNum d) = Ok "ORANGE") ∧
  ((10 <= d)%Q → (d < 20)%Q → _cust_alert (VNum d) = Ok "YELLOW") ∧
  ((20 <= d)%Q → _cust_alert (VNum d) = Ok "GREEN").
Proof.
  unfold _product_alert, _cust_alert. cbn [isna].
  repeat split; try reflexivity; intros;
    repeat match goal with
    | |- context [Qltb d ?t] =>
        let E := fresh "E" in
        destruct (Qltb d t) eqn:E;
        [ apply Qltb_lt in E | apply Qltb_ge in E ]
    end;
    first [ reflexivity | exfalso; lra ].
Qed.

Lemma add_alerts_run (σ : store) df f out σ' :
  σ !! df = Some f →
  add_alerts df σ = (Ok out, σ') →
  ∃ fo, out = length σ ∧ σ' = σ ++ [fo] ∧
        Forall2 (alerts_row (has_col "Item No." f)) (rows f) (rows fo).
Proof.
  intros Hdf Hrun. unfold add_alerts in Hrun.
  enter_body Hrun Hdf Hb.
  run_in Hb; apply pair_equal_spec in Hb as [_ <-]; eexists;
    (split; [reflexivity|]); (split; [reflexivity|]);
    unfold frame_of; cbn [rows]; apply Forall2_fmap_same.
  all: rewrite Forall_forall in *; intros r Hr; at_row r Hr.
  all: repeat match goal with E : _ = Ok _ |- _ => revert E end.
  all: read_cells; intros Hca Hpa; unfold alerts_row; eexists _, _.
  all: (split; [exact Hpa|]); (split; [exact Hca|]).
  all: repeat match goal with F := _ |- _ => subst F end.
  all: unfold with_col, with_col_where, id; cbv beta.
  all: rewrite ?cell_insert_ne by discriminate.
  all: rewrite Hpa, Hca; cbn [unwrap].
  - rewrite !elem_of_add_col in Hcol1.
    destruct Hcol1 as [?|[?|Hin]]; [done..|].
    unfold has_col, excluded. rewrite (bool_decide_eq_true_2 _ Hin). cbn [andb].
    case_bool_decide; [by rewrite insert_insert_eq|done].
  - rewrite !elem_of_add_col in Hcol1.
    unfold has_col. rewrite bool_decide_eq_false_2 by tauto. done.
Qed.

(** C7: an item whose digits-only item number, leading zeros stripped, is on
    the exclusion list comes out of the alert classifier with an empty
    customer alert whatever its customer stock days, with the product alert
    the product classifier assigns, and with every other cell as it was. *)
Theorem excluded_items_have_blank_customer_alert (σ : store) df f out σ' i r :
  σ !! df = Some f →
  add_alerts df σ = (Ok out, σ') →
  rows f !! i = Some r →
  has_col "Item No." f = true →
  _digits_only (cell "Item No." r) ∈ CUST_ALERT_EXCLUDE_ITEMNOS →
  ∃ fo o pa,
    σ' !! out = Some fo ∧ rows fo !! i = Some o ∧
    _product_alert (cell "Total Coverage Days" r) = Ok pa ∧
    cell "CUST Alert" o = VStr "" ∧
    cell "Product Alert" o = VStr pa ∧
    ∀ c, c ≠ "CUST Alert" → c ≠ "Product Alert" → o !! c = r !! c.
Proof.
  intros Hdf Hrun Hi Hhas Hex.
  destruct (add_alerts_run _ _ _ _ _ Hdf Hrun) as (fo & -> & -> & Hrows).
  destruct (Forall2_lookup_l _ _ _ _ _ Hrows Hi)
    as (o & Ho & pa & ca & Hpa & Hca & ->).
  eexists fo, _, pa. rewrite lookup_fresh.
  split; [done|]. split; [exact Ho|]. split; [done|]. repeat split.
  - rewrite Hhas. cbn [andb]. unfold excluded. rewrite bool_decide_eq_true_2 by done.
    apply cell_insert_eq.
  - rewrite cell_insert_ne by done. apply cell_insert_eq.
  - intros c ? ?. by rewrite !lookup_insert_ne.
Qed.

End alerts_proofs.

Lemma alert_tiers_witness :
  _product_alert (VNum 7) = Ok "ORANGE" ∧ _cust_alert (VNum 20) = Ok "GREEN".
Proof.
  split.
  - apply (alert_tiers 7); lra.
  - apply (alert_tiers 20); lra.
Defined.

Lemma excluded_item_witness :
  ∃ fo o pa,
    (add_alerts (H:=plain_lib) 0 [excluded_item_table]).2 !! 1%nat = Some fo ∧
    rows fo !! 0%nat = Some o ∧
    _product_alert (cell "Total Coverage Days" excluded_item_row) = Ok pa ∧
    cell "CUST Alert" o = VStr "" ∧
    cell "Product Alert" o = VStr pa ∧
    ∀ c, c ≠ "CUST Alert" → c ≠ "Product Alert" → o !! c = excluded_item_row !! c.
Proof.
  apply (excluded_items_have_blank_customer_alert (H:=plain_lib)
           [excluded_item_table] 0 excluded_item_table 1
           (add_alerts (H:=plain_lib) 0 [excluded_item_table]).2 0).
  - reflexivity.
  - vm_compute. reflexivity.
  - reflexivity.
  - vm_compute. reflexivity.
  - refine (bool_decide_unpack _ _). vm_compute. exact I.
Defined.

(** Split [c ∉ [a; b; ...]] into its inequalities. *)
Ltac split_fresh H :=
  repeat match type of H with
  | _ ∉ _ :: _ => let E := fresh "Hne" in apply not_elem_of_cons in H as [E H]
  end.

(** ** metrics.py *)

Section metrics_proofs.
Context `{PyLib}.

(** C5, as amended: when the two day columns are not columns the deriver
    writes first, every output row has [Total Coverage Days] equal to
    [MPI Stock days + CUST Stock Days], each the input coerced to 0 when it
    does not parse and rounded to one decimal; the sum is not clamped, and it
    is non-negative when both coerced inputs are. *)
Theorem total_coverage_days_is_sum_of_rounded_days (σ : store) df f wd
    c1 c2 c3 c4 mpi_days_col cust_days_col out σ' i r :
  σ !! df = Some f →
  days_cols_fresh mpi_days_col cust_days_col →
  compute_metrics_qty_based df wd c1 c2 c3 c4 mpi_days_col cust_days_col σ
    = (Ok out, σ') →
  rows f !! i = Some r →
  ∃ fo o t,
    σ' !! out = Some fo ∧ rows fo !! i = Some o ∧
    cell "MPI Stock days" o = VNum (round_ 1 (day_input mpi_days_col r)) ∧
    cell "CUST Stock Days" o = VNum (round_ 1 (day_input cust_days_col r)) ∧
    cell "Total Coverage Days" o = VNum t ∧
    (t == round_ 1 (day_input mpi_days_col r)
          + round_ 1 (day_input cust_days_col r))%Q ∧
    ((0 <= day_input mpi_days_col r)%Q → (0 <= day_input cust_days_col r)%Q →
     (0 <= t)%Q).
Proof.
  intros Hdf (Hm & Hc & Hcm) Hrun Hi.
  unfold metric_columns in *. split_fresh Hm. split_fresh Hc.
  unfold compute_metrics_qty_based in Hrun.
  enter_body Hrun Hdf Hb.
  unfold to_int_col, to_days_col in Hb.
  run_in Hb. apply pair_equal_spec in Hb as [_ <-].
  eexists _, _, _. rewrite lookup_fresh. split; [done|].
  unfold frame_of; cbn [rows]. rewrite list_lookup_fmap, Hi. split; [done|].
  read_cells. cbn [as_float unwrap map2 of_float fmap option_fmap option_map].
  fold (day_input mpi_days_col r) (day_input cust_days_col r).
  split; [done|]. split; [done|]. split; [done|].
  split; [apply round_plus_round|].
  intros Ha Hb. rewrite round_plus_round.
  pose proof (round_nonneg 1 _ Ha). pose proof (round_nonneg 1 _ Hb). lra.
Qed.
End metrics_proofs.

Lemma total_coverage_days_witness :
  ∃ fo o t,
    (compute_metrics_qty_based (H:=plain_lib) 0 26 "Min Stock / M.D." "MPI Stock"
       "CUST Stock" "Total Stock" "MPI Stock days" "CUST Stock Days"
       [plain_days_table]).2 !! 1%nat = Some fo ∧
    rows fo !! 0%nat = Some o ∧
    cell "MPI Stock days" o
      = VNum (round_ 1 (day_input (H:=plain_lib) "MPI Stock days" plain_days_row)) ∧
    cell "CUST Stock Days" o
      = VNum (round_ 1 (day_input (H:=plain_lib) "CUST Stock Days" plain_days_row)) ∧
    cell "Total Coverage Days" o = VNum t ∧
    (t == round_ 1 (day_input (H:=plain_lib) "MPI Stock days" plain_days_row)
          + round_ 1 (day_input (H:=plain_lib) "CUST Stock Days" plain_days_row))%Q ∧
    ((0 <= day_input (H:=plain_lib) "MPI Stock days" plain_days_row)%Q →
     (0 <= day_input (H:=plain_lib) "CUST Stock Days" plain_days_row)%Q →
     (0 <= t)%Q).
Proof.
  apply (total_coverage_days_is_sum_of_rounded_days (H:=plain_lib)
           [plain_days_table] 0 plain_days_table 26 "Min Stock / M.D."
           "MPI Stock" "CUST Stock" "Total Stock" "MPI Stock days"
           "CUST Stock Days" 1 _ 0).
  - reflexivity.
  - repeat split; unfold metric_columns;
      rewrite ?not_elem_of_cons; repeat split; try discriminate;
      apply not_elem_of_nil.
  - vm_compute. reflexivity.
  - reflexivity.
Defined.

(** C5 as stated fails: a negative day figure gives a negative total. *)
Lemma negative_days_give_negative_coverage :
  result_cells "Total Coverage Days"
    (compute_metrics_qty_based (H:=plain_lib) 0 26 "Min Stock / M.D." "MPI Stock"
       "CUST Stock" "Total Stock" "MPI Stock days" "CUST Stock Days"
       [negative_days_table])
  = [VNum (-50 # 10)] ∧ (-50 # 10 < 0)%Q.
Proof. split; [vm_compute; reflexivity | reflexivity]. Qed.

(** ** The input table is never written *)

Lemma new_eq (g : DataFrame) (σ : store) : new g σ = (Ok (length σ), σ ++ [g]).
Proof. reflexivity. Qed.

Lemma extended_unchanged (σ created : store) (df : loc) (r : result loc) :
  (∀ out, r = Ok out → length σ ≤ out < length (σ ++ created)) →
  is_Some (σ !! df) ∨ created = [] →
  leaves_input_unchanged σ df (r, σ ++ created).
Proof.
  intros Hout Hdf. unfold leaves_input_unchanged, store in *. cbn [fst snd].
  split; [|split].
  - destruct Hdf as [[d Hd]| ->].
    + rewrite lookup_app_l; [done|]. by apply lookup_lt_Some in Hd.
    + by rewrite app_nil_r.
  - by eexists.
  - intros out ->. destruct (Hout out eq_refl) as [Hlo Hhi]. split.
    + destruct Hdf as [[d Hd]| ->].
      * apply lookup_lt_Some in Hd. lia.
      * rewrite app_nil_r in Hhi. lia.
    + by apply lookup_lt_is_Some.
Qed.

Lemma copy_dangling {A} (k : loc → M A) (σ : store) l :
  σ !! l = None →
  ∃ e, st_bind (copy l) k σ = (Raise e, σ).
Proof.
  intros E. unfold copy, read, st_bind. rewrite E. by eexists.
Qed.

Section frame_proofs.
Context `{PyLib}.

Lemma copy_on_ret_unchanged {A} (body : FrameM A) (σ : store) df :
  leaves_input_unchanged σ df ((out ← copy df; on out body;; st_ret out) σ).
Proof.
  destruct (σ !! df) as [f|] eqn:Hdf.
  - rewrite (copy_on_ret _ _ _ _ Hdf).
    apply extended_unchanged; [|left; by eexists].
    intros out E. destruct (body f).1; [|done]. injection E as <-.
    rewrite length_app. simpl. lia.
  - destruct (copy_dangling (λ out, on out body;; st_ret out) σ df Hdf) as [e ->].
    rewrite <- (app_nil_r σ) at 2.
    apply extended_unchanged; [done|by right].
Qed.

Lemma build_run (σ : store) master f cfg :
  σ !! master = Some f →
  build_production_plan master cfg σ =
  let r1 := prepare_machines cfg f in
  match r1.1 with
  | Raise e => (Raise e, σ ++ [r1.2])
  | Ok _ =>
      let r2 := plan_columns cfg (explode "Machine" r1.2) in
      match r2.1 with
      | Raise e => (Raise e, σ ++ [r1.2; r2.2])
      | Ok _ =>
          let r3 := rank_rows (sort_values plan_sort_keys r2.2) in
          match r3.1 with
          | Raise e => (Raise e, σ ++ [r1.2; r2.2; r3.2])
          | Ok _ =>
              let r4 :=
                itemno_as_str cfg
                  (drop_cols ["_AlertPriority"; "_MonthlyDemandNum"] r3.2) in
              match r4.1 with
              | Raise e => (Raise e, σ ++ [r1.2; r2.2; r3.2; r4.2])
              | Ok _ => (Ok (length σ + 3)%nat, σ ++ [r1.2; r2.2; r3.2; r4.2])
              end
          end
      end
  end.
Proof.
  intros Hdf. unfold build_production_plan. cbv zeta.
  rewrite bind_eq, (copy_eq _ _ _ Hdf), bind_eq, on_fresh.
  destruct (prepare_machines cfg f) as [[?|e] f1]; cbn [fst snd]; [|done].
  rewrite bind_eq, read_fresh, bind_eq, new_eq, bind_eq, on_fresh.
  destruct (plan_columns cfg (explode "Machine" f1)) as [[?|e] f2]; cbn [fst snd];
    [|by rewrite <- app_assoc].
  rewrite bind_eq, read_fresh, bind_eq, new_eq, bind_eq, on_fresh.
  destruct (rank_rows (sort_values plan_sort_keys f2)) as [[?|e] f3]; cbn [fst snd];
    [|by rewrite <- !app_assoc].
  rewrite bind_eq, read_fresh, bind_eq, new_eq, bind_eq, on_fresh.
  destruct (itemno_as_str cfg _) as [[?|e] f4]; cbn [fst snd];
    [|by rewrite <- !app_assoc].
  rewrite ret_eq, !length_app. cbn [length]. rewrite <- !app_assoc.
  f_equal. f_equal. lia.
Qed.

(** C9: the metrics deriver, the alert classifier, the planning augmenter
    and the production plan builder leave the table they are given, and
    every other table of the store, as it was, whatever the configuration
    and whether they return or raise; the table they return is a new one. *)
Theorem transformations_leave_their_input_unchanged (σ : store) (df : loc) :
  (∀ wd c1 c2 c3 c4 c5 c6,
     leaves_input_unchanged σ df
       (compute_metrics_qty_based df wd c1 c2 c3 c4 c5 c6 σ)) ∧
  leaves_input_unchanged σ df (add_alerts df σ) ∧
  (∀ start_date wd,
     leaves_input_unchanged σ df (add_planning_columns df start_date wd σ)) ∧
  (∀ cfg, leaves_input_unchanged σ df (build_production_plan df cfg σ)).
Proof.
  split; [|split; [|split]].
  - intros. apply copy_on_ret_unchanged.
  - apply copy_on_ret_unchanged.
  - intros. apply copy_on_ret_unchanged.
  - intros cfg. destruct (σ !! df) as [f|] eqn:Hdf.
    + rewrite (build_run _ _ _ _ Hdf). cbv zeta.
      repeat match goal with
      | |- context [match ?r.1 with Ok _ => _ | Raise _ => _ end] =>
          destruct r.1
      end;
      (apply extended_unchanged; [|left; by eexists]); intros out E;
      try discriminate E; injection E as <-; rewrite length_app; simpl; lia.
    + unfold build_production_plan.
      destruct (copy_dangling
                  (λ df0, on df0 (prepare_machines cfg);;
                          with_lists ← read df0;
                          df1 ← new (explode "Machine" with_lists);
                          on df1 (plan_columns cfg);;
                          unsorted ← read df1;
                          df2 ← new (sort_values plan_sort_keys unsorted);
                          on df2 rank_rows;;
                          ranked ← read df2;
                          df3 ← new (drop_cols ["_AlertPriority"; "_MonthlyDemandNum"] ranked);
                          on df3 (itemno_as_str cfg);;
                          st_ret df3) σ df Hdf) as [e ->].
      rewrite <- (app_nil_r σ) at 2.
      apply extended_unchanged; [done|by right].
Qed.
End frame_proofs.

(** ** machine_plan.py: the demand classifier *)

Section classifier_proofs.
Context `{PyLib}.

Lemma classify_eq (d : list value) :
  _classify_by_percentiles d = demand_class d <$> d.
Proof.
  unfold _classify_by_percentiles, demand_class, positive_demands, demand_value.
  cbv zeta. set (s := (λ v, fillna 0 (to_numeric v)) <$> d).
  destruct (List.filter (Qltb 0) s) as [|q nz] eqn:E; cbn [length].
  - rewrite bool_decide_eq_true_2 by done. subst s.
    rewrite length_fmap. clear E. induction d; csimpl; by f_equal.
  - rewrite bool_decide_eq_false_2 by done. subst s.
    by rewrite <- list_fmap_compose.
Qed.

Lemma cls_spec p90 p70 p40 p15 v :
  ((p90 <= v)%Q → cls p90 p70 p40 p15 v = "VERY_HIGH") ∧
  ((v < p90)%Q → (p70 <= v)%Q → cls p90 p70 p40 p15 v = "HIGH") ∧
  ((v < p90)%Q → (v < p70)%Q → (p40 <= v)%Q → cls p90 p70 p40 p15 v = "MEDIUM") ∧
  ((v < p90)%Q → (v < p70)%Q → (v < p40)%Q → (p15 <= v)%Q →
   cls p90 p70 p40 p15 v = "LOW") ∧
  ((v < p90)%Q → (v < p70)%Q → (v < p40)%Q → (v < p15)%Q →
   cls p90 p70 p40 p15 v = "VERY_LOW").
Proof.
  unfold cls.
  repeat split; intros;
    repeat match goal with
    | |- context [Qle_bool ?a ?b] =>
        let E := fresh "E" in
        destruct (Qle_bool a b) eqn:E;
        [ apply Qle_bool_iff in E
        | apply not_true_iff_false in E; rewrite Qle_bool_iff in E ]
    end;
    first [ reflexivity | exfalso; lra ].
Qed.

Lemma positive_demands_spec (d : list value) (q : Q) :
  q ∈ positive_demands d ↔ (0 < q)%Q ∧ q ∈ demand_value <$> d.
Proof.
  unfold positive_demands.
  rewrite !list_elem_of_In, filter_In, Qltb_lt. tauto.
Qed.

(** C3: the four cut points are the 90th, 70th, 40th and 15th percentiles of
    the strictly positive coerced demands only; every cell, zeros included,
    is VERY_HIGH from p90, else HIGH from p70, else MEDIUM from p40, else LOW
    from p15, else VERY_LOW; with no positive demand every row is
    VERY_LOW. *)
Theorem demand_classes_by_percentiles_of_positive_demands (d : list value) :
  let nz := positive_demands d in
  let p90 := quantile (90 # 100) nz in
  let p70 := quantile (70 # 100) nz in
  let p40 := quantile (40 # 100) nz in
  let p15 := quantile (15 # 100) nz in
  (∀ q, q ∈ nz ↔ (0 < q)%Q ∧ q ∈ demand_value <$> d) ∧
  length (_classify_by_percentiles d) = length d ∧
  ∀ i v, d !! i = Some v →
    ∃ c, _classify_by_percentiles d !! i = Some c ∧
      (nz = [] → c = "VERY_LOW") ∧
      (nz ≠ [] →
        ((p90 <= demand_value v)%Q → c = "VERY_HIGH") ∧
        ((demand_value v < p90)%Q → (p70 <= demand_value v)%Q → c = "HIGH") ∧
        ((demand_value v < p90)%Q → (demand_value v < p70)%Q →
         (p40 <= demand_value v)%Q → c = "MEDIUM") ∧
        ((demand_value v < p90)%Q → (demand_value v < p70)%Q →
         (demand_value v < p40)%Q → (p15 <= demand_value v)%Q → c = "LOW") ∧
        ((demand_value v < p90)%Q → (demand_value v < p70)%Q →
         (demand_value v < p40)%Q → (demand_value v < p15)%Q → c = "VERY_LOW")).
Proof.
  intros nz p90 p70 p40 p15.
  split; [apply positive_demands_spec|].
  rewrite classify_eq, length_fmap. split; [done|].
  intros i v Hi. exists (demand_class d v).
  rewrite list_lookup_fmap, Hi. split; [done|].
  unfold demand_class. fold nz. cbv zeta. fold p90 p70 p40 p15.
  split; [by intros ->|]. intros Hnz.
  destruct nz as [|q nz']; [done|].
  apply cls_spec.
Qed.
End classifier_proofs.

Example classify_sample_demands :
  _classify_by_percentiles (H:=plain_lib) sample_demands
  = ["VERY_LOW"; "VERY_LOW"; "VERY_LOW"; "VERY_HIGH"; "MEDIUM"].
Proof. vm_compute. reflexivity. Qed.

(** ** machine_plan.py: the plan builder *)

Ltac step_plan H :=
  lazymatch type of H with
  | st_bind (setitem ?c (VStr <$> _classify_by_percentiles ?d)) _ _ = _ =>
      rewrite (classify_eq d) in H;
      let D := fresh "D" in set (D := demand_class d) in H
  | _ => step_in H
  end.

Lemma override_pos (o : option Q) (a : Q) :
  (if match o with Some q => Qltb 0 q | None => false end
   then of_float o else VNum a)
  = VNum (overridden (Qltb 0) o a).
Proof. by destruct o as [q|]; [simpl; destruct (Qltb 0 q)|]. Qed.

Lemma override_nonneg (o : option Q) (a : Q) :
  (if match o with Some q => Qle_bool 0 q | None => false end
   then of_float o else VNum a)
  = VNum (overridden (Qle_bool 0) o a).
Proof. by destruct o as [q|]; [simpl; destruct (Qle_bool 0 q)|]. Qed.

Lemma batched_on b raw :
  b ≠ 0%Z ∧ (0 < b)%Z → batched b raw = round_to_batch b raw.
Proof. intros [_ Hb]. unfold batched. by rewrite (proj2 (Z.ltb_lt _ _) Hb). Qed.

Lemma batched_off b raw : ¬ (b ≠ 0%Z ∧ (0 < b)%Z) → batched b raw = raw.
Proof.
  intros Hb. unfold batched. destruct (0 <? b)%Z eqn:E; [|done].
  apply Z.ltb_lt in E. exfalso. apply Hb. lia.
Qed.

Lemma if_VStr (b : bool) (s t : string) :
  (if b then VStr s else VStr t) = VStr (if b then s else t).
Proof. by destruct b. Qed.

Lemma astype_int_inject_Z z : astype_int (inject_Z z) = z.
Proof. unfold astype_int. simpl. apply Z.quot_1_r. Qed.

(** Read the cells of the goal down to the input row and compute. *)
Ltac read_plan :=
  repeat (progress (read_cells;
            rewrite ?override_pos, ?override_nonneg, ?if_VStr;
            cbn [as_float unwrap map2 of_float fmap option_fmap option_map
                 from_option map_dict int_of_cell str_of num_of];
            rewrite ?astype_int_inject_Z)).

Lemma split_fresh_names (cfg : PlanConfig) :
  input_names_fresh cfg →
  Forall (λ c, Forall (λ w, c ≠ w) (itemno_col cfg :: plan_written_columns))
    (input_columns cfg) ∧
  Forall (λ w, itemno_col cfg ≠ w) plan_written_columns.
Proof.
  intros [H1 H2]. split.
  - eapply Forall_impl; [exact H1|]. intros c Hc. simpl in Hc.
    rewrite Forall_forall. intros w Hw ->. done.
  - rewrite Forall_forall. intros w Hw E. rewrite <- E in Hw. done.
Qed.

(** Turn the freshness of the configured names into its inequalities. *)
Ltac use_fresh_names Hf :=
  apply split_fresh_names in Hf;
  unfold plan_written_columns, input_columns in Hf;
  repeat match type of Hf with
         | _ ∧ _ => let H1 := fresh "Hf" in destruct Hf as [H1 Hf]
         end;
  repeat match goal with
         | Hx : Forall _ (_ :: _) |- _ =>
             let H1 := fresh "Hne" in
             apply Forall_cons in Hx as [H1 Hx]
         | Hx : Forall _ [] |- _ => clear Hx
         end.
(** ** Stripping *)

Lemma lstrip_stripped p s :
  match s with EmptyString => True | String c _ => p c = false end →
  lstrip p s = s.
Proof. destruct s as [|c s]; [done|]. cbn. by intros ->. Qed.

Lemma lstrip_head p s :
  match lstrip p s with EmptyString => True | String c _ => p c = false end.
Proof.
  induction s as [|c s IH]; [done|]. cbn [lstrip].
  destruct (p c) eqn:E; [done|]. exact E.
Qed.

Lemma rstrip_head p c s :
  p c = false → ∃ t, rstrip p (String c s) = String c t.
Proof.
  intros Hc. cbn [rstrip]. destruct (rstrip p s); [|by eexists].
  rewrite Hc. by eexists.
Qed.

Lemma rstrip_cons p c s :
  rstrip p (String c s)
  = match rstrip p s with
    | EmptyString => if p c then EmptyString else String c EmptyString
    | t => String c t
    end.
Proof. reflexivity. Qed.

Lemma rstrip_idemp p s : rstrip p (rstrip p s) = rstrip p s.
Proof.
  induction s as [|c s IH]; [done|]. rewrite rstrip_cons.
  destruct (rstrip p s) as [|d t] eqn:E.
  - destruct (p c) eqn:Ec; [done|]. rewrite rstrip_cons. cbn [rstrip]. by rewrite Ec.
  - by rewrite rstrip_cons, IH.
Qed.

Lemma strip_idemp s : strip (strip s) = strip s.
Proof.
  unfold strip.
  pose proof (lstrip_head isspace s) as Hh.
  destruct (lstrip isspace s) as [|c t] eqn:E; [done|].
  destruct (rstrip_head isspace c t Hh) as [u Hu].
  rewrite Hu. rewrite (lstrip_stripped isspace (String c u)) by done.
  rewrite <- Hu. apply rstrip_idemp.
Qed.

(** The name the builder gives a machine. *)
Lemma machine_name_ok (s : string) :
  let m := if isin ["nan"; "None"; ""] (VStr (strip s)) then "UNSPECIFIED"
           else strip s in
  (m ∉ ["nan"; "None"; ""]) ∧ strip m = m.
Proof.
  cbv zeta. unfold isin. case_bool_decide as Hin.
  - split; [|by vm_compute].
    rewrite !not_elem_of_cons. repeat split; try discriminate. apply not_elem_of_nil.
  - split; [done|apply strip_idemp].
Qed.

Section builder_proofs.
Context `{PyLib}.

(** The statements run on the exploded frame leave, in every row, the plan
    figures computed from the row's own cells and a machine name; they get
    there only when the frame has the alert column. *)
Lemma plan_columns_run_full cfg cs (l : list (gmap string value)) u fo :
  input_names_fresh cfg →
  plan_columns cfg (frame_of cs id l) = (Ok u, fo) →
  ∃ cs' F, fo = frame_of cs' F l ∧
    Forall (λ x, plan_row_computed cfg (F x) ∧ machine_named (F x)) l ∧
    alert_col cfg ∈ cs.
Proof.
  intros Hf Hb. use_fresh_names Hf.
  unfold plan_columns in Hb. cbv zeta in Hb.
  repeat step_plan Hb.
  all: apply pair_equal_spec in Hb as [_ <-]; eexists _, _; (split; [reflexivity|]).
  all: split;
    [| match goal with
       | Hc : alert_col _ ∈ _ |- _ =>
           repeat (apply elem_of_add_col in Hc as [Hc|Hc];
                   [exfalso; revert Hc; ne_names|]);
           exact Hc
       end ].
  all: rewrite Forall_forall in *; intros x Hx; at_row x Hx.
  all: repeat match goal with E : as_float _ = Ok _ |- _ => clear E end.
  all: unfold plan_row_computed, machine_named, machine, row_qty, row_gap,
         row_plan_coverage.
  all: read_plan.
  all: first [ rewrite batched_on by assumption
             | rewrite batched_off by assumption ].
  all: unfold plan_coverage_days, gap_days, unrounded_qty, min_batch_months,
         demand_value, alert_priority, proposed_qty; cbv zeta.
  all: split; [repeat apply conj | split; [exact eq_refl | apply machine_name_ok]].
  all: lazymatch goal with |- ?a = ?a => exact eq_refl end.
Qed.

Lemma plan_columns_run cfg cs (l : list (gmap string value)) u fo :
  input_names_fresh cfg →
  plan_columns cfg (frame_of cs id l) = (Ok u, fo) →
  ∃ cs' F, fo = frame_of cs' F l ∧ Forall (λ x, plan_row_computed cfg (F x)) l.
Proof.
  intros Hf Hb.
  destruct (plan_columns_run_full _ _ _ _ _ Hf Hb) as (cs' & F & -> & Hrows & _).
  exists cs', F. split; [done|].
  eapply Forall_impl; [exact Hrows|]. by intros x [? _].
Qed.

End builder_proofs.

(** ** Orders *)

Lemma cmp_eq_r {A} (cmp : A → A → comparison) a b c :
  comparison_order cmp → cmp a b = Eq → cmp c a = cmp c b.
Proof.
  intros O E. rewrite (cmp_flip cmp O a c), (cmp_flip cmp O b c).
  by rewrite (cmp_eq_l cmp O a b c E).
Qed.

Lemma cmp_le_trans {A} (cmp : A → A → comparison) a b c :
  comparison_order cmp → cmp a b ≠ Gt → cmp b c ≠ Gt → cmp a c ≠ Gt.
Proof.
  intros O Hab Hbc.
  destruct (cmp a b) eqn:Eab; [| |done].
  - by rewrite (cmp_eq_l cmp O a b c Eab).
  - destruct (cmp b c) eqn:Ebc; [| |done].
    + rewrite <- (cmp_eq_r cmp b c a O Ebc) . by rewrite Eab.
    + by rewrite (cmp_lt_trans cmp O a b c Eab Ebc).
Qed.

Lemma cmp_total {A} (cmp : A → A → comparison) a b :
  comparison_order cmp → cmp a b = Gt → cmp b a ≠ Gt.
Proof. intros O E. rewrite (cmp_flip cmp O a b), E. done. Qed.

Lemma comparison_order_flip {A} (cmp : A → A → comparison) :
  comparison_order cmp → comparison_order (λ a b, cmp b a).
Proof.
  intros O. split.
  - intros a b. apply (cmp_flip cmp O).
  - intros a b c E1 E2. apply (cmp_lt_trans cmp O c b a E2 E1).
  - intros a b c E. apply (cmp_eq_r cmp a b c O).
    by rewrite (cmp_flip cmp O b a), E.
Qed.

Lemma comparison_order_on {A B} (g : A → B) (cmp : B → B → comparison) :
  comparison_order cmp → comparison_order (λ a b, cmp (g a) (g b)).
Proof.
  intros O. split.
  - intros a b. apply (cmp_flip cmp O).
  - intros a b c. apply (cmp_lt_trans cmp O).
  - intros a b c. apply (cmp_eq_l cmp O).
Qed.

Lemma comparison_order_lex {A} (c1 c2 : A → A → comparison) :
  comparison_order c1 → comparison_order c2 →
  comparison_order (λ a b, match c1 a b with Eq => c2 a b | o => o end).
Proof.
  intros O1 O2. split.
  - intros a b. rewrite (cmp_flip c1 O1 a b).
    destruct (c1 a b); simpl; [apply (cmp_flip c2 O2)|done|done].
  - intros a b c.
    destruct (c1 a b) eqn:Eab; [| |done].
    + rewrite (cmp_eq_l c1 O1 a b c Eab).
      destruct (c1 b c); [|done|done].
      apply (cmp_lt_trans c2 O2).
    + intros _. destruct (c1 b c) eqn:Ebc; [| |done].
      * intros _. rewrite <- (cmp_eq_r c1 b c a O1 Ebc). by rewrite Eab.
      * intros _. by rewrite (cmp_lt_trans c1 O1 a b c Eab Ebc).
  - intros a b c.
    destruct (c1 a b) eqn:Eab; [|done|done].
    intros E. rewrite (cmp_eq_l c1 O1 a b c Eab).
    destruct (c1 b c); [|done|done].
    by apply (cmp_eq_l c2 O2).
Qed.

Lemma comparison_order_const {A} : comparison_order (λ _ _ : A, Eq).
Proof. by split. Qed.

Lemma Z_comparison_order : comparison_order Z.compare.
Proof.
  split.
  - intros a b. apply Z.compare_antisym.
  - intros a b c. rewrite !Z.compare_lt_iff. lia.
  - intros a b c E. apply Z.compare_eq in E. by subst.
Qed.

Lemma Q_comparison_order : comparison_order Qcompare.
Proof.
  split.
  - intros a b. symmetry. apply Qcompare_antisym.
  - intros a b c. rewrite <- !Qlt_alt. apply Qlt_trans.
  - intros a b c E. apply Qeq_alt in E. by rewrite E.
Qed.

Lemma ascii_comparison_order : comparison_order Ascii.compare.
Proof.
  unfold Ascii.compare.
  apply (comparison_order_on N_of_ascii N.compare). split.
  - intros a b. apply N.compare_antisym.
  - intros a b c. rewrite !N.compare_lt_iff. lia.
  - intros a b c E. apply N.compare_eq in E. by subst.
Qed.

Lemma string_comparison_order : comparison_order String.compare.
Proof.
  split.
  - intros a b. apply String.compare_antisym.
  - intros a. induction a as [|x a IH]; intros [|y b] [|z c]; simpl; try done.
    destruct (Ascii.compare x y) eqn:Exy; [| |done].
    + apply Ascii.compare_eq_iff in Exy as ->.
      destruct (Ascii.compare y z); [|done|done]. apply IH.
    + intros _. destruct (Ascii.compare y z) eqn:Eyz; [| |done].
      * apply Ascii.compare_eq_iff in Eyz as <-. by rewrite Exy.
      * by rewrite (cmp_lt_trans _ ascii_comparison_order x y z Exy Eyz).
  - intros a b c E. apply String.compare_eq_iff in E. by subst.
Qed.

Lemma cell_comparison_order : comparison_order cell_compare.
Proof.
  split.
  - intros a b.
    destruct a, b; simpl; try done.
    + symmetry. apply Qcompare_antisym.
    + apply String.compare_antisym.
    + apply Z.compare_antisym.
  - intros a b c.
    destruct a, b; simpl; try done; destruct c; simpl; try done.
    + apply (cmp_lt_trans _ Q_comparison_order).
    + apply (cmp_lt_trans _ string_comparison_order).
    + apply (cmp_lt_trans _ Z_comparison_order).
  - intros a b c.
    destruct a, b; simpl; try done; destruct c; simpl; try done.
    + apply (cmp_eq_l _ Q_comparison_order).
    + apply (cmp_eq_l _ string_comparison_order).
    + apply (cmp_eq_l _ Z_comparison_order).
Qed.

Lemma key_comparison_order ascending : comparison_order (key_compare ascending).
Proof.
  assert (O : comparison_order
                (λ a b, if ascending then cell_compare a b else cell_compare b a)).
  { destruct ascending; [apply cell_comparison_order|].
    apply comparison_order_flip, cell_comparison_order. }
  unfold key_compare. split.
  - intros a b. destruct (isna a), (isna b); try done. apply (cmp_flip _ O).
  - intros a b c. destruct (isna a), (isna b), (isna c); try done.
    apply (cmp_lt_trans _ O).
  - intros a b c. destruct (isna a), (isna b), (isna c); try done.
    apply (cmp_eq_l _ O).
Qed.

Lemma row_comparison_order by_ : comparison_order (row_compare by_).
Proof.
  induction by_ as [|[c asc] by_ IH]; simpl.
  - apply comparison_order_const.
  - apply (comparison_order_lex
             (λ r1 r2, key_compare asc (cell c r1) (cell c r2)) (row_compare by_));
      [|done].
    apply (comparison_order_on (cell c)), key_comparison_order.
Qed.

Lemma row_le_total by_ r1 r2 : row_le by_ r1 r2 = false → row_le by_ r2 r1 = true.
Proof.
  unfold row_le. intros E.
  destruct (row_compare by_ r1 r2) eqn:E1; try done.
  by rewrite (cmp_flip _ (row_comparison_order by_) r1 r2), E1.
Qed.

Lemma row_le_trans by_ r1 r2 r3 :
  row_le by_ r1 r2 = true → row_le by_ r2 r3 = true → row_le by_ r1 r3 = true.
Proof.
  unfold row_le. intros E1 E2.
  pose proof (cmp_le_trans _ r1 r2 r3 (row_comparison_order by_)) as T.
  destruct (row_compare by_ r1 r2); try done;
  destruct (row_compare by_ r2 r3); try done;
  destruct (row_compare by_ r1 r3); try done; exfalso; by apply T.
Qed.

(** ** Insertion sort *)

Lemma insert_sorted_perm {A} (le : A → A → bool) x l :
  insert_sorted le x l ≡ₚ x :: l.
Proof.
  induction l as [|y l IH]; simpl; [done|].
  destruct (le x y); [done|]. rewrite IH. apply Permutation_swap.
Qed.

Lemma stable_sort_perm {A} (le : A → A → bool) l : stable_sort le l ≡ₚ l.
Proof.
  induction l as [|x l IH]; simpl; [done|].
  by rewrite insert_sorted_perm, IH.
Qed.

Lemma length_stable_sort {A} (le : A → A → bool) l :
  length (stable_sort le l) = length l.
Proof. by rewrite stable_sort_perm. Qed.

Lemma ordered_cons {A} (le : A → A → bool) x l :
  ordered le (x :: l) ↔ Forall (λ y, le x y = true) l ∧ ordered le l.
Proof.
  split.
  - intros Ho. split.
    + apply Forall_lookup. intros j y Hj. by apply (Ho 0%nat (S j) x y); [lia|..].
    + intros i j a b Hij Hi Hj. by apply (Ho (S i) (S j) a b); [lia|..].
  - intros [Hx Ho] i j a b Hij Hi Hj.
    destruct j as [|j]; [lia|]. simpl in Hj.
    destruct i as [|i]; simpl in Hi.
    + injection Hi as <-. rewrite Forall_lookup in Hx. by apply (Hx j).
    + apply (Ho i j a b); [lia|done..].
Qed.

Lemma insert_sorted_ordered {A} (le : A → A → bool) x l :
  (∀ a b, le a b = false → le b a = true) →
  (∀ a b c, le a b = true → le b c = true → le a c = true) →
  ordered le l → ordered le (insert_sorted le x l).
Proof.
  intros Htot Htrans. induction l as [|y l IH]; simpl; intros Ho.
  - apply ordered_cons. split; [constructor|]. intros i j a b _ Hi. done.
  - destruct (le x y) eqn:E.
    + apply ordered_cons. split; [|done].
      apply ordered_cons in Ho as [Hy _]. constructor; [done|].
      eapply Forall_impl; [exact Hy|]. intros z Hz. by apply (Htrans x y z).
    + apply ordered_cons in Ho as [Hy Ho]. apply ordered_cons. split; [|by apply IH].
      rewrite insert_sorted_perm. constructor; [by apply Htot|done].
Qed.

Lemma stable_sort_ordered {A} (le : A → A → bool) l :
  (∀ a b, le a b = false → le b a = true) →
  (∀ a b c, le a b = true → le b c = true → le a c = true) →
  ordered le (stable_sort le l).
Proof.
  intros Htot Htrans. induction l as [|x l IH]; simpl.
  - intros i j a b _ Hi. done.
  - by apply insert_sorted_ordered.
Qed.

Lemma sort_values_ordered by_ f : ordered (row_le by_) (rows (sort_values by_ f)).
Proof.
  apply stable_sort_ordered; [apply row_le_total|apply row_le_trans].
Qed.

Lemma sort_values_perm by_ f : rows (sort_values by_ f) ≡ₚ rows f.
Proof. apply stable_sort_perm. Qed.

(** ** machine_plan.py: the rows of the plan *)

Section builder_rows.
Context `{PyLib}.

Lemma zip_with_fmap_r {A B C D} (g : A → C → D) (h : B → C) l (k : list B) :
  zip_with g l (h <$> k) = zip_with (λ a b, g a (h b)) l k.
Proof.
  revert k. induction l as [|a l IH]; intros [|b k]; csimpl; [done..|].
  by rewrite IH.
Qed.

Lemma fmap_zip_with' {A B C D} (h : C → D) (g : A → B → C) l k :
  h <$> zip_with g l k = zip_with (λ a b, h (g a b)) l k.
Proof.
  revert k. induction l as [|a l IH]; intros [|b k]; csimpl; [done..|].
  by rewrite IH.
Qed.

Lemma rank_rows_run (f : DataFrame) u fo :
  rank_rows f = (Ok u, fo) →
  rows fo = zip_with (λ r n, <["Production Rank" := VNum (inject_Z (Z.of_nat n + 1))]> r)
              (rows f) (cumcount (cell "Machine" <$> rows f)).
Proof.
  unfold rank_rows. rewrite bind_eq. unfold getitem.
  destruct (has_col "Machine" f); [|done].
  unfold setitem, modify, assign, col. intros [= _ <-]. cbn [rows].
  by rewrite zip_with_fmap_r.
Qed.

Lemma itemno_as_str_run cfg (f : DataFrame) u fo :
  itemno_as_str cfg f = (Ok u, fo) →
  rows fo = (λ r, if has_col (itemno_col cfg) f
                  then <[itemno_col cfg := VStr (py_str (cell (itemno_col cfg) r))]> r
                  else r) <$> rows f.
Proof.
  unfold itemno_as_str. rewrite bind_eq. unfold in_columns.
  destruct (has_col (itemno_col cfg) f) eqn:E.
  - rewrite bind_eq. unfold getitem. rewrite E.
    unfold setitem, modify, assign, col. intros [= _ <-]. cbn [rows].
    rewrite <- list_fmap_compose.
    rewrite <- (list_fmap_id (rows f)) at 1. by rewrite zip_with_fmap_same.
  - rewrite ret_eq. intros [= _ <-]. by rewrite list_fmap_id.
Qed.

(** The rows the builder returns: the sorted rows of the exploded frame,
    each finished with its rank; and what a run that returns has gone
    through. *)
Lemma build_rows_full (σ σ' : store) master cfg out :
  input_names_fresh cfg →
  build_production_plan master cfg σ = (Ok out, σ') →
  ∃ f0 u f1 f sorted b,
    σ !! master = Some f0 ∧
    prepare_machines cfg f0 = (Ok u, f1) ∧
    alert_col cfg ∈ columns (explode "Machine" f1) ∧
    σ' !! out = Some f ∧
    rows f = zip_with (finished cfg b) sorted (cumcount (cell "Machine" <$> sorted)) ∧
    length sorted = length (rows (explode "Machine" f1)) ∧
    Forall (λ r, plan_row_computed cfg r ∧ machine_named r) sorted ∧
    ordered (row_le plan_sort_keys) sorted.
Proof.
  intros Hf Hrun.
  destruct (σ !! master) as [f0|] eqn:Hm.
  2: { unfold build_production_plan in Hrun.
       destruct (copy_dangling
                   (λ df0, on df0 (prepare_machines cfg);;
                           with_lists ← read df0;
                           df1 ← new (explode "Machine" with_lists);
                           on df1 (plan_columns cfg);;
                           unsorted ← read df1;
                           df2 ← new (sort_values plan_sort_keys unsorted);
                           on df2 rank_rows;;
                           ranked ← read df2;
                           df3 ← new (drop_cols ["_AlertPriority"; "_MonthlyDemandNum"] ranked);
                           on df3 (itemno_as_str cfg);;
                           st_ret df3) σ master Hm) as [e He].
       rewrite He in Hrun. discriminate Hrun. }
  rewrite (build_run _ _ _ _ Hm) in Hrun. cbv zeta in Hrun.
  destruct (prepare_machines cfg f0) as [[u1|e] f1] eqn:E1; cbn [fst snd] in Hrun;
    [|discriminate Hrun].
  destruct (plan_columns cfg (explode "Machine" f1)) as [[u2|e] f2] eqn:E2;
    cbn [fst snd] in Hrun; [|discriminate Hrun].
  destruct (rank_rows (sort_values plan_sort_keys f2)) as [[u3|e] f3] eqn:E3;
    cbn [fst snd] in Hrun; [|discriminate Hrun].
  destruct (itemno_as_str cfg (drop_cols ["_AlertPriority"; "_MonthlyDemandNum"] f3))
    as [[u4|e] f4] eqn:E4; cbn [fst snd] in Hrun; [|discriminate Hrun].
  injection Hrun as <- <-.
  assert (Hout : (σ ++ [f1; f2; f3; f4]) !! (length σ + 3)%nat = Some f4).
  { unfold store in *. rewrite lookup_app_r by lia.
    by replace (length σ + 3 - length σ)%nat with 3%nat by lia. }
  rewrite (frame_of_id (explode "Machine" f1)) in E2.
  destruct (plan_columns_run_full _ _ _ _ _ Hf E2) as (cs' & F & -> & Hrows & Ha).
  apply rank_rows_run in E3. apply itemno_as_str_run in E4.
  exists f0, u1, f1, f4, (rows (sort_values plan_sort_keys
                  (frame_of cs' F (rows (explode "Machine" f1))))),
         (has_col (itemno_col cfg)
            (drop_cols ["_AlertPriority"; "_MonthlyDemandNum"] f3)).
  do 4 (split; [done|]). split; [|split; [|split]].
  - rewrite E4. unfold drop_cols at 2. cbn [rows]. rewrite E3.
    rewrite <- list_fmap_compose, fmap_zip_with'. reflexivity.
  - rewrite sort_values_perm. unfold frame_of. cbn [rows].
    by rewrite length_fmap.
  - rewrite sort_values_perm. unfold frame_of. cbn [rows].
    by apply Forall_fmap.
  - apply sort_values_ordered.
Qed.

(** The rows the builder returns: the sorted rows of the exploded frame,
    each finished with its rank. *)
Lemma build_rows (σ σ' : store) master cfg out :
  input_names_fresh cfg →
  build_production_plan master cfg σ = (Ok out, σ') →
  ∃ f sorted b,
    σ' !! out = Some f ∧
    rows f = zip_with (finished cfg b) sorted (cumcount (cell "Machine" <$> sorted)) ∧
    Forall (plan_row_computed cfg) sorted ∧
    ordered (row_le plan_sort_keys) sorted.
Proof.
  intros Hf Hrun.
  destruct (build_rows_full _ _ _ _ _ Hf Hrun)
    as (f0 & u & f1 & f & sorted & b & _ & _ & _ & Hout & Hrows & _ & Hs & Ho).
  exists f, sorted, b. do 2 (split; [done|]). split; [|done].
  eapply Forall_impl; [exact Hs|]. by intros r [? _].
Qed.
End builder_rows.

(** ** Numbers, continued *)

Lemma Qmax_cases a b :
  ((a <= b)%Q ∧ Qmax a b = b) ∨ ((b < a)%Q ∧ Qmax a b = a).
Proof.
  unfold Qmax. destruct (Qle_bool a b) eqn:E.
  - left. split; [by apply Qle_bool_iff|done].
  - right. split; [|done]. apply Qnot_le_lt. intros Hle.
    apply Qle_bool_iff in Hle. congruence.
Qed.





Lemma on_grid_comp x y : (x == y)%Q → on_grid x → on_grid y.
Proof. intros E [n Hn]. exists n. by rewrite <- E. Qed.







Lemma py_max_nonneg x : (0 <= py_max 0 x)%Q.
Proof.
  unfold py_max. destruct (Qltb 0 x) eqn:E; [|lra].
  apply Qltb_lt in E. lra.
Qed.

Lemma unrounded_qty_nonneg gap daily : (0 <= unrounded_qty gap daily)%Z.
Proof.
  unfold unrounded_qty, ceil.
  rewrite <- (Qceiling_Z 0). apply Qceiling_resp_le, py_max_nonneg.
Qed.

Lemma round_to_batch_least b q :
  (0 < b)%Z → (0 < q)%Z →
  (b | round_to_batch b q)%Z ∧ (q <= round_to_batch b q)%Z ∧
  ∀ m, (b | m)%Z → (q <= m)%Z → (round_to_batch b q <= m)%Z.
Proof.
  intros Hb Hq. unfold round_to_batch, ceil.
  rewrite (proj2 (Z.ltb_lt _ _) Hq).
  set (x := (inject_Z q / inject_Z b)%Q).
  assert (Hb' : (0 < inject_Z b)%Q) by (change 0%Q with (inject_Z 0); by rewrite <- Zlt_Qlt).
  assert (Hx : (x * inject_Z b == inject_Z q)%Q) by (unfold x; field; lra).
  split; [|split].
  - apply Z.divide_factor_r.
  - rewrite Zle_Qle, inject_Z_mult, <- Hx.
    apply Qmult_le_compat_r; [apply Qle_ceiling|lra].
  - intros m [k ->] Hm.
    apply Z.mul_le_mono_nonneg_r; [lia|].
    rewrite <- (Qceiling_Z k). apply Qceiling_resp_le.
    rewrite Zle_Qle, inject_Z_mult, <- Hx in Hm.
    apply Qmult_le_r in Hm; done.
Qed.

Lemma batched_spec b raw :
  (¬ (0 < b)%Z ∨ raw = 0%Z → batched b raw = raw) ∧
  ((0 < b)%Z → (0 < raw)%Z →
   (b | batched b raw)%Z ∧ (raw <= batched b raw)%Z ∧
   ∀ m, (b | m)%Z → (raw <= m)%Z → (batched b raw <= m)%Z).
Proof.
  split.
  - intros [Hb| ->].
    + unfold batched. destruct (0 <? b)%Z eqn:E; [|done].
      apply Z.ltb_lt in E. contradiction.
    + unfold batched, round_to_batch. by destruct (0 <? b)%Z.
  - intros Hb Hraw. unfold batched. rewrite (proj2 (Z.ltb_lt _ _) Hb).
    exact (round_to_batch_least _ _ Hb Hraw).
Qed.

Lemma string_compare_refl s : String.compare s s = Eq.
Proof.
  pose proof (String.compare_antisym s s) as E.
  by destruct (String.compare s s).
Qed.

Lemma Qcompare_inject_Z a b : (inject_Z a ?= inject_Z b)%Q = (a ?= b)%Z.
Proof. unfold Qcompare. simpl. by rewrite !Z.mul_1_r. Qed.

(** ** Rank counts *)

Lemma cumcount_from_lookup seen s j v :
  s !! j = Some v →
  cumcount_from seen s !! j
  = Some (length (List.filter (λ w, same_group w v) (seen ++ take j s))).
Proof.
  revert seen j. induction s as [|u s IH]; intros seen j Hj; [done|].
  destruct j as [|j]; simpl in *.
  - injection Hj as ->. by rewrite app_nil_r.
  - rewrite (IH _ _ Hj). by rewrite <- app_assoc.
Qed.

Lemma length_cumcount_from seen s : length (cumcount_from seen s) = length s.
Proof.
  revert seen. induction s as [|u s IH]; intros seen; simpl; [done|].
  by rewrite IH.
Qed.

Lemma count_related {A B} (R : A → B → Prop) (P : A → bool) (Q : B → Prop)
    `{∀ b, Decision (Q b)} l k :
  Forall2 R l k → (∀ a b, R a b → (P a = true ↔ Q b)) →
  length (List.filter P l) = length (filter Q k).
Proof.
  intros HR HPQ. induction HR as [|a b l k Hab _ IH]; [done|].
  simpl. rewrite filter_cons.
  destruct (P a) eqn:Ea.
  - rewrite decide_True by (by apply (HPQ a b Hab)). simpl. by rewrite IH.
  - rewrite decide_False; [done|]. intros Hq. apply (HPQ a b Hab) in Hq. congruence.
Qed.

Section builder_figures.
Context `{PyLib}.

Lemma cell_finished cfg b r n c :
  c ≠ "Production Rank" → c ≠ "_AlertPriority" → c ≠ "_MonthlyDemandNum" →
  c ≠ itemno_col cfg →
  cell c (finished cfg b r n) = cell c r.
Proof.
  intros H1 H2 H3 H4. unfold finished. cbv zeta. cbn [foldr].
  destruct b.
  - rewrite cell_insert_ne by done. rewrite !cell_delete_ne by done.
    by rewrite cell_insert_ne.
  - rewrite !cell_delete_ne by done. by rewrite cell_insert_ne.
Qed.

Lemma cell_finished_rank cfg b r n :
  itemno_col cfg ≠ "Production Rank" →
  cell "Production Rank" (finished cfg b r n) = VNum (inject_Z (Z.of_nat n + 1)).
Proof.
  intros H1. unfold finished. cbv zeta. cbn [foldr].
  destruct b.
  - rewrite cell_insert_ne by done. rewrite !cell_delete_ne by done.
    by rewrite cell_insert_eq.
  - rewrite !cell_delete_ne by done. by rewrite cell_insert_eq.
Qed.


(** The order of two computed rows of one machine. *)
Lemma plan_order_computed cfg r1 r2 :
  plan_row_computed cfg r1 → plan_row_computed cfg r2 →
  machine r1 = machine r2 →
  row_le plan_sort_keys r1 r2 = true → plan_order cfg r1 r2.
Proof.
  intros (Hm1 & _ & _ & _ & _ & Hg1 & Hq1 & Ha1 & Hd1)
         (Hm2 & _ & _ & _ & _ & Hg2 & Hq2 & Ha2 & Hd2) Hm.
  unfold plan_order, gap_of, qty_of, machine in *. cbv zeta.
  unfold row_le, plan_sort_keys, row_compare.
  rewrite Hm1, Hm2, Hg1, Hg2, Hq1, Hq2, Ha1, Ha2, Hd1, Hd2, Hm.
  cbn [key_compare isna cell_compare num_of].
  rewrite string_compare_refl, Qcompare_inject_Z.
  destruct (Z.compare_spec (alert_priority (cell (alert_col cfg) r1))
              (alert_priority (cell (alert_col cfg) r2))) as [Ep|Ep|Ep];
    [|by left|done].
  intros Hle. right. split; [done|].
  destruct (Qcompare_spec (row_gap cfg r2) (row_gap cfg r1)) as [Eg|Eg|Eg];
    [|by left|done].
  right. split; [by symmetry|].
  rewrite Qcompare_inject_Z in Hle. rewrite <- Zlt_Qlt.
  destruct (Z.compare_spec (row_qty cfg r2) (row_qty cfg r1)) as [Eq'|Eq'|Eq'];
    [|by left|done].
  right. split; [by rewrite Eq'|].
  apply Qle_alt. by destruct (Qcompare _ _).
Qed.

End builder_figures.

Section builder_claims.
Context `{PyLib}.


Lemma finished_order cfg b s1 n1 s2 n2 :
  input_names_fresh cfg →
  plan_order cfg s1 s2 →
  plan_order cfg (finished cfg b s1 n1) (finished cfg b s2 n2).
Proof.
  intros Hf Hs. use_fresh_names Hf.
  unfold plan_order, gap_of, qty_of in *.
  rewrite !cell_finished by ne_names. done.
Qed.

Lemma finished_machine cfg b s n :
  input_names_fresh cfg → machine (finished cfg b s n) = machine s.
Proof.
  intros Hf. use_fresh_names Hf. unfold machine.
  by rewrite cell_finished by ne_names.
Qed.

Lemma finished_machine_cell cfg b s n :
  input_names_fresh cfg →
  cell "Machine" s = VStr (str_of (cell "Machine" s)) →
  cell "Machine" (finished cfg b s n) = VStr (machine (finished cfg b s n)).
Proof.
  intros Hf Hs. use_fresh_names Hf. unfold machine.
  by rewrite cell_finished by ne_names.
Qed.

Lemma finished_rank cfg b s n :
  input_names_fresh cfg →
  cell "Production Rank" (finished cfg b s n) = VNum (inject_Z (Z.of_nat n + 1)).
Proof.
  intros Hf. use_fresh_names Hf. by rewrite cell_finished_rank by ne_names.
Qed.


(** C2: in the plan a run returns, of two rows of one machine the earlier
    one has the lower alert priority (RED 0, ORANGE 1, YELLOW 2, GREEN 3,
    anything else 9), or the same and the larger gap, or the same and the
    larger quantity, or the same and a monthly demand that is not smaller;
    and the rank of a row is 1 plus the number of rows of its machine above
    it. *)
Theorem plan_rows_ranked_within_machine (σ σ' : store) master cfg out :
  input_names_fresh cfg →
  build_production_plan master cfg σ = (Ok out, σ') →
  ∃ fo, σ' !! out = Some fo ∧
    (∀ i j r1 r2, (i < j)%nat →
       rows fo !! i = Some r1 → rows fo !! j = Some r2 →
       machine r1 = machine r2 → plan_order cfg r1 r2) ∧
    (∀ j r, rows fo !! j = Some r →
       cell "Machine" r = VStr (machine r) ∧
       cell "Production Rank" r
       = VNum (inject_Z
                 (Z.of_nat (length (filter (λ r', machine r' = machine r)
                                      (take j (rows fo)))) + 1))) ∧
    alert_priority (VStr "RED") = 0%Z ∧ alert_priority (VStr "ORANGE") = 1%Z ∧
    alert_priority (VStr "YELLOW") = 2%Z ∧ alert_priority (VStr "GREEN") = 3%Z ∧
    (∀ v, v ≠ VStr "RED" → v ≠ VStr "ORANGE" → v ≠ VStr "YELLOW" →
          v ≠ VStr "GREEN" → alert_priority v = 9%Z).
Proof.
  intros Hf Hrun.
  destruct (build_rows _ _ _ _ _ Hf Hrun) as (fo & sorted & b & Hout & Hrows & Hs & Ho).
  exists fo. split; [done|]. rewrite Hrows. clear Hrows Hout Hrun.
  rewrite Forall_lookup in Hs.
  split; [|split].
  - intros i j r1 r2 Hij Hi Hj Hm.
    apply lookup_zip_with_Some in Hi as (s1 & n1 & -> & Hs1 & _).
    apply lookup_zip_with_Some in Hj as (s2 & n2 & -> & Hs2 & _).
    rewrite !finished_machine in Hm by done.
    apply finished_order; [done|].
    apply plan_order_computed; [by apply (Hs i)|by apply (Hs j)|done|].
    by apply (Ho i j).
  - intros j r Hj.
    apply lookup_zip_with_Some in Hj as (s & n & -> & Hsj & Hn).
    pose proof (Hs j s Hsj) as (Hms & _).
    split; [by apply finished_machine_cell|].
    rewrite finished_rank by done. do 4 f_equal.
    unfold cumcount in Hn.
    rewrite (cumcount_from_lookup [] _ j (cell "Machine" s)) in Hn
      by (by rewrite list_lookup_fmap, Hsj).
    injection Hn as <-. cbn [app].
    apply (count_related
             (λ (w : value) (r' : gmap string value),
                w = VStr (machine r'))).
    + apply Forall2_same_length_lookup_2.
      * unfold cumcount.
        rewrite !length_take, length_zip_with, length_cumcount_from, !length_fmap.
        lia.
      * intros i w r' Hw Hr'.
        apply lookup_take_Some in Hw as [Hw Hi].
        apply lookup_take_Some in Hr' as [Hr' _].
        apply lookup_zip_with_Some in Hr' as (s' & n' & -> & Hs' & _).
        rewrite list_lookup_fmap, Hs' in Hw. injection Hw as <-.
        rewrite finished_machine by done.
        by pose proof (Hs i s' Hs') as (? & _).
    + intros w r' ->. rewrite finished_machine by done.
      rewrite Hms. unfold same_group. cbn [cell_compare].
      change (str_of (cell "Machine" s)) with (machine s).
      split.
      * destruct (String.compare (machine r') (machine s)) eqn:E; try done.
        intros _. by apply String.compare_eq_iff.
      * intros ->. by rewrite string_compare_refl.
  - repeat split.
    intros v H1 H2 H3 H4. unfold alert_priority, map_dict.
    destruct v as [| |q|s|l|d]; try done.
    unfold priority_map. simpl.
    repeat (rewrite lookup_insert_ne; [|intros <-; done]).
    done.
Qed.

End builder_claims.

Lemma default_names_fresh : input_names_fresh (default_config "Machine No.").
Proof.
  refine (bool_decide_unpack _ _). vm_compute. exact I.
Defined.


Lemma plan_rank_witness :
  ∃ fo,
    (build_production_plan (H:=plain_lib) 0 (default_config "Machine No.")
       [plan_input_table]).2 !! 4%nat = Some fo ∧
    (∀ i j r1 r2, (i < j)%nat →
       rows fo !! i = Some r1 → rows fo !! j = Some r2 →
       machine r1 = machine r2 →
       plan_order (H:=plain_lib) (default_config "Machine No.") r1 r2) ∧
    (∀ j r, rows fo !! j = Some r →
       cell "Machine" r = VStr (machine r) ∧
       cell "Production Rank" r
       = VNum (inject_Z
                 (Z.of_nat (length (filter (λ r', machine r' = machine r)
                                      (take j (rows fo)))) + 1))) ∧
    alert_priority (VStr "RED") = 0%Z ∧ alert_priority (VStr "ORANGE") = 1%Z ∧
    alert_priority (VStr "YELLOW") = 2%Z ∧ alert_priority (VStr "GREEN") = 3%Z ∧
    (∀ v, v ≠ VStr "RED" → v ≠ VStr "ORANGE" → v ≠ VStr "YELLOW" →
          v ≠ VStr "GREEN" → alert_priority v = 9%Z).
Proof.
  apply (plan_rows_ranked_within_machine (H:=plain_lib) [plan_input_table] _ 0
           (default_config "Machine No.") 4).
  - refine (bool_decide_unpack _ _). vm_compute. exact I.
  - vm_compute. reflexivity.
Defined.


(** ** report_export.py *)

(** ** The store, continued *)









(** ** Frame statements that cannot fail *)






Section report_proofs.
Context `{PyLib}.








(** ** Selecting columns *)



(** ** The order of the extracts *)


End report_proofs.


Section report_claims.
Context `{PyLib}.








End report_claims.



(** ** production_plan_export.py *)

Section fill_proofs.
Context `{PyLib}.

Lemma ws_cell_Ok ws r c :
  (0 < r)%nat → (0 < c)%nat → ws_cell ws r c = Ok (default VNone (cells ws !! (r, c))).
Proof.
  intros Hr Hc. unfold ws_cell.
  destruct r; [lia|]. destruct c; [lia|]. done.
Qed.

Lemma ws_cell_Ok_inv ws r c v :
  ws_cell ws r c = Ok v → (0 < r)%nat ∧ (0 < c)%nat.
Proof.
  unfold ws_cell. destruct r; [done|]. destruct c; [done|]. lia.
Qed.

Lemma fill_row_step qm ci cq r st :
  (0 < ci)%nat → (0 < r)%nat →
  fill_row qm ci cq r st = (Ok tt, fill_step qm ci cq st r).
Proof.
  intros Hci Hr. unfold fill_row, fill_step.
  rewrite bind_eq. unfold get. rewrite bind_eq.
  unfold lift. rewrite (ws_cell_Ok _ _ _ Hr Hci).
  fold (row_key (fs_ws st) ci r).
  destruct (String.eqb (row_key (fs_ws st) ci r) ""); [done|].
  by destruct (qm !! row_key (fs_ws st) ci r).
Qed.

Lemma for_each_fill qm ci cq rs st :
  (0 < ci)%nat → Forall (λ r, 0 < r)%nat rs →
  for_each rs (fill_row qm ci cq) st = (Ok tt, foldl (fill_step qm ci cq) st rs).
Proof.
  intros Hci Hrs. revert st. induction Hrs as [|r rs Hr _ IH]; intros st; [done|].
  cbn [for_each foldl]. rewrite bind_eq, (fill_row_step _ _ _ _ _ Hci Hr).
  apply IH.
Qed.

(** A turn for row [r] leaves the other rows of the sheet alone. *)
Lemma fill_step_other qm ci cq st r r' c :
  r' ≠ r →
  cells (fs_ws (fill_step qm ci cq st r)) !! (r', c) = cells (fs_ws st) !! (r', c).
Proof.
  intros Hne. unfold fill_step. cbv zeta.
  destruct (String.eqb _ ""); [done|].
  destruct (qm !! _); [|done]. cbn [fs_ws ws_set cells].
  rewrite lookup_insert_ne; [done|]. intros E. injection E as ->. done.
Qed.

Lemma fill_step_key qm ci cq st r r' :
  r' ≠ r → row_key (fs_ws (fill_step qm ci cq st r)) ci r' = row_key (fs_ws st) ci r'.
Proof. intros Hne. unfold row_key. by rewrite fill_step_other. Qed.

Lemma fill_step_this qm ci cq st r :
  cells (fs_ws (fill_step qm ci cq st r)) !! (r, cq)
  = if matched qm (fs_ws st) ci r then VNum <$> qm !! row_key (fs_ws st) ci r
    else cells (fs_ws st) !! (r, cq).
Proof.
  unfold fill_step, matched. cbv zeta.
  destruct (String.eqb _ ""); [done|]. cbn [negb andb].
  destruct (qm !! _) as [q|] eqn:E.
  - rewrite bool_decide_eq_true_2 by (by eexists). cbn [fs_ws ws_set cells].
    by rewrite lookup_insert_eq.
  - rewrite bool_decide_eq_false_2; [done|]. by intros [? ?].
Qed.

Lemma fill_step_unmatched qm ci cq st r c :
  matched qm (fs_ws st) ci r = false →
  cells (fs_ws (fill_step qm ci cq st r)) !! (r, c) = cells (fs_ws st) !! (r, c).
Proof.
  unfold fill_step, matched. cbv zeta.
  destruct (String.eqb _ ""); [done|]. cbn [negb andb].
  destruct (qm !! _) as [q|] eqn:E; [|done].
  rewrite bool_decide_eq_true_2 by (by eexists). done.
Qed.

Lemma fill_step_other_col qm ci cq st r r' c :
  c ≠ cq →
  cells (fs_ws (fill_step qm ci cq st r)) !! (r', c) = cells (fs_ws st) !! (r', c).
Proof.
  intros Hne. unfold fill_step. cbv zeta.
  destruct (String.eqb _ ""); [done|].
  destruct (qm !! _); [|done]. cbn [fs_ws ws_set cells].
  rewrite lookup_insert_ne; [done|]. intros E. injection E as -> ->. done.
Qed.

Lemma fill_step_counts qm ci cq st r :
  filled (fill_step qm ci cq st r)
  = (filled st + length (List.filter (matched qm (fs_ws st) ci) [r]))%nat ∧
  not_matched (fill_step qm ci cq st r)
  = (not_matched st + length (List.filter (not_in_plan qm (fs_ws st) ci) [r]))%nat ∧
  unmatched (fill_step qm ci cq st r)
  = unmatched st
    ++ (row_key (fs_ws st) ci <$> List.filter (not_in_plan qm (fs_ws st) ci) [r]).
Proof.
  unfold fill_step, matched, not_in_plan. cbv zeta. cbn [List.filter].
  destruct (String.eqb _ ""); cbn [negb andb length fmap list_fmap].
  { rewrite !Nat.add_0_r, app_nil_r. done. }
  destruct (qm !! _) as [q|] eqn:E.
  - rewrite bool_decide_eq_true_2 by (by eexists).
    rewrite bool_decide_eq_false_2 by done. cbn.
    rewrite !Nat.add_0_r, app_nil_r. done.
  - rewrite bool_decide_eq_false_2 by (by intros [? ?]).
    rewrite bool_decide_eq_true_2 by done. cbn.
    rewrite !Nat.add_0_r. done.
Qed.

Lemma matched_ext qm ws ws' ci r :
  row_key ws' ci r = row_key ws ci r → matched qm ws' ci r = matched qm ws ci r.
Proof. unfold matched. by intros ->. Qed.

Lemma not_in_plan_ext qm ws ws' ci r :
  row_key ws' ci r = row_key ws ci r →
  not_in_plan qm ws' ci r = not_in_plan qm ws ci r.
Proof. unfold not_in_plan. by intros ->. Qed.

(** The whole loop over distinct rows, told from the sheet it started on. *)
Lemma fill_fold qm ci cq rs st :
  NoDup rs →
  let st' := foldl (fill_step qm ci cq) st rs in
  let ws := fs_ws st in
  (∀ r c, r ∉ rs ∨ c ≠ cq ∨ matched qm ws ci r = false →
     cells (fs_ws st') !! (r, c) = cells ws !! (r, c)) ∧
  (∀ r, r ∈ rs → matched qm ws ci r = true →
     cells (fs_ws st') !! (r, cq) = VNum <$> qm !! row_key ws ci r) ∧
  filled st' = (filled st + length (List.filter (matched qm ws ci) rs))%nat ∧
  not_matched st'
  = (not_matched st + length (List.filter (not_in_plan qm ws ci) rs))%nat ∧
  unmatched st'
  = unmatched st ++ (row_key ws ci <$> List.filter (not_in_plan qm ws ci) rs).
Proof.
  intros Hnd. revert st. induction Hnd as [|r rs Hr Hnd IH]; intros st; cbv zeta.
  { cbn. rewrite !Nat.add_0_r, app_nil_r. repeat split; try done.
    intros r Hin. by apply elem_of_nil in Hin. }
  cbn [foldl].
  destruct (IH (fill_step qm ci cq st r)) as (Ha & Hb & Hf & Hn & Hu).
  cbv zeta in Ha, Hb, Hf, Hn, Hu.
  assert (Hkey : ∀ r', r' ∈ rs →
            row_key (fs_ws (fill_step qm ci cq st r)) ci r' = row_key (fs_ws st) ci r').
  { intros r' Hin. apply fill_step_key. by intros ->. }
  assert (Hm : List.filter (matched qm (fs_ws (fill_step qm ci cq st r)) ci) rs
               = List.filter (matched qm (fs_ws st) ci) rs).
  { apply List.filter_ext_in. intros r' Hin. apply list_elem_of_In in Hin.
    by apply matched_ext, Hkey. }
  assert (Hnm : List.filter (not_in_plan qm (fs_ws (fill_step qm ci cq st r)) ci) rs
                = List.filter (not_in_plan qm (fs_ws st) ci) rs).
  { apply List.filter_ext_in. intros r' Hin. apply list_elem_of_In in Hin.
    by apply not_in_plan_ext, Hkey. }
  assert (Hkm : row_key (fs_ws (fill_step qm ci cq st r)) ci
                  <$> List.filter (not_in_plan qm (fs_ws st) ci) rs
                = row_key (fs_ws st) ci
                  <$> List.filter (not_in_plan qm (fs_ws st) ci) rs).
  { apply list_fmap_ext. intros i r' Hi. apply Hkey.
    apply list_elem_of_lookup_2 in Hi. apply list_elem_of_In in Hi.
    apply List.filter_In in Hi as [Hi _]. by apply list_elem_of_In. }
  destruct (fill_step_counts qm ci cq st r) as (Hf1 & Hn1 & Hu1).
  split; [|split; [|split; [|split]]].
  - intros r0 c Hc.
    rewrite Ha.
    + destruct (decide (r0 = r)) as [->|Hne]; [|by apply fill_step_other].
      destruct (decide (c = cq)) as [->|Hnc]; [|by apply fill_step_other_col].
      destruct Hc as [Hc|[Hc|Hc]]; [|done|by apply fill_step_unmatched].
      exfalso. apply Hc. left.
    + destruct Hc as [Hc|[Hc|Hc]]; [left|by right; left|].
      * intros Hin. apply Hc. by right.
      * destruct (decide (r0 ∈ rs)) as [Hin|Hnin]; [|by left].
        right; right. by rewrite (matched_ext _ _ _ _ _ (Hkey r0 Hin)).
  - intros r0 Hin Hm0. apply elem_of_cons in Hin as [->|Hin].
    + rewrite Ha by (by left). by rewrite fill_step_this, Hm0.
    + rewrite Hb; [by rewrite Hkey|done|].
      by rewrite (matched_ext _ _ _ _ _ (Hkey r0 Hin)).
  - rewrite Hf, Hf1, Hm. cbn [List.filter].
    destruct (matched qm (fs_ws st) ci r); cbn [length]; lia.
  - rewrite Hn, Hn1, Hnm. cbn [List.filter].
    destruct (not_in_plan qm (fs_ws st) ci r); cbn [length]; lia.
  - rewrite Hu, Hu1, Hnm, Hkm. cbn [List.filter].
    destruct (not_in_plan qm (fs_ws st) ci r); cbn [fmap list_fmap app].
    + by rewrite <- app_assoc.
    + by rewrite app_nil_r.
Qed.

Lemma fill_row_first_row qm ci cq st :
  ∃ e, fill_row qm ci cq 0 st = (Raise e, st).
Proof. unfold fill_row. rewrite bind_eq. unfold get. rewrite bind_eq. by eexists. Qed.

Lemma for_each_fill_inv qm ci cq rs st u st' :
  (0 < ci)%nat →
  for_each rs (fill_row qm ci cq) st = (Ok u, st') →
  st' = foldl (fill_step qm ci cq) st rs.
Proof.
  intros Hci. revert st. induction rs as [|r rs IH]; intros st.
  - cbn. by intros [= _ <-].
  - cbn [for_each foldl]. rewrite bind_eq.
    destruct r as [|r].
    + destruct (fill_row_first_row qm ci cq st) as [e ->]. done.
    + rewrite (fill_row_step qm ci cq (S r) st Hci) by lia. apply IH.
Qed.

Lemma index_from_pos i x l c : index_from i x l = Some c → (i ≤ c)%nat.
Proof.
  revert i. induction l as [|y l IH]; intros i; simpl; [done|].
  destruct (String.eqb y x); [intros [= <-]; lia|].
  intros E. apply IH in E. lia.
Qed.

Lemma find_header_pos what hr hs c : find_header what hr hs = Ok c → (0 < c)%nat.
Proof.
  unfold find_header. destruct (index_from 1 _ hs) as [c'|] eqn:E; [|done].
  intros [= <-]. apply index_from_pos in E. lia.
Qed.

Lemma sheet_set_sheet name ws ws' wb :
  sheet name wb = Some ws → sheet name (set_sheet name ws' wb) = Some ws'.
Proof.
  unfold sheet. induction wb as [|[n w] wb IH]; simpl; [done|].
  destruct (String.eqb n name) eqn:E; simpl; rewrite E; [done|]. apply IH.
Qed.

(** A run of the fill that returns: the sheet, the two columns, and the
    state the loop ends in. *)
Lemma fill_run template plan_df ic qc sn hr sr ih qh wb' nf nn um :
  fill_qty_in_client_orders template plan_df ic qc sn hr sr ih qh
    = Ok (wb', nf, nn, um) →
  ∃ ws ci cq,
    sheet sn template = Some ws ∧
    header_column ws hr ih = Ok ci ∧ header_column ws hr qh = Ok cq ∧
    ∃ st',
      st' = foldl (fill_step (plan_qty_map plan_df ic qc) ci cq)
              {| fs_ws := ws; filled := 0; not_matched := 0; unmatched := [] |}
              (template_rows ws sr) ∧
      sheet sn wb' = Some (fs_ws st') ∧
      nf = filled st' ∧ nn = not_matched st' ∧ um = unmatched st'.
Proof.
  unfold fill_qty_in_client_orders, header_column. cbv zeta.
  destruct (negb (has_col ic plan_df)); [done|].
  destruct (negb (has_col qc plan_df)); [done|].
  destruct (String.eqb ic qc); [done|].
  destruct (sheet sn template) as [ws|] eqn:Hws; [|done].
  destruct (mapM (ws_cell ws hr) (seq 1 (max_column ws))) as [hs|] eqn:Hh; [|done].
  destruct (find_header ih hr _) as [ci|] eqn:Hci; [|done].
  destruct (find_header qh hr _) as [cq|] eqn:Hcq; [|done].
  destruct (for_each _ _ _) as [[u|e] st'] eqn:Hloop; [|done].
  intros [= <- <- <- <-].
  exists ws, ci, cq. rewrite Hh. do 3 (split; [done|]).
  exists st'. split.
  - apply find_header_pos in Hci. by apply (for_each_fill_inv _ _ _ _ _ _ _ Hci Hloop).
  - split; [by apply (sheet_set_sheet _ ws)|done].
Qed.

(** ** [dict(zip(keys, values))] *)

Lemma foldl_insert_absent {V} (l : list (string * V)) (m : gmap string V) k :
  (∀ j kv, l !! j = Some kv → kv.1 ≠ k) →
  foldl (λ m kv, <[kv.1 := kv.2]> m) m l !! k = m !! k.
Proof.
  revert m. induction l as [|[k0 v0] l IH]; intros m Hl; [done|].
  cbn [foldl]. rewrite IH.
  - apply lookup_insert_ne. apply (Hl 0%nat (k0, v0)). done.
  - intros j kv Hj. by apply (Hl (S j)).
Qed.

Lemma foldl_insert_last {V} (l : list (string * V)) (m : gmap string V) i k v :
  l !! i = Some (k, v) →
  (∀ j kv, (i < j)%nat → l !! j = Some kv → kv.1 ≠ k) →
  foldl (λ m kv, <[kv.1 := kv.2]> m) m l !! k = Some v.
Proof.
  revert m i. induction l as [|[k0 v0] l IH]; intros m i Hi Hlast; [done|].
  cbn [foldl]. destruct i as [|i].
  - injection Hi as -> ->. rewrite foldl_insert_absent.
    + apply lookup_insert_eq.
    + intros j kv Hj. apply (Hlast (S j)); [lia|done].
  - apply (IH _ i); [done|].
    intros j kv Hij Hj. apply (Hlast (S j)); [lia|done].
Qed.

Lemma foldl_insert_dom {V} (l : list (string * V)) (m : gmap string V) k :
  is_Some (foldl (λ m kv, <[kv.1 := kv.2]> m) m l !! k)
  ↔ is_Some (m !! k) ∨ ∃ j kv, l !! j = Some kv ∧ kv.1 = k.
Proof.
  revert m. induction l as [|[k0 v0] l IH]; intros m.
  - cbn. split; [by left|]. intros [?|(j & kv & Hj & _)]; done.
  - cbn [foldl]. rewrite IH. split.
    + intros [Hs|(j & kv & Hj & Hk)].
      * destruct (decide (k0 = k)) as [->|Hne].
        -- right. by exists 0%nat, (k, v0).
        -- left. by rewrite lookup_insert_ne in Hs.
      * right. by exists (S j), kv.
    + intros [Hs|(j & kv & Hj & Hk)].
      * left. destruct (decide (k0 = k)) as [->|Hne].
        -- rewrite lookup_insert_eq. by eexists.
        -- by rewrite lookup_insert_ne.
      * destruct j as [|j].
        -- injection Hj as <-. simpl in Hk. subst k0. left.
           rewrite lookup_insert_eq. by eexists.
        -- right. by exists j, kv.
Qed.

(** The quantity of a key is that of the last plan row that has the key. *)
Lemma plan_qty_map_last plan_df ic qc i pr :
  rows plan_df !! i = Some pr →
  (∀ j pr', (i < j)%nat → rows plan_df !! j = Some pr' →
     _digits_key (cell ic pr') ≠ _digits_key (cell ic pr)) →
  plan_qty_map plan_df ic qc !! _digits_key (cell ic pr)
  = Some (fillna 0 (to_numeric (cell qc pr))).
Proof.
  intros Hi Hlast. unfold plan_qty_map, dict_of_zip, col.
  rewrite <- !list_fmap_compose, zip_fmap_same.
  apply (foldl_insert_last _ _ i).
  - by rewrite list_lookup_fmap, Hi.
  - intros j kv Hij Hj. rewrite list_lookup_fmap in Hj.
    destruct (rows plan_df !! j) as [pr'|] eqn:Hj'; [|done].
    injection Hj as <-. by apply (Hlast j).
Qed.

Lemma plan_qty_map_has plan_df ic qc k :
  is_Some (plan_qty_map plan_df ic qc !! k)
  ↔ ∃ i pr, rows plan_df !! i = Some pr ∧ _digits_key (cell ic pr) = k.
Proof.
  unfold plan_qty_map, dict_of_zip, col.
  rewrite <- !list_fmap_compose, zip_fmap_same, foldl_insert_dom.
  rewrite lookup_empty. split.
  - intros [[? ?]|(j & kv & Hj & Hk)]; [done|].
    rewrite list_lookup_fmap in Hj.
    destruct (rows plan_df !! j) as [pr|] eqn:Hj'; [|done].
    injection Hj as <-. by exists j, pr.
  - intros (i & pr & Hi & Hk). right. eexists i, _.
    rewrite list_lookup_fmap, Hi. done.
Qed.

Lemma template_rows_NoDup ws sr : NoDup (template_rows ws sr).
Proof. apply NoDup_seq. Qed.

Lemma matched_true qm ws ci r :
  matched qm ws ci r = true ↔ row_key ws ci r ≠ "" ∧ is_Some (qm !! row_key ws ci r).
Proof.
  unfold matched. rewrite andb_true_iff, negb_true_iff, bool_decide_eq_true.
  rewrite String.eqb_neq. done.
Qed.

(** C8: the fill matches template rows to plan rows by the digits of the
    item number without leading zeros; every row of the walk that has a key
    the plan has gets the plan's quantity written in the quantity column,
    also when it is 0; nothing else on the sheet changes; and the three
    results are the number of such rows, the number of rows whose key the
    plan does not have, and those keys in row order.  Rows without a key are
    skipped and counted nowhere. *)
Theorem fill_matches_rows_by_digits_key template plan_df ic qc sn hr sr ih qh
    wb' nf nn um :
  fill_qty_in_client_orders template plan_df ic qc sn hr sr ih qh
    = Ok (wb', nf, nn, um) →
  ∃ ws ws' ci cq,
    sheet sn template = Some ws ∧ sheet sn wb' = Some ws' ∧
    header_column ws hr ih = Ok ci ∧ header_column ws hr qh = Ok cq ∧
    let qm := plan_qty_map plan_df ic qc in
    let rs := template_rows ws sr in
    (∀ r i pr, r ∈ rs → row_key ws ci r ≠ "" →
       rows plan_df !! i = Some pr → _digits_key (cell ic pr) = row_key ws ci r →
       ∃ q, qm !! row_key ws ci r = Some q ∧
            cells ws' !! (r, cq) = Some (VNum q)) ∧
    (∀ r, r ∈ rs → row_key ws ci r ≠ "" → qm !! row_key ws ci r = Some 0%Q →
       cells ws' !! (r, cq) = Some (VNum 0)) ∧
    (∀ r c, r ∉ rs ∨ c ≠ cq ∨ matched qm ws ci r = false →
       cells ws' !! (r, c) = cells ws !! (r, c)) ∧
    nf = length (List.filter (matched qm ws ci) rs) ∧
    nn = length (List.filter (not_in_plan qm ws ci) rs) ∧
    um = row_key ws ci <$> List.filter (not_in_plan qm ws ci) rs ∧
    _digits_key (VStr "00123") = _digits_key (VStr "123").
Proof.
  intros Hrun.
  destruct (fill_run _ _ _ _ _ _ _ _ _ _ _ _ _ Hrun)
    as (ws & ci & cq & Hws & Hci & Hcq & st' & Hst & Hws' & -> & -> & ->).
  exists ws, (fs_ws st'), ci, cq. do 4 (split; [done|]). cbv zeta.
  destruct (fill_fold (plan_qty_map plan_df ic qc) ci cq (template_rows ws sr)
              {| fs_ws := ws; filled := 0; not_matched := 0; unmatched := [] |}
              (template_rows_NoDup ws sr)) as (Ha & Hb & Hf & Hn & Hu).
  cbv zeta in Ha, Hb, Hf, Hn, Hu. rewrite <- Hst in Ha, Hb, Hf, Hn, Hu.
  cbn [fs_ws filled not_matched unmatched] in Ha, Hb, Hf, Hn, Hu.
  split; [|split; [|split; [|split; [|split; [|split]]]]]; try done.
  - intros r i pr Hr Hk Hi Hpr.
    assert (Hs : is_Some (plan_qty_map plan_df ic qc !! row_key ws ci r)).
    { apply plan_qty_map_has. by exists i, pr. }
    destruct Hs as [q Hq]. exists q. split; [done|].
    rewrite Hb, Hq; [done..|]. apply matched_true. split; [done|by eexists].
  - intros r Hr Hk Hq. rewrite Hb, Hq; [done..|].
    apply matched_true. split; [done|by eexists].
Qed.

(** C10: when several plan rows have the key of a template row, the
    quantity written is the coerced quantity of the last of them in the
    plan's row order. *)
Theorem fill_takes_the_last_plan_row_of_a_key template plan_df ic qc sn hr sr
    ih qh wb' nf nn um :
  fill_qty_in_client_orders template plan_df ic qc sn hr sr ih qh
    = Ok (wb', nf, nn, um) →
  ∃ ws ws' ci cq,
    sheet sn template = Some ws ∧ sheet sn wb' = Some ws' ∧
    header_column ws hr ih = Ok ci ∧ header_column ws hr qh = Ok cq ∧
    ∀ r i pr, r ∈ template_rows ws sr → row_key ws ci r ≠ "" →
      rows plan_df !! i = Some pr → _digits_key (cell ic pr) = row_key ws ci r →
      (∀ j pr', (i < j)%nat → rows plan_df !! j = Some pr' →
         _digits_key (cell ic pr') ≠ row_key ws ci r) →
      cells ws' !! (r, cq) = Some (VNum (fillna 0 (to_numeric (cell qc pr)))).
Proof.
  intros Hrun.
  destruct (fill_run _ _ _ _ _ _ _ _ _ _ _ _ _ Hrun)
    as (ws & ci & cq & Hws & Hci & Hcq & st' & Hst & Hws' & -> & -> & ->).
  exists ws, (fs_ws st'), ci, cq. do 4 (split; [done|]).
  destruct (fill_fold (plan_qty_map plan_df ic qc) ci cq (template_rows ws sr)
              {| fs_ws := ws; filled := 0; not_matched := 0; unmatched := [] |}
              (template_rows_NoDup ws sr)) as (_ & Hb & _).
  cbv zeta in Hb. rewrite <- Hst in Hb. cbn [fs_ws] in Hb.
  intros r i pr Hr Hk Hi Hpr Hlast.
  assert (Hq : plan_qty_map plan_df ic qc !! row_key ws ci r
               = Some (fillna 0 (to_numeric (cell qc pr)))).
  { rewrite <- Hpr. apply (plan_qty_map_last _ _ _ i); [done|]. by rewrite Hpr. }
  rewrite Hb, Hq; [done..|]. apply matched_true. split; [done|by eexists].
Qed.

End fill_proofs.

Lemma fill_matches_witness :
  ∃ ws ws' ci cq,
    sheet "Clinet Orders" sample_template = Some ws ∧
    sheet "Clinet Orders" sample_filled = Some ws' ∧
    header_column (H:=plain_lib) ws 2 "Item No." = Ok ci ∧
    header_column (H:=plain_lib) ws 2 "Qty" = Ok cq ∧
    let qm := plan_qty_map (H:=plain_lib) sample_plan "Item No." "Final Qty" in
    let rs := template_rows ws 3 in
    (∀ r i pr, r ∈ rs → row_key (H:=plain_lib) ws ci r ≠ "" →
       rows sample_plan !! i = Some pr →
       _digits_key (H:=plain_lib) (cell "Item No." pr) = row_key (H:=plain_lib) ws ci r →
       ∃ q, qm !! row_key (H:=plain_lib) ws ci r = Some q ∧
            cells ws' !! (r, cq) = Some (VNum q)) ∧
    (∀ r, r ∈ rs → row_key (H:=plain_lib) ws ci r ≠ "" →
       qm !! row_key (H:=plain_lib) ws ci r = Some 0%Q →
       cells ws' !! (r, cq) = Some (VNum 0)) ∧
    (∀ r c, r ∉ rs ∨ c ≠ cq ∨ matched (H:=plain_lib) qm ws ci r = false →
       cells ws' !! (r, c) = cells ws !! (r, c)) ∧
    2%nat = length (List.filter (matched (H:=plain_lib) qm ws ci) rs) ∧
    1%nat = length (List.filter (not_in_plan (H:=plain_lib) qm ws ci) rs) ∧
    ["789"] = row_key (H:=plain_lib) ws ci
                <$> List.filter (not_in_plan (H:=plain_lib) qm ws ci) rs ∧
    _digits_key (H:=plain_lib) (VStr "00123") = _digits_key (H:=plain_lib) (VStr "123").
Proof.
  apply (fill_matches_rows_by_digits_key (H:=plain_lib) sample_template sample_plan
           "Item No." "Final Qty" "Clinet Orders" 2 3 "Item No." "Qty").
  vm_compute. reflexivity.
Defined.

Lemma fill_last_row_witness :
  ∃ ws ws' ci cq,
    sheet "Clinet Orders" sample_template = Some ws ∧
    sheet "Clinet Orders" sample_filled = Some ws' ∧
    header_column (H:=plain_lib) ws 2 "Item No." = Ok ci ∧
    header_column (H:=plain_lib) ws 2 "Qty" = Ok cq ∧
    ∀ r i pr, r ∈ template_rows ws 3 → row_key (H:=plain_lib) ws ci r ≠ "" →
      rows sample_plan !! i = Some pr →
      _digits_key (H:=plain_lib) (cell "Item No." pr) = row_key (H:=plain_lib) ws ci r →
      (∀ j pr', (i < j)%nat → rows sample_plan !! j = Some pr' →
         _digits_key (H:=plain_lib) (cell "Item No." pr') ≠ row_key (H:=plain_lib) ws ci r) →
      cells ws' !! (r, cq)
      = Some (VNum (fillna 0 (to_numeric (H:=plain_lib) (cell "Final Qty" pr)))).
Proof.
  apply (fill_takes_the_last_plan_row_of_a_key (H:=plain_lib) sample_template
           sample_plan "Item No." "Final Qty" "Clinet Orders" 2 3 "Item No." "Qty"
           sample_filled 2 1 ["789"]).
  vm_compute. reflexivity.
Defined.

(** The sample: item 123 stands twice in the plan, with 40 and then 25; the
    template gets 25, and item 0456 gets its 0. *)
Example sample_fill_cells :
  (λ ws, (cells ws !! (3, 2)%nat, cells ws !! (4, 2)%nat, cells ws !! (5, 2)%nat))
    <$> sheet "Clinet Orders" sample_filled
  = Some (Some (VNum 25), Some (VNum 0), None).
Proof. vm_compute. reflexivity. Qed.

(** * Further properties *)

Lemma pair_with_fst {A B} (p : A * B) (a : A) : p.1 = a → p = (a, p.2).
Proof. destruct p. by intros <-. Qed.

(** ** metrics.py, continued *)


Section metrics_more.
Context `{PyLib}.


End metrics_more.

(** ** alerts.py, continued *)

Section alerts_more.
Context `{PyLib}.

Lemma alert_numeric days a :
  _product_alert days = Ok a ∨ _cust_alert days = Ok a → numeric_or_missing days.
Proof.
  unfold _product_alert, _cust_alert, numeric_or_missing.
  destruct days; cbn [isna]; intros [?|?]; try done; eauto.
Qed.

(** An item that is not on the exclusion list, or any item of a table
    without item numbers, gets the customer alert of its customer stock days
    and the product alert of its coverage; the table keeps its rows and
    nothing else in the row changes. *)
Theorem other_items_keep_their_customer_alert (σ : store) df f out σ' i r :
  σ !! df = Some f →
  add_alerts df σ = (Ok out, σ') →
  rows f !! i = Some r →
  has_col "Item No." f = false
  ∨ (_digits_only (cell "Item No." r) ∉ CUST_ALERT_EXCLUDE_ITEMNOS) →
  ∃ fo o pa ca,
    σ' !! out = Some fo ∧ rows fo !! i = Some o ∧
    length (rows fo) = length (rows f) ∧
    _product_alert (cell "Total Coverage Days" r) = Ok pa ∧
    _cust_alert (cell "CUST Stock Days" r) = Ok ca ∧
    cell "Product Alert" o = VStr pa ∧
    cell "CUST Alert" o = VStr ca ∧
    ∀ c, c ≠ "CUST Alert" → c ≠ "Product Alert" → o !! c = r !! c.
Proof.
  intros Hdf Hrun Hi Hex.
  destruct (add_alerts_run _ _ _ _ _ Hdf Hrun) as (fo & -> & -> & Hrows).
  destruct (Forall2_lookup_l _ _ _ _ _ Hrows Hi)
    as (o & Ho & pa & ca & Hpa & Hca & ->).
  eexists fo, _, pa, ca. rewrite lookup_fresh.
  split; [done|]. split; [exact Ho|].
  split; [symmetry; by eapply Forall2_length|].
  do 2 (split; [done|]). repeat split.
  - rewrite cell_insert_ne by done. apply cell_insert_eq.
  - rewrite cell_insert_eq. do 2 f_equal.
    destruct Hex as [->|Hex]; [done|].
    unfold excluded. rewrite (bool_decide_eq_false_2 _ Hex).
    by rewrite andb_false_r.
  - intros c ? ?. by rewrite !lookup_insert_ne.
Qed.

(** The alert classifier returns only for a table whose two day columns are
    there and hold numbers or missing values; without the coverage column it
    raises [KeyError] for it and leaves the copy behind. *)
Theorem alerts_need_their_day_columns (σ : store) df f :
  σ !! df = Some f →
  (has_col "Total Coverage Days" f = false →
   add_alerts df σ = (Raise (KeyError "Total Coverage Days"), σ ++ [f])) ∧
  (∀ out σ', add_alerts df σ = (Ok out, σ') →
     has_col "Total Coverage Days" f = true ∧
     has_col "CUST Stock Days" f = true ∧
     Forall (λ r, numeric_or_missing (cell "Total Coverage Days" r)
                  ∧ numeric_or_missing (cell "CUST Stock Days" r)) (rows f)).
Proof.
  intros Hdf. split.
  - intros Hno. unfold add_alerts. rewrite (copy_on_ret _ _ _ _ Hdf).
    rewrite bind_eq. unfold getitem. rewrite Hno. done.
  - intros out σ' Hrun.
    pose proof (add_alerts_run _ _ _ _ _ Hdf Hrun) as (fo & _ & _ & Hrows).
    split; [|split].
    + destruct (has_col "Total Coverage Days" f) eqn:E; [done|].
      unfold add_alerts in Hrun. rewrite (copy_on_ret _ _ _ _ Hdf) in Hrun.
      rewrite bind_eq in Hrun. unfold getitem in Hrun. rewrite E in Hrun. done.
    + unfold add_alerts in Hrun. enter_body Hrun Hdf Hb.
      run_in Hb.
      all: apply bool_decide_eq_true.
      all: match goal with
           | Hc : "CUST Stock Days" ∈ add_col _ _ |- _ =>
               apply elem_of_add_col in Hc as [Hc|Hc]; [done|exact Hc]
           end.
    + apply Forall_forall. intros r Hr.
      apply list_elem_of_lookup in Hr as [i Hi].
      destruct (Forall2_lookup_l _ _ _ _ _ Hrows Hi)
        as (o & Ho & pa & ca & Hpa & Hca & _).
      split; eapply alert_numeric; eauto.
Qed.

End alerts_more.


Lemma other_items_witness :
  ∃ fo o pa ca,
    (add_alerts (H:=plain_lib) 0 [other_item_table]).2 !! 1%nat = Some fo ∧
    rows fo !! 0%nat = Some o ∧
    length (rows fo) = length (rows other_item_table) ∧
    _product_alert (cell "Total Coverage Days" other_item_row) = Ok pa ∧
    _cust_alert (cell "CUST Stock Days" other_item_row) = Ok ca ∧
    cell "Product Alert" o = VStr pa ∧
    cell "CUST Alert" o = VStr ca ∧
    ∀ c, c ≠ "CUST Alert" → c ≠ "Product Alert" →
      o !! c = other_item_row !! c.
Proof.
  apply (other_items_keep_their_customer_alert (H:=plain_lib)
           [other_item_table] 0 other_item_table 1
           (add_alerts (H:=plain_lib) 0 [other_item_table]).2 0
           other_item_row).
  - reflexivity.
  - apply pair_with_fst. vm_compute. reflexivity.
  - reflexivity.
  - right. refine (bool_decide_unpack _ _). vm_compute. exact I.
Defined.

Lemma alerts_need_witness :
  (has_col "Total Coverage Days" other_item_table = false →
   add_alerts (H:=plain_lib) 0 [other_item_table]
   = (Raise (KeyError "Total Coverage Days"),
      [other_item_table] ++ [other_item_table])) ∧
  (∀ out σ', add_alerts (H:=plain_lib) 0 [other_item_table] = (Ok out, σ') →
     has_col "Total Coverage Days" other_item_table = true ∧
     has_col "CUST Stock Days" other_item_table = true ∧
     Forall (λ r, numeric_or_missing (cell "Total Coverage Days" r)
                  ∧ numeric_or_missing (cell "CUST Stock Days" r))
       (rows other_item_table)).
Proof.
  apply (alerts_need_their_day_columns (H:=plain_lib) [other_item_table] 0
           other_item_table).
  reflexivity.
Defined.

(** ** planning.py, continued *)



Section planning_more.
Context `{PyLib}.



End planning_more.



(** ** machine_plan.py: the classifier, continued *)

Lemma cls_monotone p90 p70 p40 p15 v w :
  (v <= w)%Q →
  (class_rank (cls p90 p70 p40 p15 v) ≤ class_rank (cls p90 p70 p40 p15 w))%nat.
Proof.
  intros Hvw. unfold cls.
  repeat match goal with
  | |- context [Qle_bool ?a ?b] =>
      let E := fresh "E" in
      destruct (Qle_bool a b) eqn:E;
      [ apply Qle_bool_iff in E
      | apply not_true_iff_false in E; rewrite Qle_bool_iff in E ]
  end; cbn; try lia; exfalso; lra.
Qed.

Lemma sort_floats_perm l : sort_floats l ≡ₚ l.
Proof. apply stable_sort_perm. Qed.

(** A percentile of positive numbers is positive. *)
Lemma quantile_pos q l :
  (0 <= q)%Q → (q <= 1)%Q → l ≠ [] → Forall (λ x, 0 < x)%Q l →
  (0 < quantile q l)%Q.
Proof.
  intros Hq0 Hq1 Hne Hpos. unfold quantile. cbv zeta.
  pose proof (sort_floats_perm l) as Hperm.
  set (a := sort_floats l) in *.
  assert (Ha : Forall (λ x, 0 < x)%Q a) by (by rewrite Hperm).
  assert (Hn : (1 ≤ length a)%nat).
  { rewrite Hperm. destruct l; [done|]. cbn. lia. }
  set (h := (q * inject_Z (Z.of_nat (length a) - 1))%Q).
  assert (Hn1 : (0 <= inject_Z (Z.of_nat (length a) - 1))%Q).
  { change 0%Q with (inject_Z 0). rewrite <- Zle_Qle. lia. }
  assert (Hh0 : (0 <= h)%Q) by (unfold h; by apply Qmult_le_0_compat).
  assert (Hh1 : (h <= inject_Z (Z.of_nat (length a) - 1))%Q).
  { unfold h. rewrite <- (Qmult_1_l (inject_Z _)) at 2.
    by apply Qmult_le_compat_r. }
  assert (Hf0 : (0 <= Qfloor h)%Z).
  { rewrite <- (Qfloor_Z 0). by apply Qfloor_resp_le. }
  assert (Hf1 : (Qfloor h <= Z.of_nat (length a) - 1)%Z).
  { rewrite <- (Qfloor_Z (Z.of_nat (length a) - 1)). by apply Qfloor_resp_le. }
  set (lo := Z.to_nat (Qfloor h)).
  assert (Hlo : (lo < length a)%nat) by (unfold lo; lia).
  rewrite Forall_forall in Ha.
  assert (Hx0 : (0 < nth lo a 0)%Q).
  { apply Ha, list_elem_of_In, nth_In. exact Hlo. }
  assert (Hx1 : (0 < nth (S lo) a (nth lo a 0))%Q).
  { destruct (decide (S lo < length a)%nat) as [Hlt|Hge].
    - rewrite (nth_indep a _ 0%Q Hlt). apply Ha, list_elem_of_In, nth_In. exact Hlt.
    - rewrite nth_overflow by lia. exact Hx0. }
  pose proof (Qfloor_le h) as Hfl.
  pose proof (Qlt_floor h) as Hfu.
  rewrite inject_Z_plus in Hfu.
  set (x0 := nth lo a 0%Q) in *. set (x1 := nth (S lo) a x0) in *.
  set (f := inject_Z (Qfloor h)) in *.
  assert (Hd0 : (0 <= h - f)%Q) by lra.
  assert (Hd1 : (h - f < 1)%Q) by (change (inject_Z 1) with 1%Q in Hfu; lra).
  set (t := (h - f)%Q) in *.
  assert (E : (x0 + (x1 - x0) * t == x0 * (1 - t) + x1 * t)%Q) by ring.
  rewrite E.
  assert (0 < x0 * (1 - t))%Q by (apply Qmult_lt_0_compat; lra).
  assert (0 <= x1 * t)%Q by (apply Qmult_le_0_compat; lra).
  lra.
Qed.

Section classifier_more.
Context `{PyLib}.

(** The classifier is monotone: of two rows, the one with at least the
    demand of the other gets at least its class. *)
Theorem classes_grow_with_demand (d : list value) i j v w c1 c2 :
  d !! i = Some v → d !! j = Some w →
  _classify_by_percentiles d !! i = Some c1 →
  _classify_by_percentiles d !! j = Some c2 →
  (demand_value v <= demand_value w)%Q →
  (class_rank c1 ≤ class_rank c2)%nat.
Proof.
  intros Hi Hj. rewrite classify_eq, !list_lookup_fmap, Hi, Hj.
  intros [= <-] [= <-] Hvw. unfold demand_class. cbv zeta.
  destruct (positive_demands d); [done|]. by apply cls_monotone.
Qed.

Lemma positive_demands_positive (d : list value) :
  Forall (λ x, 0 < x)%Q (positive_demands d).
Proof.
  apply Forall_forall. intros q Hq. by apply positive_demands_spec in Hq as [? _].
Qed.

Lemma cls_below p90 p70 p40 p15 v :
  (v < p90)%Q → (v < p70)%Q → (v < p40)%Q → (v < p15)%Q →
  cls p90 p70 p40 p15 v = "VERY_LOW".
Proof. intros. by apply cls_spec. Qed.

(** A row without positive demand (zero, negative or not a number) is
    VERY_LOW whatever the other rows are. *)
Theorem rows_without_demand_are_very_low (d : list value) i v c :
  d !! i = Some v →
  _classify_by_percentiles d !! i = Some c →
  (demand_value v <= 0)%Q →
  c = "VERY_LOW".
Proof.
  intros Hi. rewrite classify_eq, list_lookup_fmap, Hi.
  intros [= <-] Hv. unfold demand_class. cbv zeta.
  pose proof (positive_demands_positive d) as Hpos.
  destruct (positive_demands d) as [|x nz] eqn:E; [done|].
  assert (Hq : ∀ q, (0 <= q)%Q → (q <= 1)%Q → (demand_value v < quantile q (x :: nz))%Q).
  { intros q H0 H1.
    assert (0 < quantile q (x :: nz))%Q by (by apply quantile_pos).
    lra. }
  apply cls_below; apply Hq; lra.
Qed.

End classifier_more.

Lemma classes_grow_witness :
  (class_rank "VERY_LOW" ≤ class_rank "MEDIUM")%nat.
Proof.
  apply (classes_grow_with_demand (H:=plain_lib) sample_demands 0 4
           (VNum 100) (VNum 200) "VERY_LOW" "MEDIUM").
  - reflexivity.
  - reflexivity.
  - vm_compute. reflexivity.
  - vm_compute. reflexivity.
  - vm_compute. discriminate.
Defined.

Lemma rows_without_demand_witness : "VERY_LOW" = "VERY_LOW".
Proof.
  apply (rows_without_demand_are_very_low (H:=plain_lib) sample_demands 2
           (VStr "n/a") "VERY_LOW").
  - reflexivity.
  - vm_compute. reflexivity.
  - vm_compute. discriminate.
Defined.

(** ** Item keys *)

Lemma lstrip_no_leading_zero s : no_leading_zero (lstrip is_zero s).
Proof.
  induction s as [|c s IH]; [done|]. cbn [lstrip].
  destruct (is_zero c) eqn:E; [done|]. exact E.
Qed.

Lemma all_chars_filter p s : all_chars p (filter_chars p s) = true.
Proof.
  induction s as [|c s IH]; [done|]. cbn [filter_chars].
  destruct (p c) eqn:E; [|done]. cbn [all_chars]. by rewrite E, IH.
Qed.

Lemma all_chars_lstrip p q s : all_chars p s = true → all_chars p (lstrip q s) = true.
Proof.
  induction s as [|c s IH]; [done|]. cbn [lstrip all_chars].
  intros Hs. apply andb_true_iff in Hs as [Hc Hs].
  destruct (q c); [by apply IH|]. cbn [all_chars]. by rewrite Hc, Hs.
Qed.

Lemma filter_chars_all p s : all_chars p s = true → filter_chars p s = s.
Proof.
  induction s as [|c s IH]; [done|]. cbn [all_chars filter_chars].
  intros Hs. apply andb_true_iff in Hs as [-> Hs]. by rewrite IH.
Qed.

Lemma lstrip_fixed s : no_leading_zero s → lstrip is_zero s = s.
Proof. destruct s as [|c s]; [done|]. cbn. by intros ->. Qed.

Section keys.
Context `{PyLib}.

(** The alert exclusion and the template fill reduce an item number to the
    same key: its digits without leading zeros.  The key is made of digits
    only, does not start with 0, and is its own key. *)
Theorem item_keys_are_normal (x : value) :
  _digits_only x = _digits_key x ∧
  all_chars isdigit (_digits_key x) = true ∧
  no_leading_zero (_digits_key x) ∧
  _digits_key (VStr (_digits_key x)) = _digits_key x.
Proof.
  assert (Hn : ∀ s, all_chars isdigit (lstrip is_zero (filter_chars isdigit s)) = true
                    ∧ no_leading_zero (lstrip is_zero (filter_chars isdigit s))).
  { intros s. split; [apply all_chars_lstrip, all_chars_filter|apply lstrip_no_leading_zero]. }
  assert (Hi : ∀ s, lstrip is_zero (filter_chars isdigit
                      (lstrip is_zero (filter_chars isdigit s)))
                    = lstrip is_zero (filter_chars isdigit s)).
  { intros s. destruct (Hn s) as [Ha Hz].
    by rewrite (filter_chars_all _ _ Ha), (lstrip_fixed _ Hz). }
  split; [by destruct x|].
  unfold _digits_key at 1 2 4.
  destruct x; try (split; [apply Hn|split; [apply Hn|]]); try done;
    unfold _digits_key; cbn [py_str]; apply Hi.
Qed.

End keys.

(** ** machine_plan.py: the builder, continued *)

Lemma split_nonempty sep s : split sep s ≠ [].
Proof.
  induction s as [|c s IH]; [done|]. cbn [split].
  destruct (Ascii.eqb c sep); [done|]. by destruct (split sep s).
Qed.

Lemma length_flat_map {A B} (g : A → list B) (l : list A) :
  length (flat_map g l) = sum_list ((λ x, length (g x)) <$> l).
Proof.
  induction l as [|x l IH]; [done|]. cbn [flat_map]. csimpl.
  by rewrite length_app, IH.
Qed.

Section builder_more.
Context `{PyLib}.

Lemma require_column_run c f :
  require_column c f
  = if has_col c f then (Ok tt, f)
    else (Raise (ValueError ("Missing required column: " +:+ c)), f).
Proof.
  unfold require_column. rewrite bind_eq. unfold in_columns.
  by destruct (has_col c f).
Qed.

(** The first statements of the builder: the four columns are there, or the
    first one that is not is reported; then every row gets its list of
    machines. *)
Lemma prepare_machines_run cfg f :
  prepare_machines cfg f =
  match List.find (λ c, negb (has_col c f)) (required_columns cfg) with
  | Some c => (Raise (ValueError ("Missing required column: " +:+ c)), f)
  | None =>
      (Ok tt,
       {| columns := add_col "Machine" (add_col (machine_col cfg) (columns f));
          rows := (λ r, <["Machine" := VList (machines_of cfg r)]>
                          (<[machine_col cfg :=
                               VStr (py_str (cell (machine_col cfg) r))]> r))
                  <$> rows f |})
  end.
Proof.
  unfold prepare_machines, required_columns. cbn [List.find].
  rewrite bind_eq, require_column_run.
  destruct (has_col (machine_col cfg) f) eqn:E1; cbn [negb]; [|done].
  rewrite bind_eq, require_column_run.
  destruct (has_col (demand_col cfg) f) eqn:E2; cbn [negb]; [|done].
  rewrite bind_eq, require_column_run.
  destruct (has_col (daily_col cfg) f) eqn:E3; cbn [negb]; [|done].
  rewrite bind_eq, require_column_run.
  destruct (has_col (coverage_days_col cfg) f) eqn:E4; cbn [negb]; [|done].
  apply bool_decide_eq_true in E1.
  match goal with |- ?m f = _ => destruct (m f) as [r fo] eqn:Hb end.
  rewrite (frame_of_id f) in Hb.
  run_in Hb. apply pair_equal_spec in Hb as [<- <-].
  unfold frame_of. do 2 f_equal.
  apply list_fmap_ext. intros i r _.
  unfold F0, F, with_col, machines_of, id. by rewrite !cell_insert_eq.
Qed.


Lemma explode_rows_length c f :
  length (rows (explode c f))
  = sum_list ((λ r, match cell c r with
                    | VList l => length l `max` 1
                    | _ => 1
                    end)%nat <$> rows f).
Proof.
  unfold explode. cbn [rows]. rewrite length_flat_map.
  f_equal. apply list_fmap_ext. intros i r _.
  destruct (cell c r) as [| | | |l|]; try done.
  destruct l as [|m l]; [done|]. rewrite length_fmap. cbn [length]. lia.
Qed.

(** A master table without one of the four columns the builder needs is
    refused with the name of the first missing one, before anything but the
    working copy is made. *)
Theorem builder_reports_first_missing_column (σ : store) master f cfg c :
  σ !! master = Some f →
  List.find (λ c, negb (has_col c f)) (required_columns cfg) = Some c →
  build_production_plan master cfg σ
  = (Raise (ValueError ("Missing required column: " +:+ c)), σ ++ [f]).
Proof.
  intros Hm Hc. rewrite (build_run _ _ _ _ Hm). cbv zeta.
  rewrite prepare_machines_run, Hc. done.
Qed.

(** A run that returns has read the alert column: without it the builder
    does not return (the source calls [.map] on the text [df.get] falls back
    to). *)
Theorem builder_needs_the_alert_column (σ σ' : store) master cfg out :
  input_names_fresh cfg →
  build_production_plan master cfg σ = (Ok out, σ') →
  ∃ f, σ !! master = Some f ∧ has_col (alert_col cfg) f = true ∧
       Forall (λ c, has_col c f = true) (required_columns cfg).
Proof.
  intros Hf Hrun.
  destruct (build_rows_full _ _ _ _ _ Hf Hrun)
    as (f0 & u & f1 & f & sorted & b & Hm & Hp & Ha & _).
  exists f0. split; [done|].
  rewrite prepare_machines_run in Hp.
  destruct (List.find _ (required_columns cfg)) as [c|] eqn:Hfind; [done|].
  injection Hp as <- <-.
  assert (Hreq : Forall (λ c, has_col c f0 = true) (required_columns cfg)).
  { apply Forall_forall. intros c Hc. apply list_elem_of_In in Hc.
    pose proof (List.find_none _ _ Hfind c Hc) as Hn.
    by apply negb_false_iff in Hn. }
  split; [|done].
  unfold explode in Ha. cbn [columns] in Ha.
  apply bool_decide_eq_true.
  apply elem_of_add_col in Ha as [Ha|Ha].
  { exfalso. use_fresh_names Hf. revert Ha. ne_names. }
  apply elem_of_add_col in Ha as [Ha|Ha]; [|done].
  rewrite Ha. apply Forall_cons in Hreq as [Hmc _].
  by apply bool_decide_eq_true in Hmc.
Qed.

(** The plan has one row for every machine of every item: an item whose
    machine cell names k machines between dashes stands k times. *)
Theorem plan_has_a_row_per_item_and_machine (σ σ' : store) master cfg out :
  input_names_fresh cfg →
  build_production_plan master cfg σ = (Ok out, σ') →
  ∃ f fo, σ !! master = Some f ∧ σ' !! out = Some fo ∧
    length (rows fo) = sum_list ((λ r, length (machines_of cfg r)) <$> rows f) ∧
    (length (rows f) ≤ length (rows fo))%nat.
Proof.
  intros Hf Hrun.
  destruct (build_rows_full _ _ _ _ _ Hf Hrun)
    as (f0 & u & f1 & f & sorted & b & Hm & Hp & _ & Hout & Hrows & Hlen & _).
  exists f0, f. do 2 (split; [done|]).
  rewrite prepare_machines_run in Hp.
  destruct (List.find _ (required_columns cfg)) as [c|]; [done|].
  injection Hp as <- <-.
  assert (Hn : length (rows f)
               = sum_list ((λ r, length (machines_of cfg r)) <$> rows f0)).
  { rewrite Hrows, length_zip_with. unfold cumcount.
    rewrite length_cumcount_from, length_fmap, Nat.min_id, Hlen.
    rewrite explode_rows_length. cbn [rows]. rewrite <- list_fmap_compose.
    f_equal. apply list_fmap_ext. intros i r _. cbn.
    rewrite cell_insert_eq.
    pose proof (split_nonempty "-" (py_str (cell (machine_col cfg) r))) as Hne.
    unfold machines_of. destruct (split _ _); [done|]. cbn [length]. lia. }
  split; [done|]. rewrite Hn.
  clear. induction (rows f0) as [|r l IH]; [done|]. csimpl.
  pose proof (split_nonempty "-" (py_str (cell (machine_col cfg) r))) as Hne.
  unfold machines_of at 1. destruct (split _ _); [done|]. cbn [length]. lia.
Qed.


Lemma finished_named cfg b s n :
  input_names_fresh cfg → machine_named s → machine_named (finished cfg b s n).
Proof.
  intros Hf (Hc & Hn & Hs). unfold machine_named.
  rewrite finished_machine by done. split; [|done].
  use_fresh_names Hf. by rewrite cell_finished by ne_names.
Qed.

(** Every row of the plan names a machine: a stripped text that is not
    empty and is neither "nan" nor "None"; an item without a machine is on
    UNSPECIFIED. *)
Theorem plan_rows_name_a_machine (σ σ' : store) master cfg out :
  input_names_fresh cfg →
  build_production_plan master cfg σ = (Ok out, σ') →
  ∃ fo, σ' !! out = Some fo ∧ Forall machine_named (rows fo).
Proof.
  intros Hf Hrun.
  destruct (build_rows_full _ _ _ _ _ Hf Hrun)
    as (f0 & u & f1 & f & sorted & b & _ & _ & _ & Hout & Hrows & _ & Hs & _).
  exists f. split; [done|]. rewrite Hrows.
  apply Forall_lookup. intros i r Hi.
  apply lookup_zip_with_Some in Hi as (s & n & -> & Hsi & _).
  apply finished_named; [done|].
  rewrite Forall_lookup in Hs. by destruct (Hs i s Hsi).
Qed.

Lemma batched_nonneg b raw : (0 <= raw)%Z → (0 <= batched b raw)%Z.
Proof.
  intros Hraw. destruct (batched_spec b raw) as [H0 H1].
  destruct (decide (0 < b)%Z) as [Hb|Hb]; [|rewrite H0; [done|by left]].
  destruct (decide (raw = 0)%Z) as [->|Hne]; [rewrite H0; [done|by right]|].
  destruct (H1 Hb) as (_ & Hle & _); lia.
Qed.

Lemma unrounded_qty_zero gap daily :
  (0 <= gap)%Q → (gap == 0 ∨ daily <= 0)%Q → unrounded_qty gap daily = 0%Z.
Proof.
  intros Hg Hz. unfold unrounded_qty, ceil.
  assert (Hx : (gap * daily <= 0)%Q).
  { destruct Hz as [Hz|Hz]; [rewrite Hz; lra|].
    assert (0 <= gap * - daily)%Q by (apply Qmult_le_0_compat; lra).
    assert (gap * - daily == - (gap * daily))%Q by ring. lra. }
  unfold py_max. rewrite (proj2 (Qltb_ge 0 (gap * daily))) by done.
  apply (Qceiling_Z 0).
Qed.

(** The figures of a computed row are never negative, and nothing is
    proposed where there is no gap or no daily demand. *)
Lemma computed_figures_nonneg cfg r :
  plan_row_computed cfg r →
  (0 <= gap_of r)%Q ∧ (0 <= qty_of r)%Q ∧
  ((gap_of r == 0)%Q ∨ (demand_value (cell (daily_col cfg) r) <= 0)%Q →
   (qty_of r == 0)%Q).
Proof.
  intros (_ & _ & _ & _ & _ & Hg & Hq & _ & _).
  unfold gap_of, qty_of. rewrite Hg, Hq. cbn [num_of].
  unfold row_qty.
  set (daily := demand_value (cell (daily_col cfg) r)).
  assert (Hgap : (0 <= row_gap cfg r)%Q).
  { unfold row_gap, gap_days. apply round_nonneg.
    set (x := (_ - _)%Q). clearbody x.
    destruct (Qmax_cases 0 x) as [[? ->]|[? ->]]; lra. }
  set (gap := row_gap cfg r) in *. clearbody gap daily.
  split; [done|]. split.
  - change 0%Q with (inject_Z 0). rewrite <- Zle_Qle.
    apply batched_nonneg, unrounded_qty_nonneg.
  - intros Hz. rewrite (unrounded_qty_zero gap daily Hgap Hz).
    destruct (batched_spec (batch_round_to cfg) 0) as [H0 _].
    rewrite H0 by (by right). reflexivity.
Qed.

(** In the plan the gap and the proposed quantity are never negative, and
    the quantity is 0 where the gap is 0 or the daily demand is not
    positive. *)
Theorem plan_figures_are_never_negative (σ σ' : store) master cfg out :
  input_names_fresh cfg →
  build_production_plan master cfg σ = (Ok out, σ') →
  ∃ fo, σ' !! out = Some fo ∧
    Forall (λ r, (0 <= gap_of r)%Q ∧ (0 <= qty_of r)%Q ∧
                 ((gap_of r == 0)%Q
                  ∨ (demand_value (cell (daily_col cfg) r) <= 0)%Q →
                  (qty_of r == 0)%Q)) (rows fo).
Proof.
  intros Hf Hrun.
  destruct (build_rows _ _ _ _ _ Hf Hrun) as (f & sorted & b & Hout & Hrows & Hs & _).
  exists f. split; [done|]. rewrite Hrows.
  apply Forall_lookup. intros i r Hi.
  apply lookup_zip_with_Some in Hi as (s & n & -> & Hsi & _).
  rewrite Forall_lookup in Hs.
  pose proof (computed_figures_nonneg cfg s (Hs i s Hsi)) as Hc.
  use_fresh_names Hf. unfold gap_of, qty_of in *.
  by rewrite !cell_finished by ne_names.
Qed.

End builder_more.

Lemma sample_plan_returns :
  build_production_plan (H:=plain_lib) 0 (default_config "Machine No.")
    [plan_input_table]
  = (Ok 4%nat, sample_plan_run.2).
Proof. unfold sample_plan_run. apply pair_with_fst. vm_compute. reflexivity. Qed.

Lemma builder_reports_witness :
  build_production_plan (H:=plain_lib) 0 (default_config "Machine No.")
    [excluded_item_table]
  = (Raise (ValueError ("Missing required column: " +:+ "Machine No.")),
     [excluded_item_table] ++ [excluded_item_table]).
Proof.
  apply (builder_reports_first_missing_column (H:=plain_lib)
           [excluded_item_table] 0 excluded_item_table
           (default_config "Machine No.") "Machine No.").
  - reflexivity.
  - vm_compute. reflexivity.
Defined.

Lemma builder_alert_witness :
  ∃ f, [plan_input_table] !! 0%nat = Some f ∧
       has_col (alert_col (default_config "Machine No.")) f = true ∧
       Forall (λ c, has_col c f = true)
         (required_columns (default_config "Machine No.")).
Proof.
  apply (builder_needs_the_alert_column (H:=plain_lib) [plan_input_table]
           sample_plan_run.2 0 (default_config "Machine No.") 4).
  - exact default_names_fresh.
  - exact sample_plan_returns.
Defined.

Lemma plan_row_count_witness :
  ∃ f fo, [plan_input_table] !! 0%nat = Some f ∧
    sample_plan_run.2 !! 4%nat = Some fo ∧
    length (rows fo)
    = sum_list ((λ r, length (machines_of (H:=plain_lib)
                                (default_config "Machine No.") r)) <$> rows f) ∧
    (length (rows f) ≤ length (rows fo))%nat.
Proof.
  apply (plan_has_a_row_per_item_and_machine (H:=plain_lib) [plan_input_table]
           sample_plan_run.2 0 (default_config "Machine No.") 4).
  - exact default_names_fresh.
  - exact sample_plan_returns.
Defined.

Lemma plan_machine_witness :
  ∃ fo, sample_plan_run.2 !! 4%nat = Some fo ∧ Forall machine_named (rows fo).
Proof.
  apply (plan_rows_name_a_machine (H:=plain_lib) [plan_input_table]
           sample_plan_run.2 0 (default_config "Machine No.") 4).
  - exact default_names_fresh.
  - exact sample_plan_returns.
Defined.

Lemma plan_nonneg_witness :
  ∃ fo, sample_plan_run.2 !! 4%nat = Some fo ∧
    Forall (λ r, (0 <= gap_of r)%Q ∧ (0 <= qty_of r)%Q ∧
                 ((gap_of r == 0)%Q
                  ∨ (demand_value (H:=plain_lib)
                       (cell (daily_col (default_config "Machine No.")) r) <= 0)%Q →
                  (qty_of r == 0)%Q)) (rows fo).
Proof.
  apply (plan_figures_are_never_negative (H:=plain_lib) [plan_input_table]
           sample_plan_run.2 0 (default_config "Machine No.") 4).
  - exact default_names_fresh.
  - exact sample_plan_returns.
Defined.

(** ** production_plan_export.py, continued *)

Lemma sheet_set_sheet_other name name' ws' wb :
  name' ≠ name → sheet name' (set_sheet name ws' wb) = sheet name' wb.
Proof.
  intros Hne. unfold sheet. induction wb as [|[n w] wb IH]; [done|].
  cbn [set_sheet]. destruct (String.eqb n name) eqn:E.
  - apply String.eqb_eq in E as ->. cbn [List.find fst].
    by rewrite (proj2 (String.eqb_neq name name')) by done.
  - cbn [List.find fst]. destruct (String.eqb n name'); [done|]. apply IH.
Qed.

Lemma set_sheet_names name ws' wb : fst <$> set_sheet name ws' wb = fst <$> wb.
Proof.
  induction wb as [|[n w] wb IH]; [done|]. cbn [set_sheet].
  destruct (String.eqb n name); csimpl; [done|]. by rewrite IH.
Qed.

Lemma filter_partition_length {A} (p q k : A → bool) (l : list A) :
  (∀ x, k x = true ↔ (p x = true ∨ q x = true)) →
  (∀ x, p x = true → q x = true → False) →
  length (List.filter k l)
  = (length (List.filter p l) + length (List.filter q l))%nat.
Proof.
  intros Hk Hd. induction l as [|x l IH]; [done|]. cbn [List.filter].
  pose proof (Hk x) as Hx. pose proof (Hd x) as Hdx.
  destruct (k x), (p x), (q x); cbn [length]; try lia;
    exfalso; intuition congruence.
Qed.

Section fill_more.
Context `{PyLib}.

Lemma fill_set_sheet template plan_df ic qc sn hr sr ih qh wb' nf nn um :
  fill_qty_in_client_orders template plan_df ic qc sn hr sr ih qh
    = Ok (wb', nf, nn, um) →
  ∃ ws', wb' = set_sheet sn ws' template.
Proof.
  unfold fill_qty_in_client_orders. cbv zeta.
  repeat match goal with
  | |- context [if ?b then Raise _ else _] => destruct b; [done|]
  | |- context [match ?x with _ => _ end] => destruct x eqn:?; try done
  end.
  intros [= <- _ _ _]. by eexists.
Qed.

(** The fill changes one sheet only: every other sheet of the workbook and
    the order and names of the sheets are as in the template. *)
Theorem fill_leaves_other_sheets template plan_df ic qc sn hr sr ih qh
    wb' nf nn um :
  fill_qty_in_client_orders template plan_df ic qc sn hr sr ih qh
    = Ok (wb', nf, nn, um) →
  fst <$> wb' = fst <$> template ∧
  ∀ name, name ≠ sn → sheet name wb' = sheet name template.
Proof.
  intros Hrun. destruct (fill_set_sheet _ _ _ _ _ _ _ _ _ _ _ _ _ Hrun) as [ws' ->].
  split; [apply set_sheet_names|]. intros name Hne. by apply sheet_set_sheet_other.
Qed.

(** The two counts split the walked rows that have a key: each such row is
    either filled or reported, the list of unmatched keys has one entry per
    reported row, and the quantity column of a reported row is not written. *)
Theorem fill_counts_add_up template plan_df ic qc sn hr sr ih qh wb' nf nn um :
  fill_qty_in_client_orders template plan_df ic qc sn hr sr ih qh
    = Ok (wb', nf, nn, um) →
  ∃ ws ci,
    sheet sn template = Some ws ∧ header_column ws hr ih = Ok ci ∧
    (nf + nn)%nat
    = length (List.filter (λ r, negb (String.eqb (row_key ws ci r) ""))
                (template_rows ws sr)) ∧
    length um = nn ∧
    (nf + nn ≤ max_row ws + 1 - sr)%nat ∧
    Forall (λ k, k ≠ "" ∧ plan_qty_map plan_df ic qc !! k = None) um.
Proof.
  intros Hrun.
  destruct (fill_run _ _ _ _ _ _ _ _ _ _ _ _ _ Hrun)
    as (ws & ci & cq & Hws & Hci & Hcq & st' & Hst & Hws' & -> & -> & ->).
  exists ws, ci. do 2 (split; [done|]).
  destruct (fill_fold (plan_qty_map plan_df ic qc) ci cq (template_rows ws sr)
              {| fs_ws := ws; filled := 0; not_matched := 0; unmatched := [] |}
              (template_rows_NoDup ws sr)) as (_ & _ & Hf & Hn & Hu).
  cbv zeta in Hf, Hn, Hu. rewrite <- Hst in Hf, Hn, Hu.
  cbn [fs_ws filled not_matched unmatched] in Hf, Hn, Hu.
  rewrite Hf, Hn, Hu. cbn [app Nat.add].
  assert (Hsum : length (List.filter (λ r, negb (String.eqb (row_key ws ci r) ""))
                          (template_rows ws sr))
                 = (length (List.filter (matched (plan_qty_map plan_df ic qc) ws ci)
                              (template_rows ws sr))
                    + length (List.filter (not_in_plan (plan_qty_map plan_df ic qc) ws ci)
                                (template_rows ws sr)))%nat).
  { apply filter_partition_length.
    - intros r. unfold matched, not_in_plan.
      destruct (negb _); cbn [andb]; [|intuition congruence].
      rewrite !bool_decide_eq_true.
      destruct (plan_qty_map plan_df ic qc !! row_key ws ci r); split; intros; try done.
      + left. by eexists.
      + by right.
    - intros r. unfold matched, not_in_plan.
      destruct (negb _); cbn [andb]; [|done].
      rewrite !bool_decide_eq_true. intros [q Hq] Hn'. congruence. }
  split; [by symmetry|]. split; [by rewrite length_fmap|]. split.
  - rewrite <- Hsum.
    etransitivity; [apply List.filter_length_le|].
    unfold template_rows. by rewrite length_seq.
  - apply Forall_fmap, Forall_forall. intros r Hr.
    apply list_elem_of_In, List.filter_In in Hr as [_ Hr].
    unfold not_in_plan in Hr. apply andb_true_iff in Hr as [Hk Hq].
    apply negb_true_iff, String.eqb_neq in Hk.
    apply bool_decide_eq_true in Hq. done.
Qed.

(** What the fill checks first: the two plan columns, in that order, then
    the sheet. *)
Theorem fill_validation_order template plan_df ic qc sn hr sr ih qh :
  (has_col ic plan_df = false →
   fill_qty_in_client_orders template plan_df ic qc sn hr sr ih qh
   = Raise (ValueError ("plan_df missing column: " +:+ ic))) ∧
  (has_col ic plan_df = true → has_col qc plan_df = false →
   fill_qty_in_client_orders template plan_df ic qc sn hr sr ih qh
   = Raise (ValueError ("plan_df missing column: " +:+ qc))) ∧
  (has_col ic plan_df = true → has_col qc plan_df = true → ic ≠ qc →
   sheet sn template = None →
   fill_qty_in_client_orders template plan_df ic qc sn hr sr ih qh
   = Raise (ValueError ("Sheet not found: " +:+ sn))).
Proof.
  unfold fill_qty_in_client_orders. cbv zeta.
  split; [|split].
  - by intros ->.
  - by intros -> ->.
  - intros -> -> Hne ->. cbn [negb].
    by rewrite (proj2 (String.eqb_neq ic qc)) by done.
Qed.

End fill_more.

Lemma fill_other_sheets_witness :
  fst <$> sample_filled = fst <$> sample_template ∧
  ∀ name, name ≠ "Clinet Orders" →
    sheet name sample_filled = sheet name sample_template.
Proof.
  apply (fill_leaves_other_sheets (H:=plain_lib) sample_template sample_plan
           "Item No." "Final Qty" "Clinet Orders" 2 3 "Item No." "Qty"
           sample_filled 2 1 ["789"]).
  vm_compute. reflexivity.
Defined.

Lemma fill_counts_witness :
  ∃ ws ci,
    sheet "Clinet Orders" sample_template = Some ws ∧
    header_column (H:=plain_lib) ws 2 "Item No." = Ok ci ∧
    (2 + 1)%nat
    = length (List.filter
                (λ r, negb (String.eqb (row_key (H:=plain_lib) ws ci r) ""))
                (template_rows ws 3)) ∧
    length ["789"] = 1%nat ∧
    (2 + 1 ≤ max_row ws + 1 - 3)%nat ∧
    Forall (λ k, k ≠ "" ∧
                 plan_qty_map (H:=plain_lib) sample_plan "Item No." "Final Qty"
                   !! k = None) ["789"].
Proof.
  apply (fill_counts_add_up (H:=plain_lib) sample_template sample_plan
           "Item No." "Final Qty" "Clinet Orders" 2 3 "Item No." "Qty"
           sample_filled 2 1 ["789"]).
  vm_compute. reflexivity.
Defined.
